(** * Snoweyy/trading-bot: validators, signed REST client and order dispatch

    A shallow embedding of [bot/validators.py], [bot/client.py] and
    [bot/orders.py], and the properties of the repository's specification
    stated over it.

    Modelling conventions.
    - Text.  A [string] stands for a Python [str] whose code points are all
      below 128; [str.strip], [str.upper], [str.isalnum] and [float] are
      embedded on that repertoire.  The module [Unicode] gives the three
      methods, and the validators of text, on every [str]; below 128 they
      are proved to be those of [PyStr] and [Validators].
    - Numbers.  Python [int] is [Z]; Python [float] is IEEE-754 binary64,
      carried by [spec_float] with precision 53 and [emax] 1024.
    - Exceptions.  A computation returns [Ok v] or [Raise e].
    - Effects.  The clock, the HTTP session, the log and the heap of
      dictionaries are threaded explicitly through a state monad. *)

From Stdlib Require Import ZArith List String Ascii Bool Lia.
From Stdlib Require Import SpecFloat.
Import ListNotations.
Local Open Scope list_scope.
Local Open Scope string_scope.
Local Open Scope Z_scope.

(* ===================================================================== *)
(** * Python text on the ASCII repertoire *)
(* ===================================================================== *)

Module PyStr.

Definition ord (c : ascii) : Z := Z.of_N (N_of_ascii c).
Definition chr (z : Z) : ascii := ascii_of_N (Z.to_N z).

Definition between (lo hi : Z) (c : ascii) : bool :=
  (lo <=? ord c) && (ord c <=? hi).

Definition is_digit (c : ascii) : bool := between 48 57 c.
Definition is_upper (c : ascii) : bool := between 65 90 c.
Definition is_lower (c : ascii) : bool := between 97 122 c.

(** [str.isspace] on one character: TAB, LF, VT, FF, CR, the four
    information separators 0x1c..0x1f, and the space. *)
Definition isspace (c : ascii) : bool :=
  between 9 13 c || between 28 32 c.

(** [str.isalnum] on one character of the repertoire; on any code point
    it is [Unicode.isalnum_char]. *)
Definition isalnum_char (c : ascii) : bool :=
  is_digit c || is_upper c || is_lower c.

Definition upper_char (c : ascii) : ascii :=
  if is_lower c then chr (ord c - 32) else c.

Definition lower_char (c : ascii) : ascii :=
  if is_upper c then chr (ord c + 32) else c.

(** The repertoire of the model. *)
Definition is_ascii_char (c : ascii) : bool := ord c <? 128.

Fixpoint forallb_str (p : ascii -> bool) (s : string) : bool :=
  match s with
  | EmptyString => true
  | String c s' => p c && forallb_str p s'
  end.

Definition is_ascii (s : string) : bool := forallb_str is_ascii_char s.

Fixpoint map_str (f : ascii -> ascii) (s : string) : string :=
  match s with
  | EmptyString => EmptyString
  | String c s' => String (f c) (map_str f s')
  end.

(** [s.upper()] and [s.lower()] on the repertoire; on any text [s.upper()]
    is [Unicode.upper], which can change the length of the text. *)
Definition upper (s : string) : string := map_str upper_char s.
Definition lower (s : string) : string := map_str lower_char s.

(** [s.isalnum()]: every character is alphanumeric and there is at least
    one character. *)
Definition isalnum (s : string) : bool :=
  match s with
  | EmptyString => false
  | _ => forallb_str isalnum_char s
  end.

Section Strip.
Variable sp : ascii -> bool.

Fixpoint lstrip_by (s : string) : string :=
  match s with
  | EmptyString => EmptyString
  | String c s' => if sp c then lstrip_by s' else s
  end.

Fixpoint rstrip_by (s : string) : string :=
  match s with
  | EmptyString => EmptyString
  | String c s' =>
      match rstrip_by s' with
      | EmptyString => if sp c then EmptyString else String c EmptyString
      | r => String c r
      end
  end.

Definition strip_by (s : string) : string := rstrip_by (lstrip_by s).
End Strip.

(** [s.strip()]. *)
Definition strip (s : string) : string := strip_by isspace s.

(** Truthiness of a [str]: [not s] holds exactly for the empty string. *)
Definition is_empty (s : string) : bool :=
  match s with EmptyString => true | _ => false end.

Definition digit_char (d : Z) : ascii := chr (48 + d).

(** Decimal digits of a non-negative integer, most significant first. *)
Fixpoint digits_fuel (fuel : nat) (n : Z) (acc : string) : string :=
  match fuel with
  | O => acc
  | S fuel' =>
      let acc' := String (digit_char (n mod 10)) acc in
      if n <? 10 then acc' else digits_fuel fuel' (n / 10) acc'
  end.

Definition digits_of (n : Z) : string :=
  digits_fuel (S (Z.to_nat (Z.log2 n))) n EmptyString.

(** [str(n)] for an [int]. *)
Definition str_of_int (n : Z) : string :=
  if n <? 0 then String "-" (digits_of (- n)) else digits_of n.

Fixpoint join (sep : string) (l : list string) : string :=
  match l with
  | [] => EmptyString
  | [x] => x
  | x :: l' => x ++ sep ++ join sep l'
  end.

End PyStr.

(* ===================================================================== *)
(** * Python floats: binary64 *)
(* ===================================================================== *)

Module PyFloat.
Import PyStr.

Definition prec : Z := 53.
Definition emax : Z := 1024.

Definition float := spec_float.

Definition zero : float := S754_zero false.
Definition nan : float := S754_nan.
Definition infinity (neg : bool) : float := S754_infinity neg.

(** [x <= y] and [x < y] on floats; both are [False] when either side is
    a NaN. *)
Definition leb (x y : float) : bool := SFleb x y.
Definition ltb (x y : float) : bool := SFltb x y.

(** [float(n)] for an [int]: the nearest double, ties to even; [None]
    stands for [OverflowError]. *)
Definition of_int (n : Z) : option float :=
  match binary_normalize prec emax n 0 false with
  | S754_infinity _ => None
  | f => Some f
  end.

(** The double nearest to [d * 10 ^ x], for [0 <= d]. *)
Definition of_decimal (neg : bool) (d x : Z) : float :=
  match d with
  | Zpos p =>
      if 0 <=? x
      then binary_normalize prec emax (if neg then - (d * 10 ^ x) else d * 10 ^ x) 0 neg
      else
        let '(q, e, l) := SFdiv_core_binary prec emax d 0 (10 ^ (- x)) 0 in
        binary_round_aux prec emax neg q e l
  | _ => S754_zero neg
  end.

(** ** [float(s)] for a [str] *)

(** What [float] strips from both ends of an ASCII [str] (C [isspace]). *)
Definition is_float_space (c : ascii) : bool :=
  between 9 13 c || (ord c =? 32).

Definition is_underscore (c : ascii) : bool := ord c =? 95.

(** PEP 515: an underscore stands between two digits.  The scan starts
    with the NUL character as the previous one. *)
Definition zero_char : ascii := chr 0.

Fixpoint underscores_ok (prev : ascii) (s : string) : bool :=
  match s with
  | EmptyString => negb (is_underscore prev)
  | String c s' =>
      (if is_underscore c then is_digit prev
       else if is_underscore prev then is_digit c else true)
      && underscores_ok c s'
  end.

Fixpoint remove_underscores (s : string) : string :=
  match s with
  | EmptyString => EmptyString
  | String c s' =>
      if is_underscore c then remove_underscores s'
      else String c (remove_underscores s')
  end.

(** Longest prefix of digits: its value, its length, and what follows. *)
Fixpoint span_digits (acc : Z) (len : Z) (s : string) : Z * Z * string :=
  match s with
  | String c s' =>
      if is_digit c then span_digits (10 * acc + (ord c - 48)) (len + 1) s'
      else (acc, len, s)
  | EmptyString => (acc, len, s)
  end.

Definition take_sign (s : string) : bool * string :=
  match s with
  | String c s' =>
      if ord c =? 45 then (true, s')
      else if ord c =? 43 then (false, s')
      else (false, s)
  | EmptyString => (false, s)
  end.

(** [digits [. digits] [(e|E) [sign] digits]] with at least one digit in
    the mantissa; the result is [(d, x)] for the value [d * 10 ^ x]. *)
Definition parse_decimal (s : string) : option (Z * Z) :=
  let '(ip, iplen, r1) := span_digits 0 0 s in
  let '(d, fplen, r2) :=
    match r1 with
    | String c r =>
        if ord c =? 46
        then let '(d, n, r') := span_digits ip 0 r in (d, n, r')
        else (ip, 0, r1)
    | EmptyString => (ip, 0, r1)
    end in
  if iplen + fplen =? 0 then None
  else
    match r2 with
    | EmptyString => Some (d, - fplen)
    | String c r3 =>
        if (ord c =? 101) || (ord c =? 69) then
          let '(eneg, r4) := take_sign r3 in
          let '(ev, elen, r5) := span_digits 0 0 r4 in
          if (elen =? 0) || negb (is_empty r5) then None
          else Some (d, (if eneg then - ev else ev) - fplen)
        else None
    end.

Definition parse_number (s : string) : option float :=
  let '(neg, body) := take_sign s in
  let w := lower body in
  if (w =? "inf")%string || (w =? "infinity")%string then Some (infinity neg)
  else if (w =? "nan")%string then Some nan
  else
    match parse_decimal body with
    | Some (d, x) => Some (of_decimal neg d x)
    | None => None
    end.

(** [float(s)]; [None] stands for [ValueError]. *)
Definition of_string (s : string) : option float :=
  let t := strip_by is_float_space s in
  if underscores_ok zero_char t then parse_number (remove_underscores t)
  else None.

(** ** [repr(x)]: the shortest decimal text that reads back as [x] *)

(** A positive finite double [m * 2 ^ e] as the fraction [num / den]. *)
Definition as_fraction (m : positive) (e : Z) : Z * Z :=
  if 0 <=? e then (Zpos m * 2 ^ e, 1) else (Zpos m, 2 ^ (- e)).

(** For [num / den < 1]: the number of zeros after the decimal point. *)
Fixpoint leading_zeros (fuel : nat) (num den : Z) (k : Z) : Z :=
  match fuel with
  | O => k
  | S fuel' =>
      if 10 * num <? den then leading_zeros fuel' (10 * num) den (k + 1)
      else k
  end.

(** The position of the decimal point: the [k] with
    [10 ^ (k - 1) <= num / den < 10 ^ k]. *)
Definition decimal_point (num den : Z) : Z :=
  if den <=? num then Z.of_nat (String.length (digits_of (num / den)))
  else - leading_zeros 400 num den 0.

Definition scale10 (num den k : Z) : Z * Z :=
  if 0 <=? k then (num * 10 ^ k, den) else (num, den * 10 ^ (- k)).

(** The [n]-digit decimals next to [num / den]: [(D, k)] stands for
    [D * 10 ^ (k - n)]; the nearer one comes first. *)
Definition candidates (num den n k : Z) : list Z :=
  let '(a, b) := scale10 num den (n - k) in
  let lo := a / b in
  let r := a mod b in
  if r =? 0 then [lo]
  else
    match 2 * r ?= b with
    | Lt => [lo; lo + 1]
    | Gt => [lo + 1; lo]
    | Eq => if Z.even lo then [lo; lo + 1] else [lo + 1; lo]
    end.

Definition float_eqb (x y : float) : bool :=
  match x, y with
  | S754_finite s m e, S754_finite s' m' e' =>
      Bool.eqb s s' && (Zpos m =? Zpos m') && (e =? e')
  | S754_zero s, S754_zero s' => Bool.eqb s s'
  | S754_infinity s, S754_infinity s' => Bool.eqb s s'
  | S754_nan, S754_nan => true
  | _, _ => false
  end.

Definition reads_back (x : float) (n k D : Z) : bool :=
  float_eqb (of_decimal false D (k - n)) x.

Fixpoint shortest (fuel : nat) (x : float) (num den k n : Z) : Z * Z :=
  match fuel with
  | O => (hd 0 (candidates num den n k), n)
  | S fuel' =>
      match filter (reads_back x n k) (candidates num den n k) with
      | D :: _ => (D, n)
      | [] => shortest fuel' x num den k (n + 1)
      end
  end.

Fixpoint rstrip_zeros (s : string) : string :=
  match s with
  | EmptyString => EmptyString
  | String c s' =>
      match rstrip_zeros s' with
      | EmptyString => if ord c =? 48 then EmptyString else String c EmptyString
      | r => String c r
      end
  end.

Fixpoint zeros (n : nat) : string :=
  match n with O => EmptyString | S n' => String "0" (zeros n') end.

(** The digits of the shortest decimal and the position of its point. *)
Definition shortest_digits (m : positive) (e : Z) : string * Z :=
  let '(num, den) := as_fraction m e in
  let k := decimal_point num den in
  let '(D, n) := shortest 16 (S754_finite false m e) num den k 1 in
  let ds := digits_of D in
  (rstrip_zeros ds, k + (Z.of_nat (String.length ds) - n)).

Definition exponent_text (x : Z) : string :=
  let a := digits_of (Z.abs x) in
  let sign : ascii := if x <? 0 then "-"%char else "+"%char in
  String "e" (String sign (if Z.abs x <? 10 then String "0" a else a)).

(** Layout of [repr]: exponent form when the point lies at or before
    -4 or beyond 16, positional form with a fraction otherwise. *)
Definition layout (ds : string) (k : Z) : string :=
  let n := Z.of_nat (String.length ds) in
  if (k <=? -4) || (16 <? k) then
    match ds with
    | String c EmptyString => String c (exponent_text (k - 1))
    | String c rest => String c (String "." (rest ++ exponent_text (k - 1)))
    | EmptyString => EmptyString
    end
  else if k <=? 0 then "0." ++ zeros (Z.to_nat (- k)) ++ ds
  else if n <=? k then ds ++ zeros (Z.to_nat (k - n)) ++ ".0"
  else substring 0 (Z.to_nat k) ds ++ "." ++
       substring (Z.to_nat k) (Z.to_nat (n - k)) ds.

(** [repr(x)], which is also [str(x)]. *)
Definition repr (x : float) : string :=
  match x with
  | S754_nan => "nan"
  | S754_infinity neg => if neg then "-inf" else "inf"
  | S754_zero neg => if neg then "-0.0" else "0.0"
  | S754_finite neg m e =>
      let '(ds, k) := shortest_digits m e in
      (if neg then "-" else "") ++ layout ds k
  end.

End PyFloat.

(* ===================================================================== *)
(** * Python values, dictionaries and exceptions *)
(* ===================================================================== *)

Module Py.
Import PyStr.

(** The scalar values that travel as user input and request parameters. *)
Inductive pyval : Type :=
| PNone
| PBool (b : bool)
| PInt (z : Z)
| PFloat (f : PyFloat.float)
| PStr (s : string).

(** What [json.loads] can return. *)
#[warnings="-register-all"]
Inductive json : Type :=
| JNull
| JBool (b : bool)
| JInt (z : Z)
| JFloat (f : PyFloat.float)
| JStr (s : string)
| JArr (items : list json)
| JObj (fields : list (string * json)).

(** [str(v)], also what an f-string writes for [{v}]. *)
Definition str (v : pyval) : string :=
  match v with
  | PNone => "None"
  | PBool true => "True"
  | PBool false => "False"
  | PInt z => str_of_int z
  | PFloat f => PyFloat.repr f
  | PStr s => s
  end.

(** ** Insertion-ordered dictionaries with [str] keys *)

Section Dict.
Variable V : Type.

Definition dict := list (string * V).

Fixpoint get (k : string) (d : dict) : option V :=
  match d with
  | [] => None
  | (k', v) :: d' => if (k' =? k)%string then Some v else get k d'
  end.

(** [d[k] = v]: an existing key keeps its position and takes the new
    value; a new key goes to the end. *)
Fixpoint set (k : string) (v : V) (d : dict) : dict :=
  match d with
  | [] => [(k, v)]
  | (k', v') :: d' =>
      if (k' =? k)%string then (k, v) :: d' else (k', v') :: set k v d'
  end.

Definition keys (d : dict) : list string := map fst d.

Definition has_key (k : string) (d : dict) : bool :=
  match get k d with Some _ => true | None => false end.

(** [d.get(k, default)]. *)
Definition get_default (k : string) (default : V) (d : dict) : V :=
  match get k d with Some v => v | None => default end.

(** A dictionary literal [{k1: v1, ...}], built left to right. *)
Definition literal (items : list (string * V)) : dict :=
  fold_left (fun d kv => set (fst kv) (snd kv) d) items [].
End Dict.

Arguments get {V} k d.
Arguments set {V} k v d.
Arguments keys {V} d.
Arguments has_key {V} k d.
Arguments get_default {V} k default d.
Arguments literal {V} items.

(** [v is None]. *)
Definition is_none (v : pyval) : bool :=
  match v with PNone => true | _ => false end.

(** ** Exceptions *)

Inductive exn : Type :=
| ValidationError (msg : string)
| EnvironmentError (msg : string)
| BinanceAPIError (status_code : Z) (code : json) (message : json)
| ConnectionError
| Timeout
| RequestException (what : string)
| JSONDecodeError
| AttributeError
| TypeError
| ValueError
| OverflowError.

(** [isinstance(e, Exception)]: every exception of the model is one. *)
Definition is_Exception (e : exn) : bool := true.

Inductive result (A : Type) : Type :=
| Ok (a : A)
| Raise (e : exn).
Arguments Ok {A} a.
Arguments Raise {A} e.

Definition bind {A B} (r : result A) (k : A -> result B) : result B :=
  match r with
  | Ok a => k a
  | Raise e => Raise e
  end.

Definition is_ok {A} (r : result A) : bool :=
  match r with Ok _ => true | Raise _ => false end.

End Py.

Declare Scope py_scope.
Delimit Scope py_scope with py.
Notation "'let+' x ':=' r 'in' k" :=
  (Py.bind r (fun x => k))
  (at level 10, x pattern, r at level 100, k at level 200) : py_scope.

(* ===================================================================== *)
(** * bot/validators.py *)
(* ===================================================================== *)

Module Validators.
Import PyStr Py.
Local Open Scope py_scope.

Definition VALID_SIDES : list string := ["BUY"; "SELL"].
Definition VALID_ORDER_TYPES : list string := ["MARKET"; "LIMIT"; "TAKE_PROFIT"].

(** [x in S] for a set or tuple of strings. *)
Definition str_in (x : string) (S : list string) : bool :=
  existsb (String.eqb x) S.

(** [sorted(S)] for strings: insertion sort by code-point order. *)
Fixpoint insert_sorted (x : string) (l : list string) : list string :=
  match l with
  | [] => [x]
  | y :: l' => if String.leb x y then x :: l else y :: insert_sorted x l'
  end.

Definition sorted (l : list string) : list string :=
  fold_right insert_sorted [] l.

Definition validate_symbol (symbol : string) : result string :=
  let symbol := upper (strip symbol) in
  if is_empty symbol then
    Raise (ValidationError "Symbol cannot be empty.")
  else if negb (isalnum symbol) then
    Raise (ValidationError
      ("Symbol '" ++ symbol ++
       "' must contain only letters and numbers (e.g. BTCUSDT)."))
  else Ok symbol.

Definition validate_side (side : string) : result string :=
  let side := upper (strip side) in
  if negb (str_in side VALID_SIDES) then
    Raise (ValidationError
      ("Invalid side '" ++ side ++ "'. Must be one of: " ++
       join ", " (sorted VALID_SIDES) ++ "."))
  else Ok side.

Definition validate_order_type (order_type : string) : result string :=
  let order_type := upper (strip order_type) in
  if negb (str_in order_type VALID_ORDER_TYPES) then
    Raise (ValidationError
      ("Invalid order type '" ++ order_type ++ "'. Must be one of: " ++
       join ", " (sorted VALID_ORDER_TYPES) ++ "."))
  else Ok order_type.

(** [float(v)].  A [str] that does not read as a number raises
    [ValueError], [None] raises [TypeError], an [int] beyond the range of
    doubles raises [OverflowError]. *)
Definition py_float (v : pyval) : result PyFloat.float :=
  match v with
  | PNone => Raise TypeError
  | PBool b => Ok (if b then PyFloat.of_decimal false 1 0 else PyFloat.zero)
  | PInt z =>
      match PyFloat.of_int z with
      | Some f => Ok f
      | None => Raise OverflowError
      end
  | PFloat f => Ok f
  | PStr s =>
      match PyFloat.of_string s with
      | Some f => Ok f
      | None => Raise ValueError
      end
  end.

(** [try: x = float(v)  except (TypeError, ValueError): raise
    ValidationError(msg)]; any other exception passes through. *)
Definition float_or (msg : string) (v : pyval) : result PyFloat.float :=
  match py_float v with
  | Ok x => Ok x
  | Raise TypeError | Raise ValueError => Raise (ValidationError msg)
  | Raise e => Raise e
  end.

Definition validate_quantity (quantity : pyval) : result PyFloat.float :=
  let+ qty :=
    float_or ("Quantity '" ++ str quantity ++ "' is not a valid number.")
             quantity in
  if PyFloat.leb qty PyFloat.zero then
    Raise (ValidationError
      ("Quantity must be greater than 0. Got: " ++ PyFloat.repr qty))
  else Ok qty.

Definition validate_price (price : pyval) : result PyFloat.float :=
  if is_none price then
    Raise (ValidationError "Price is required for LIMIT orders.")
  else
    let+ p :=
      float_or ("Price '" ++ str price ++ "' is not a valid number.") price in
    if PyFloat.leb p PyFloat.zero then
      Raise (ValidationError
        ("Price must be greater than 0. Got: " ++ PyFloat.repr p))
    else Ok p.

Definition validate_stop_price (stop_price : pyval) : result PyFloat.float :=
  if is_none stop_price then
    Raise (ValidationError
      "Stop price (--stop-price) is required for STOP_MARKET orders.")
  else
    let+ sp :=
      float_or ("Stop price '" ++ str stop_price ++ "' is not a valid number.")
               stop_price in
    if PyFloat.leb sp PyFloat.zero then
      Raise (ValidationError
        ("Stop price must be greater than 0. Got: " ++ PyFloat.repr sp))
    else Ok sp.

Definition validate_all
    (symbol side order_type : string)
    (quantity price stop_price : pyval) : result (dict pyval) :=
  let+ order_type_validated := validate_order_type order_type in
  let+ symbol_validated := validate_symbol symbol in
  let+ side_validated := validate_side side in
  let validated :=
    literal [("symbol", PStr symbol_validated);
             ("side", PStr side_validated);
             ("order_type", PStr order_type_validated)] in
  let+ validated :=
    if str_in order_type_validated ["MARKET"; "LIMIT"] then
      if is_none quantity then
        Raise (ValidationError
          ("--qty is required for " ++ order_type_validated ++ " orders."))
      else
        let+ q := validate_quantity quantity in
        Ok (set "quantity" (PFloat q) validated)
    else Ok validated in
  let+ validated :=
    if (order_type_validated =? "LIMIT")%string then
      let+ p := validate_price price in
      Ok (set "price" (PFloat p) validated)
    else Ok validated in
  let+ validated :=
    if (order_type_validated =? "TAKE_PROFIT")%string then
      let+ sp := validate_stop_price stop_price in
      Ok (set "stop_price" (PFloat sp) validated)
    else Ok validated in
  Ok validated.

End Validators.

(* ===================================================================== *)
(** * SHA-256 and HMAC (hashlib, hmac) *)
(* ===================================================================== *)

Module Sha256.
Local Open Scope list_scope.
Local Open Scope Z_scope.

Definition bytes := list Byte.byte.

Definition byte_val (b : Byte.byte) : Z := Z.of_N (Byte.to_N b).

Definition byte_of (z : Z) : Byte.byte :=
  match Byte.of_N (Z.to_N (z mod 256)) with
  | Some b => b
  | None => Byte.x00
  end.

(** [s.encode("utf-8")] on the ASCII repertoire: one byte per character. *)
Definition encode (s : string) : bytes := list_byte_of_string s.

(** ** 32-bit words as [Z] with explicit wrap-around *)

Definition wrap (x : Z) : Z := x mod 2 ^ 32.
Definition add32 (x y : Z) : Z := wrap (x + y).
Definition not32 (x : Z) : Z := Z.lxor x (2 ^ 32 - 1).
Definition rotr (n x : Z) : Z := Z.lor (Z.shiftr x n) (wrap (Z.shiftl x (32 - n))).
Definition xor3 (x y z : Z) : Z := Z.lxor (Z.lxor x y) z.

Definition Ch (x y z : Z) : Z := Z.lxor (Z.land x y) (Z.land (not32 x) z).
Definition Maj (x y z : Z) : Z := xor3 (Z.land x y) (Z.land x z) (Z.land y z).
Definition Sigma0 (x : Z) : Z := xor3 (rotr 2 x) (rotr 13 x) (rotr 22 x).
Definition Sigma1 (x : Z) : Z := xor3 (rotr 6 x) (rotr 11 x) (rotr 25 x).
Definition sigma0 (x : Z) : Z := xor3 (rotr 7 x) (rotr 18 x) (Z.shiftr x 3).
Definition sigma1 (x : Z) : Z := xor3 (rotr 17 x) (rotr 19 x) (Z.shiftr x 10).

(** ** The constants, from their definition in FIPS 180-4: the first 32
    bits of the fractional parts of the square roots of the first 8 primes
    and of the cube roots of the first 64 primes. *)

Fixpoint has_divisor (fuel : nat) (d n : Z) : bool :=
  match fuel with
  | O => false
  | S fuel' =>
      if n <? d * d then false
      else if n mod d =? 0 then true
      else has_divisor fuel' (d + 1) n
  end.

Definition is_prime (n : Z) : bool :=
  (2 <=? n) && negb (has_divisor (Z.to_nat n) 2 n).

Fixpoint primes_from (fuel : nat) (count : nat) (n : Z) : list Z :=
  match fuel, count with
  | _, O => []
  | O, _ => []
  | S fuel', S count' =>
      if is_prime n then n :: primes_from fuel' count' (n + 1)
      else primes_from fuel' count (n + 1)
  end.

Definition first_primes (count : nat) : list Z := primes_from 400 count 2.

(** Integer cube root, one bit at a time from bit [b] down. *)
Fixpoint cbrt_bits (b : nat) (n r : Z) : Z :=
  let try_bit (k : Z) :=
    let r' := r + 2 ^ k in
    if r' * r' * r' <=? n then r' else r in
  match b with
  | O => try_bit 0
  | S b' => cbrt_bits b' n (try_bit (Z.of_nat b))
  end.

Definition cbrt (n : Z) : Z := cbrt_bits 40 n 0.

Definition H0 : list Z :=
  Eval vm_compute in map (fun p => wrap (Z.sqrt (p * 2 ^ 64))) (first_primes 8).

Definition K : list Z :=
  Eval vm_compute in map (fun p => wrap (cbrt (p * 2 ^ 96))) (first_primes 64).

(** ** Padding and parsing *)

(** Big-endian bytes of [x], [n] of them. *)
Fixpoint be_bytes (n : nat) (x : Z) : bytes :=
  match n with
  | O => []
  | S n' => byte_of (Z.shiftr x (8 * Z.of_nat n')) :: be_bytes n' x
  end.

Definition pad (msg : bytes) : bytes :=
  let len := Z.of_nat (List.length msg) in
  let k := (55 - len) mod 64 in
  msg ++ [Byte.x80] ++ repeat Byte.x00 (Z.to_nat k) ++ be_bytes 8 (8 * len).

Fixpoint be_word (bs : bytes) (acc : Z) : Z :=
  match bs with
  | [] => acc
  | b :: bs' => be_word bs' (256 * acc + byte_val b)
  end.

(** [n] consecutive big-endian words read from [bs]. *)
Fixpoint words (n : nat) (bs : bytes) : list Z :=
  match n with
  | O => []
  | S n' => be_word (firstn 4 bs) 0 :: words n' (skipn 4 bs)
  end.

(** ** Message schedule; [recent] holds the words so far, newest first. *)

Fixpoint schedule (n : nat) (recent : list Z) : list Z :=
  match n with
  | O => rev recent
  | S n' =>
      let w := add32 (add32 (sigma1 (nth 1 recent 0)) (nth 6 recent 0))
                     (add32 (sigma0 (nth 14 recent 0)) (nth 15 recent 0)) in
      schedule n' (w :: recent)
  end.

(** ** Compression *)

Record state := State {
  va : Z; vb : Z; vc : Z; vd : Z; ve : Z; vf : Z; vg : Z; vh : Z
}.

Definition round (s : state) (kw : Z * Z) : state :=
  let '(k, w) := kw in
  let t1 := add32 (add32 (add32 (vh s) (Sigma1 (ve s)))
                         (add32 (Ch (ve s) (vf s) (vg s)) k)) w in
  let t2 := add32 (Sigma0 (va s)) (Maj (va s) (vb s) (vc s)) in
  State (add32 t1 t2) (va s) (vb s) (vc s) (add32 (vd s) t1) (ve s) (vf s) (vg s).

Definition add_state (s t : state) : state :=
  State (add32 (va s) (va t)) (add32 (vb s) (vb t))
        (add32 (vc s) (vc t)) (add32 (vd s) (vd t))
        (add32 (ve s) (ve t)) (add32 (vf s) (vf t))
        (add32 (vg s) (vg t)) (add32 (vh s) (vh t)).

Definition compress (s : state) (block : bytes) : state :=
  let w := schedule 48 (rev (words 16 block)) in
  add_state s (fold_left round (combine K w) s).

Fixpoint blocks (n : nat) (s : state) (bs : bytes) : state :=
  match n with
  | O => s
  | S n' => blocks n' (compress s (firstn 64 bs)) (skipn 64 bs)
  end.

Definition initial : state :=
  State (nth 0 H0 0) (nth 1 H0 0) (nth 2 H0 0) (nth 3 H0 0)
        (nth 4 H0 0) (nth 5 H0 0) (nth 6 H0 0) (nth 7 H0 0).

Definition state_bytes (s : state) : bytes :=
  be_bytes 4 (va s) ++ be_bytes 4 (vb s) ++ be_bytes 4 (vc s) ++
  be_bytes 4 (vd s) ++ be_bytes 4 (ve s) ++ be_bytes 4 (vf s) ++
  be_bytes 4 (vg s) ++ be_bytes 4 (vh s).

(** [hashlib.sha256(msg).digest()]. *)
Definition sha256 (msg : bytes) : bytes :=
  let p := pad msg in
  state_bytes (blocks (Nat.div (List.length p) 64) initial p).

(** ** HMAC (RFC 2104) with SHA-256; the block size is 64 bytes. *)

Definition xor_byte (c : Z) (b : Byte.byte) : Byte.byte :=
  byte_of (Z.lxor c (byte_val b)).

Definition key_block (key : bytes) : bytes :=
  let k := if (64 <? List.length key)%nat then sha256 key else key in
  k ++ repeat Byte.x00 (64 - List.length k).

(** [hmac.new(key, msg, hashlib.sha256).digest()]. *)
Definition hmac_sha256 (key msg : bytes) : bytes :=
  let kb := key_block key in
  sha256 (map (xor_byte 92) kb ++ sha256 (map (xor_byte 54) kb ++ msg)).

(** ** Hexadecimal text, lower case *)

Definition hex_digit (d : Z) : ascii :=
  if d <? 10 then PyStr.chr (48 + d) else PyStr.chr (87 + d).

Fixpoint hex (bs : bytes) : string :=
  match bs with
  | [] => EmptyString
  | b :: bs' =>
      String (hex_digit (byte_val b / 16))
        (String (hex_digit (byte_val b mod 16)) (hex bs'))
  end.

(** [hmac.new(key, msg, hashlib.sha256).hexdigest()]. *)
Definition hmac_sha256_hex (key msg : bytes) : string :=
  hex (hmac_sha256 key msg).

End Sha256.

(* ===================================================================== *)
(** * urllib.parse.urlencode *)
(* ===================================================================== *)

Module UrlEncode.
Import PyStr Py.

(** Characters [quote] never escapes: letters, digits and [_.-~]. *)
Definition unreserved (c : ascii) : bool :=
  isalnum_char c || (ord c =? 95) || (ord c =? 46) || (ord c =? 45)
  || (ord c =? 126).

Definition upper_hex_digit (d : Z) : ascii :=
  if d <? 10 then chr (48 + d) else chr (55 + d).

(** [quote_plus(s)]: a space becomes [+], an unreserved character stays,
    anything else becomes [%XX]. *)
Fixpoint quote_plus (s : string) : string :=
  match s with
  | EmptyString => EmptyString
  | String c s' =>
      if unreserved c then String c (quote_plus s')
      else if ord c =? 32 then String "+" (quote_plus s')
      else String "%" (String (upper_hex_digit (ord c / 16))
             (String (upper_hex_digit (ord c mod 16)) (quote_plus s')))
  end.

Definition encode_pair (kv : string * pyval) : string :=
  quote_plus (fst kv) ++ "=" ++ quote_plus (str (snd kv)).

(** [urlencode(params)]: the pairs in dictionary order, joined by [&]. *)
Definition urlencode (params : dict pyval) : string :=
  join "&" (map encode_pair params).

End UrlEncode.

(** Reading a query string back: the inverse of [urlencode] on text,
    after [urllib.parse.parse_qsl] with blank values kept. *)
Module UrlDecode.
Import PyStr Py UrlEncode.

Definition hex_value (c : ascii) : Z :=
  if is_digit c then ord c - 48 else ord c - 55.

(** [unquote_plus(s)]. *)
Fixpoint unquote_plus (s : string) : string :=
  match s with
  | EmptyString => EmptyString
  | String c s' =>
      if ord c =? 43 then String " " (unquote_plus s')
      else if ord c =? 37 then
        match s' with
        | String h1 (String h2 rest) =>
            String (chr (16 * hex_value h1 + hex_value h2)) (unquote_plus rest)
        | _ => s
        end
      else String c (unquote_plus s')
  end.

(** [s.split(sep)] for a separator of one character. *)
Fixpoint split_on (sep : Z) (s : string) : list string :=
  match s with
  | EmptyString => [EmptyString]
  | String c s' =>
      if ord c =? sep then EmptyString :: split_on sep s'
      else
        match split_on sep s' with
        | piece :: pieces => String c piece :: pieces
        | [] => [String c EmptyString]
        end
  end.

(** [s.partition(sep)] without the separator. *)
Fixpoint cut (sep : Z) (s : string) : string * string :=
  match s with
  | EmptyString => (EmptyString, EmptyString)
  | String c s' =>
      if ord c =? sep then (EmptyString, s')
      else let '(a, b) := cut sep s' in (String c a, b)
  end.

Definition decode_pair (piece : string) : string * string :=
  let '(k, v) := cut 61 piece in (unquote_plus k, unquote_plus v).

Definition parse_qsl (query : string) : list (string * string) :=
  if is_empty query then [] else map decode_pair (split_on 38 query).

(** The text has no character with code [sep]. *)
Definition free_of (sep : Z) (s : string) : bool :=
  forallb_str (fun c => negb (ord c =? sep)) s.

(** What [quote_plus] writes for one character. *)
Definition quote_char (c : ascii) : string :=
  if unreserved c then String c EmptyString
  else if ord c =? 32 then "+"
  else String "%" (String (upper_hex_digit (ord c / 16))
         (String (upper_hex_digit (ord c mod 16)) EmptyString)).

End UrlDecode.

(* ===================================================================== *)
(** * The world the client runs in *)
(* ===================================================================== *)

Module Env.
Import Py.

(** A [requests.Response]: its status code and the outcome of [.json()],
    [None] when the body is not JSON and [.json()] raises.  The record
    leaves the two fields independent; an answer whose status carries no
    body (1xx, 204, 304) always comes with [json_body = None]. *)
Record Response := {
  status_code : Z;
  json_body : option json
}.

(** [response.ok]: no 4xx and no 5xx status. *)
Definition ok (r : Response) : bool :=
  negb ((400 <=? status_code r) && (status_code r <? 600)).

Inductive http_outcome :=
| Responds (r : Response)
| Fails (e : exn).

Record Request := {
  method : string;
  url : string;
  headers : dict string;
  data : dict pyval;
  timeout : Z
}.

Inductive level := DEBUG | INFO | WARNING | ERROR.

(** A dictionary object is named by its address in the heap. *)
Definition ref := nat.

Record World := {
  environ : dict string;            (* os.environ after load_dotenv() *)
  now_ms : nat -> Z;                (* n-th value of int(time.time() * 1000) *)
  ticks : nat;                      (* clock readings taken so far *)
  network : nat -> http_outcome;    (* outcome of the n-th HTTP call *)
  sent : list Request;              (* requests issued so far, oldest first *)
  log : list (level * string);      (* records emitted so far, oldest first *)
  heap : ref -> dict pyval;         (* the dictionary object at each address *)
  next_ref : ref                    (* the next address to hand out *)
}.

Definition with_ticks (w : World) (n : nat) : World :=
  {| environ := environ w; now_ms := now_ms w; ticks := n;
     network := network w; sent := sent w; log := log w;
     heap := heap w; next_ref := next_ref w |}.

Definition with_sent (w : World) (l : list Request) : World :=
  {| environ := environ w; now_ms := now_ms w; ticks := ticks w;
     network := network w; sent := l; log := log w;
     heap := heap w; next_ref := next_ref w |}.

Definition with_log (w : World) (l : list (level * string)) : World :=
  {| environ := environ w; now_ms := now_ms w; ticks := ticks w;
     network := network w; sent := sent w; log := l;
     heap := heap w; next_ref := next_ref w |}.

Definition with_heap (w : World) (h : ref -> dict pyval) (n : ref) : World :=
  {| environ := environ w; now_ms := now_ms w; ticks := ticks w;
     network := network w; sent := sent w; log := log w;
     heap := h; next_ref := n |}.

Definition M (A : Type) : Type := World -> result A * World.

Definition ret {A} (a : A) : M A := fun w => (Ok a, w).
Definition raise {A} (e : exn) : M A := fun w => (Raise e, w).
Definition lift {A} (r : result A) : M A := fun w => (r, w).

Definition mbind {A B} (m : M A) (k : A -> M B) : M B :=
  fun w =>
    match m w with
    | (Ok a, w') => k a w'
    | (Raise e, w') => (Raise e, w')
    end.

(** [try: m  except <handles> as exc: h exc]. *)
Definition try_except {A} (m : M A) (handles : exn -> bool) (h : exn -> M A)
  : M A :=
  fun w =>
    match m w with
    | (Ok a, w') => (Ok a, w')
    | (Raise e, w') => if handles e then h e w' else (Raise e, w')
    end.

(** [int(time.time() * 1000)]. *)
Definition time_ms : M Z :=
  fun w => (Ok (now_ms w (ticks w)), with_ticks w (S (ticks w))).

(** One record handed to a logger. *)
Definition emit (l : level) (msg : string) : M unit :=
  fun w => (Ok tt, with_log w (log w ++ [(l, msg)])%list).

(** [os.getenv(name, default)]. *)
Definition getenv (name default : string) : M string :=
  fun w => (Ok (get_default name default (environ w)), w).

(** One HTTP exchange: the request is recorded, the network answers. *)
Definition http (rq : Request) : M Response :=
  fun w =>
    let w' := with_sent w (sent w ++ [rq])%list in
    match network w (List.length (sent w)) with
    | Responds r => (Ok r, w')
    | Fails e => (Raise e, w')
    end.

(** ** Dictionary objects *)

Definition store (h : ref -> dict pyval) (r : ref) (d : dict pyval)
  : ref -> dict pyval :=
  fun r' => if Nat.eqb r' r then d else h r'.

(** A dictionary display [{...}] makes a new object. *)
Definition alloc (d : dict pyval) : M ref :=
  fun w =>
    (Ok (next_ref w),
     with_heap w (store (heap w) (next_ref w) d) (S (next_ref w))).

Definition read (r : ref) : M (dict pyval) := fun w => (Ok (heap w r), w).

(** [r[k] = v] on the dictionary object at [r]. *)
Definition setitem (r : ref) (k : string) (v : pyval) : M unit :=
  fun w =>
    (Ok tt, with_heap w (store (heap w) r (set k v (heap w r))) (next_ref w)).

End Env.

Notation "'do' x '<-' m ';' k" :=
  (Env.mbind m (fun x => k))
  (at level 10, x pattern, m at level 100, k at level 200) : py_scope.
Notation "'run' m ';' k" :=
  (Env.mbind m (fun _ => k))
  (at level 10, m at level 100, k at level 200) : py_scope.

(* ===================================================================== *)
(** * bot/client.py *)
(* ===================================================================== *)

Module Client.
Import PyStr Py Env.
Local Open Scope py_scope.

Definition TESTNET_BASE_URL : string := "https://testnet.binancefuture.com".
Definition ORDER_ENDPOINT : string := "/fapi/v1/order".
Definition PING_ENDPOINT : string := "/fapi/v1/ping".
Definition TIME_ENDPOINT : string := "/fapi/v1/time".

(** The attributes of a [BinanceClient]; [session_headers] are the
    headers its [requests.Session] sends with every request. *)
Record BinanceClient := {
  api_key : string;
  api_secret : string;
  session_headers : dict string;
  time_offset_ms : pyval
}.

Definition with_offset (self : BinanceClient) (off : pyval) : BinanceClient :=
  {| api_key := api_key self; api_secret := api_secret self;
     session_headers := session_headers self; time_offset_ms := off |}.

(** [self.session.get(url, timeout=t)]. *)
Definition session_get (self : BinanceClient) (u : string) (t : Z)
  : M Response :=
  http {| method := "GET"; url := u; headers := session_headers self;
          data := []; timeout := t |}.

(** [self.session.post(url, data=params, timeout=t)]. *)
Definition session_post (self : BinanceClient) (u : string)
    (params : dict pyval) (t : Z) : M Response :=
  http {| method := "POST"; url := u; headers := session_headers self;
          data := params; timeout := t |}.

(** [response.json()]. *)
Definition response_json (r : Response) : result json :=
  match json_body r with
  | Some v => Ok v
  | None => Raise JSONDecodeError
  end.

(** [data.get(key, default)]; only a [dict] has the method. *)
Definition json_get (data : json) (key : string) (default : json)
  : result json :=
  match data with
  | JObj fields => Ok (get_default key default fields)
  | _ => Raise AttributeError
  end.

(** ** Arithmetic on what the server may send as a number *)

Definition int_of_bool (b : bool) : Z := if b then 1 else 0.

(** [x - n] for a JSON value [x] and an [int] [n]. *)
Definition sub_int (x : json) (n : Z) : result pyval :=
  match x with
  | JInt a => Ok (PInt (a - n))
  | JBool b => Ok (PInt (int_of_bool b - n))
  | JFloat f =>
      match PyFloat.of_int n with
      | Some g => Ok (PFloat (SFsub PyFloat.prec PyFloat.emax f g))
      | None => Raise OverflowError
      end
  | _ => Raise TypeError
  end.

(** [n + y] for an [int] [n] and a stored offset [y]. *)
Definition int_add (n : Z) (y : pyval) : result pyval :=
  match y with
  | PInt b => Ok (PInt (n + b))
  | PBool b => Ok (PInt (n + int_of_bool b))
  | PFloat f =>
      match PyFloat.of_int n with
      | Some g => Ok (PFloat (SFadd PyFloat.prec PyFloat.emax g f))
      | None => Raise OverflowError
      end
  | _ => Raise TypeError
  end.

(** ** Public and internal methods *)

Definition get_server_time (self : BinanceClient) : M json :=
  let url := TESTNET_BASE_URL ++ TIME_ENDPOINT in
  do r <- session_get self url 5;
  do body <- lift (response_json r);
  lift (json_get body "serverTime" (JInt 0)).

Definition _sync_time (self : BinanceClient) : M BinanceClient :=
  try_except
    (do local_before <- time_ms;
     do server_time <- get_server_time self;
     do local_after <- time_ms;
     let local_mid := (local_before + local_after) / 2 in
     do off <- lift (sub_int server_time local_mid);
     run emit DEBUG "Time offset synced: %d ms";
     ret (with_offset self off))
    is_Exception
    (fun exc =>
       run emit WARNING "Could not sync server time: %s — using local time";
       ret (with_offset self (PInt 0))).

(** The object as [__init__] has it just before the clock is read. *)
Definition fresh (key secret : string) : BinanceClient :=
  {| api_key := key; api_secret := secret;
     session_headers :=
       literal [("X-MBX-APIKEY", key);
                ("Content-Type", "application/x-www-form-urlencoded")];
     time_offset_ms := PInt 0 |}.

(** [BinanceClient()]. *)
Definition init : M BinanceClient :=
  do key <- getenv "BINANCE_API_KEY" "";
  do secret <- getenv "BINANCE_API_SECRET" "";
  let key := strip key in
  let secret := strip secret in
  if is_empty key then
    raise (EnvironmentError "BINANCE_API_KEY not set. Add it to your .env file.")
  else if is_empty secret then
    raise (EnvironmentError "BINANCE_API_SECRET not set. Add it to your .env file.")
  else
    do self <- _sync_time (fresh key secret);
    run emit DEBUG "BinanceClient initialised (testnet: %s)";
    ret self.

Definition _timestamp (self : BinanceClient) : M pyval :=
  do t <- time_ms;
  lift (int_add t (time_offset_ms self)).

Definition _sign (self : BinanceClient) (params : dict pyval) : string :=
  let query_string := UrlEncode.urlencode params in
  Sha256.hmac_sha256_hex (Sha256.encode (api_secret self))
                         (Sha256.encode query_string).

Definition is_ConnectionError (e : exn) : bool :=
  match e with ConnectionError => true | _ => false end.

Definition is_Timeout (e : exn) : bool :=
  match e with Timeout => true | _ => false end.

Definition _post (self : BinanceClient) (endpoint : string) (params : ref)
  : M json :=
  do ts <- _timestamp self;
  run setitem params "timestamp" ts;
  do d <- read params;
  run setitem params "signature" (PStr (_sign self d));
  let url := TESTNET_BASE_URL ++ endpoint in
  run emit DEBUG "POST %s | params: %s";
  do d <- read params;
  do response <-
    try_except
      (try_except (session_post self url d 10)
         is_ConnectionError
         (fun exc =>
            run emit ERROR "Network error connecting to Binance: %s";
            raise exc))
      is_Timeout
      (fun exc =>
         run emit ERROR "Request to %s timed out.";
         raise exc);
  run emit DEBUG "Response [%s]: %s";
  do body <- lift (response_json response);
  if negb (ok response) then
    do code <- lift (json_get body "code" (JInt (-1)));
    do msg <- lift (json_get body "msg" (JStr "Unknown error"));
    run emit ERROR "Binance API error %s: %s";
    raise (BinanceAPIError (status_code response) code msg)
  else ret body.

Definition ping (self : BinanceClient) : M bool :=
  let url := TESTNET_BASE_URL ++ PING_ENDPOINT in
  try_except
    (do r <- session_get self url 5;
     run emit DEBUG "Ping response: %s";
     ret (ok r))
    is_Exception
    (fun exc => run emit ERROR "Ping failed: %s"; ret false).

Definition post_order (self : BinanceClient) (params : ref) : M json :=
  _post self ORDER_ENDPOINT params.

End Client.

(* ===================================================================== *)
(** * bot/orders.py and the dispatch of cli.py *)
(* ===================================================================== *)

Module Orders.
Import PyStr Py Env Client.
Local Open Scope py_scope.

Definition is_BinanceAPIError (e : exn) : bool :=
  match e with BinanceAPIError _ _ _ => true | _ => false end.

(** The two summary printers write to the console, which is not part of
    the state; [_print_response_summary] and [_log_and_print_success] call
    [response.get], which only a [dict] has. *)
Definition _print_response_summary (response : json) : M unit :=
  run lift (json_get response "orderId" JNull);
  ret tt.

Definition _log_and_print_success (response : json) : M unit :=
  run lift (json_get response "orderId" (JStr "N/A"));
  run lift (json_get response "status" (JStr "N/A"));
  emit INFO "✅ %s order placed successfully | symbol=%s | orderId=%s | status=%s".

(** The part the three order functions share once [params] is built. *)
Definition submit (client : BinanceClient) (params : ref)
    (placing failed : string) : M json :=
  run emit INFO placing;
  do response <-
    try_except (post_order client params) is_BinanceAPIError
      (fun exc => run emit ERROR failed; raise exc);
  run _print_response_summary response;
  run _log_and_print_success response;
  ret response.

Definition market_params (symbol side : string) (quantity : pyval)
  : dict pyval :=
  literal [("symbol", PStr symbol); ("side", PStr side);
           ("type", PStr "MARKET"); ("quantity", quantity)].

Definition limit_params (symbol side : string) (quantity price : pyval)
    (time_in_force : string) : dict pyval :=
  literal [("symbol", PStr symbol); ("side", PStr side);
           ("type", PStr "LIMIT"); ("quantity", quantity);
           ("price", price); ("timeInForce", PStr time_in_force)].

Definition take_profit_params (symbol side : string) (stop_price : pyval)
  : dict pyval :=
  literal [("symbol", PStr symbol); ("side", PStr side);
           ("type", PStr "TAKE_PROFIT_MARKET"); ("stopPrice", stop_price);
           ("closePosition", PStr "true")].

Definition place_market_order (client : BinanceClient)
    (symbol side : string) (quantity : pyval) : M json :=
  do params <- alloc (market_params symbol side quantity);
  submit client params
    "Placing MARKET order | symbol=%s side=%s qty=%s"
    "Failed to place MARKET order: %s".

Definition place_limit_order (client : BinanceClient)
    (symbol side : string) (quantity price : pyval) (time_in_force : string)
  : M json :=
  do params <- alloc (limit_params symbol side quantity price time_in_force);
  submit client params
    "Placing LIMIT order | symbol=%s side=%s qty=%s price=%s"
    "Failed to place LIMIT order: %s".

Definition place_take_profit_market_order (client : BinanceClient)
    (symbol side : string) (stop_price : pyval) : M json :=
  do params <- alloc (take_profit_params symbol side stop_price);
  submit client params
    "Placing TAKE_PROFIT_MARKET order | symbol=%s side=%s stopPrice=%s"
    "Failed to place TAKE_PROFIT_MARKET order: %s".

(** [validated[k]] for a key the validators have set, and
    [validated.get(k)]. *)
Definition item (k : string) (validated : dict pyval) : pyval :=
  get_default k PNone validated.

Definition text_of (v : pyval) : string :=
  match v with PStr s => s | _ => EmptyString end.

(** cli.py, [main]: the dispatch on the validated order type. *)
Definition dispatch (client : BinanceClient) (validated : dict pyval)
  : M unit :=
  let symbol := text_of (item "symbol" validated) in
  let side := text_of (item "side" validated) in
  let order_type := text_of (item "order_type" validated) in
  let quantity := item "quantity" validated in
  if (order_type =? "MARKET")%string then
    run place_market_order client symbol side quantity; ret tt
  else if (order_type =? "LIMIT")%string then
    let price := item "price" validated in
    run place_limit_order client symbol side quantity price "GTC"; ret tt
  else if (order_type =? "TAKE_PROFIT")%string then
    let stop_price := item "stop_price" validated in
    run place_take_profit_market_order client symbol side stop_price; ret tt
  else ret tt.

End Orders.

(* ===================================================================== *)
(** * The statements of the specification *)
(* ===================================================================== *)

Module ValidatorSpec.
Import PyStr Py Validators.
Local Open Scope py_scope.








(** The three messages of [validate_price] and of [validate_stop_price]. *)
Definition price_required : string := "Price is required for LIMIT orders.".
Definition price_not_a_number (raw : pyval) : string :=
  "Price '" ++ str raw ++ "' is not a valid number.".
Definition price_not_positive (p : PyFloat.float) : string :=
  "Price must be greater than 0. Got: " ++ PyFloat.repr p.

Definition stop_price_required : string :=
  "Stop price (--stop-price) is required for STOP_MARKET orders.".
Definition stop_price_not_a_number (raw : pyval) : string :=
  "Stop price '" ++ str raw ++ "' is not a valid number.".
Definition stop_price_not_positive (p : PyFloat.float) : string :=
  "Stop price must be greater than 0. Got: " ++ PyFloat.repr p.

Definition quantity_not_a_number (raw : pyval) : string :=
  "Quantity '" ++ str raw ++ "' is not a valid number.".
Definition quantity_not_positive (q : PyFloat.float) : string :=
  "Quantity must be greater than 0. Got: " ++ PyFloat.repr q.
Definition quantity_required (t : string) : string :=
  "--qty is required for " ++ t ++ " orders.".

(** [float(raw)] reads [raw] as a number that is not a NaN. *)
Definition parses_as_number (raw : pyval) (x : PyFloat.float) : Prop :=
  py_float raw = Ok x /\ x <> PyFloat.nan.

(** A validator of a positive number as the specification words it: it
    succeeds exactly on the inputs that read as a number above zero. *)
Definition accepts_exactly_positive
    (validate : pyval -> result PyFloat.float) : Prop :=
  forall raw,
    is_ok (validate raw) = true <->
    exists x, parses_as_number raw x /\ PyFloat.ltb PyFloat.zero x = true.

(** An error other than the missing-quantity error. *)
Definition other_error (e : exn) : Prop :=
  forall t, e <> ValidationError (quantity_required t).

End ValidatorSpec.

Module ClientSpec.
Import PyStr Py Env Client.
Local Open Scope list_scope.

(** The signature of a form: HMAC-SHA256, keyed by the secret, of the
    URL-encoded fields. *)
Definition signature_of (self : BinanceClient) (fields : dict pyval) : string :=
  Sha256.hmac_sha256_hex (Sha256.encode (api_secret self))
    (Sha256.encode (UrlEncode.urlencode fields)).

(** The form ends with [timestamp] then [signature], and the signature
    covers everything before it, the timestamp included. *)
Definition signed_last (self : BinanceClient) (form : dict pyval) : Prop :=
  exists fields ts,
    form = fields ++ [("timestamp", ts);
                      ("signature", PStr (signature_of self (fields ++ [("timestamp", ts)])))].

(** [post_order] issues one request, whose form is signed as above. *)
Definition posts_signed_last (self : BinanceClient) (params : ref) (w : World)
  : Prop :=
  exists rq,
    sent (snd (post_order self params w)) = sent w ++ [rq] /\
    signed_last self (data rq).

(** After the call the caller's dictionary has the two new keys and every
    item the caller supplied is as it was. *)
Definition extends_params (self : BinanceClient) (params : ref) (w : World)
  : Prop :=
  let before := heap w params in
  let after := heap (snd (post_order self params w)) params in
  has_key "timestamp" after = true /\
  has_key "signature" after = true /\
  forall k v, get k before = Some v -> get k after = Some v.

(** What the caller passes when the docstring of [post_order] is obeyed. *)
Definition unsigned (d : dict pyval) : Prop :=
  has_key "timestamp" d = false /\ has_key "signature" d = false.

(** Signing twice gives the same text. *)
Definition signing_repeatable : Prop :=
  forall self self' params params',
    api_secret self = api_secret self' -> params = params' ->
    _sign self params = _sign self' params'.

(** Changing the value of one parameter changes the signature. *)
Definition value_sensitive : Prop :=
  forall self before k v v' after,
    v <> v' ->
    _sign self (before ++ (k, v) :: after) <>
    _sign self (before ++ (k, v') :: after).

(** Changing the secret changes the signature. *)
Definition secret_sensitive : Prop :=
  forall self self' params,
    api_secret self <> api_secret self' ->
    _sign self params <> _sign self' params.

(** Signing as the specification words it. *)
Definition signing_as_stated : Prop :=
  signing_repeatable /\ value_sensitive /\ secret_sensitive.

(** A parameter as the signed text shows it: its key and [str(value)]. *)
Definition rendered (kv : string * pyval) : string * string :=
  (fst kv, str (snd kv)).

Definition is_lower_hex (c : ascii) : bool :=
  is_digit c || between 97 102 c.

(** A response outside the 2xx range. *)
Definition non_2xx (r : Response) : Prop :=
  status_code r < 200 \/ 300 <= status_code r.

(** The error the specification promises for a non-2xx response: the
    status with the code and message of the body, or -1 and a generic
    message when the body cannot be read. *)
Definition promised_api_error (r : Response) : exn :=
  match json_body r with
  | Some (JObj fields) =>
      BinanceAPIError (status_code r)
        (get_default "code" (JInt (-1)) fields)
        (get_default "msg" (JStr "Unknown error") fields)
  | _ => BinanceAPIError (status_code r) (JInt (-1)) (JStr "Unknown error")
  end.

(** The dictionary [_post] leaves behind and sends. *)
Definition signed_params (self : BinanceClient) (ts : pyval) (d : dict pyval)
  : dict pyval :=
  set "signature" (PStr (_sign self (set "timestamp" ts d)))
      (set "timestamp" ts d).

Definition post_request (self : BinanceClient) (endpoint : string)
    (form : dict pyval) : Request :=
  {| method := "POST"; url := TESTNET_BASE_URL ++ endpoint;
     headers := session_headers self; data := form; timeout := 10 |}.

(** What [_post] returns once the request is out, by cases on the answer
    of the network. *)
Definition post_result (answer : http_outcome) : result json :=
  match answer with
  | Fails e => Raise e
  | Responds r =>
      match json_body r with
      | None => Raise JSONDecodeError
      | Some body =>
          if ok r then Ok body
          else
            match body with
            | JObj fields =>
                Raise (BinanceAPIError (status_code r)
                         (get_default "code" (JInt (-1)) fields)
                         (get_default "msg" (JStr "Unknown error") fields))
            | _ => Raise AttributeError
            end
      end
  end.

End ClientSpec.

(** Concrete clients and worlds used to run the model. *)
Module Samples.
Import Py Env Client.

Definition client : BinanceClient := fresh "key" "secret".

Definition order_json : json :=
  JObj [("orderId", JInt 42); ("symbol", JStr "BTCUSDT");
        ("side", JStr "BUY"); ("type", JStr "MARKET");
        ("status", JStr "NEW")].

Definition accepted : Response :=
  {| status_code := 200; json_body := Some order_json |}.

(** A gateway error whose body is an HTML page. *)
Definition bad_gateway : Response :=
  {| status_code := 502; json_body := None |}.

Definition server_time (t : Z) : Response :=
  {| status_code := 200; json_body := Some (JObj [("serverTime", JInt t)]) |}.

(** A world with credentials set, whose clock starts at [t0] and advances
    by one millisecond per reading, where every call gets [answer] and the
    dictionary [d] lives at address 0. *)
Definition world (answer : nat -> http_outcome) (d : dict pyval) : World :=
  {| environ := [("BINANCE_API_KEY", "key"); ("BINANCE_API_SECRET", "secret")];
     now_ms := fun n => 1700000000000 + Z.of_nat n;
     ticks := 0%nat;
     network := answer;
     sent := [];
     log := [];
     heap := store (fun _ => []) 0%nat d;
     next_ref := 1%nat |}.

Definition always (r : Response) : nat -> http_outcome := fun _ => Responds r.

End Samples.

(* ===================================================================== *)
(** * cli.py: [main] after the arguments are parsed *)
(* ===================================================================== *)

Module Cli.
Import PyStr Py Validators Env Client Orders.
Local Open Scope py_scope.

(** The namespace [parse_args] returns: three required texts, and three
    optional ones that default to [None]. *)
Record Namespace := {
  symbol : string;
  side : string;
  order_type : string;
  qty : pyval;
  price : pyval;
  stop_price : pyval
}.

Definition is_ValidationError (e : exn) : bool :=
  match e with ValidationError _ => true | _ => false end.

Definition is_EnvironmentError (e : exn) : bool :=
  match e with EnvironmentError _ => true | _ => false end.

(** [main()]; the value is the exit status: [sys.exit(1)] gives 1 and
    reaching the end of [main] gives 0.  An exception no handler of
    [main] catches is raised to the interpreter.  The subscripts of
    [validated] are read inside [dispatch], with [item]: a structure
    [validate_all] returns holds every key its order type reads. *)
Definition main (args : Namespace) : M Z :=
  run emit INFO
    "CLI invoked | symbol=%s side=%s type=%s qty=%s price=%s stop_price=%s";
  match validate_all (symbol args) (side args) (order_type args)
                     (qty args) (price args) (stop_price args) with
  | Raise e =>
      if is_ValidationError e then
        run emit ERROR "Validation failed: %s"; ret 1
      else raise e
  | Ok validated =>
      do made <-
        try_except (do client <- init; ret (inl client))
          is_EnvironmentError
          (fun exc => run emit ERROR "Client init failed: %s"; ret (inr 1));
      match made with
      | inr status => ret status
      | inl client =>
          do reachable <- ping client;
          if negb reachable then
            run emit ERROR "Cannot reach Binance Testnet. Check your network.";
            ret 1
          else
            try_except
              (try_except (run dispatch client validated; ret 0)
                 is_BinanceAPIError (fun exc => ret 1))
              is_Exception
              (fun exc => run emit ERROR "Unexpected error: %s"; ret 1)
      end
  end.

(** A value [argparse] can give for an optional argument. *)
Definition from_command_line (v : pyval) : Prop :=
  v = PNone \/ exists s, v = PStr s.

End Cli.

(* ===================================================================== *)
(** * bot/logging_config.py *)
(* ===================================================================== *)

Module Logging.
Import PyStr Py.

(** The numeric levels of the [logging] module. *)
Definition NOTSET : Z := 0.
Definition DEBUG : Z := 10.
Definition INFO : Z := 20.
Definition WARNING : Z := 30.
Definition ERROR : Z := 40.
Definition CRITICAL : Z := 50.

(** An ANSI colour sequence: ESC, [[], the code, [m]. *)
Definition ansi (code : string) : string :=
  String (chr 27) ("[" ++ code ++ "m").

Definition COLORS : dict string :=
  [("DEBUG", ansi "36"); ("INFO", ansi "32"); ("WARNING", ansi "33");
   ("ERROR", ansi "31"); ("CRITICAL", ansi "35"); ("RESET", ansi "0")].

(** The attributes of a [LogRecord] the two formats read. *)
Record LogRecord := {
  asctime : string;
  levelname : string;
  levelno : Z;
  name : string;
  message : string
}.

Definition with_levelname (r : LogRecord) (l : string) : LogRecord :=
  {| asctime := asctime r; levelname := l; levelno := levelno r;
     name := name r; message := message r |}.

Fixpoint spaces (n : nat) : string :=
  match n with O => EmptyString | S n' => String " " (spaces n') end.

(** [%-8s]: left-justified in a field of at least [width] characters. *)
Definition ljust (width : nat) (s : string) : string :=
  s ++ spaces (width - String.length s).

(** [fmt_file] and [fmt_console] applied to a record. *)
Definition format_file (r : LogRecord) : string :=
  asctime r ++ " | " ++ ljust 8 (levelname r) ++ " | " ++ name r ++ " | "
  ++ message r.

Definition format_console (r : LogRecord) : string :=
  asctime r ++ " | " ++ ljust 8 (levelname r) ++ " | " ++ message r.

Inductive formatter := Formatter_file | ColoredFormatter_console.

(** [formatter.format(record)]: the line, and the record as it is
    afterwards; [ColoredFormatter] overwrites [record.levelname]. *)
Definition format (f : formatter) (r : LogRecord) : string * LogRecord :=
  match f with
  | Formatter_file => (format_file r, r)
  | ColoredFormatter_console =>
      let reset := get_default "RESET" EmptyString COLORS in
      let color := get_default (levelname r) reset COLORS in
      let r' := with_levelname r (color ++ levelname r ++ reset) in
      (format_console r', r')
  end.

Inductive sink := LogFile | Console.

Record Handler := {
  target : sink;
  threshold : Z;
  layout : formatter
}.

Record Logger := {
  level : Z;
  handlers : list Handler
}.

(** The loggers [logging.getLogger] knows, by name. *)
Definition registry := dict Logger.

(** [logging.getLogger(name)]: a logger not seen before starts with the
    level NOTSET and no handler. *)
Definition getLogger (name : string) (reg : registry) : Logger :=
  get_default name {| level := NOTSET; handlers := [] |} reg.

Definition file_handler : Handler :=
  {| target := LogFile; threshold := DEBUG; layout := Formatter_file |}.

Definition console_handler : Handler :=
  {| target := Console; threshold := INFO;
     layout := ColoredFormatter_console |}.

(** [setup_logger(name)]: the registry afterwards and the logger. *)
Definition setup_logger (name : string) (reg : registry)
  : registry * Logger :=
  let logger := getLogger name reg in
  match handlers logger with
  | _ :: _ => (reg, logger)
  | [] =>
      let logger :=
        {| level := DEBUG;
           handlers := handlers logger ++ [file_handler; console_handler] |} in
      (set name logger reg, logger)
  end.

(** [Logger.callHandlers]: each handler whose level admits the record
    formats it and writes the line; a later handler sees the record as an
    earlier formatter left it. *)
Fixpoint callHandlers (hs : list Handler) (r : LogRecord)
  : list (sink * string) :=
  match hs with
  | [] => []
  | h :: hs' =>
      if threshold h <=? levelno r then
        let '(line, r') := format (layout h) r in
        (target h, line) :: callHandlers hs' r'
      else callHandlers hs' r
  end.

(** [logger.log(...)] for a logger whose ancestors have no handler. *)
Definition handle (logger : Logger) (r : LogRecord) : list (sink * string) :=
  if level logger <=? levelno r then callHandlers (handlers logger) r else [].

Definition lines_to (s : sink) (out : list (sink * string)) : list string :=
  map snd (filter (fun o => match fst o, s with
                            | LogFile, LogFile | Console, Console => true
                            | _, _ => false
                            end) out).

(** A record as a logging call makes it: the level name is the name of
    its level. *)
Definition level_name (l : Z) : string :=
  if l =? DEBUG then "DEBUG"
  else if l =? INFO then "INFO"
  else if l =? WARNING then "WARNING"
  else if l =? ERROR then "ERROR"
  else if l =? CRITICAL then "CRITICAL"
  else "Level " ++ str_of_int l.

End Logging.

(** Statements about the code beyond the specification. *)
Module ExtraSpec.
Import PyStr Py Env Client ClientSpec.
Local Open Scope list_scope.

(** Digits and upper-case letters. *)
Definition is_upper_alnum (c : ascii) : bool := is_digit c || is_upper c.

(** The GET the client makes of [endpoint]. *)
Definition get_request (self : BinanceClient) (endpoint : string) : Request :=
  {| method := "GET"; url := TESTNET_BASE_URL ++ endpoint;
     headers := session_headers self; data := []; timeout := 5 |}.

(** What [_post] logs after the line for the request, by cases on the
    answer of the network. *)
Definition post_log (answer : http_outcome) : list (level * string) :=
  match answer with
  | Fails ConnectionError =>
      [(ERROR, "Network error connecting to Binance: %s")]
  | Fails Timeout => [(ERROR, "Request to %s timed out.")]
  | Fails _ => []
  | Responds r =>
      (DEBUG, "Response [%s]: %s") ::
      match json_body r with
      | Some (JObj _) =>
          if ok r then [] else [(ERROR, "Binance API error %s: %s")]
      | _ => []
      end
  end.

(** What an order function returns, from what [post_order] returns: the
    summaries need a JSON object. *)
Definition order_result (posted : result json) : result json :=
  match posted with
  | Ok (JObj fields) => Ok (JObj fields)
  | Ok _ => Raise AttributeError
  | Raise e => Raise e
  end.

(** What an order function logs after [post_order] is back: the success
    record for a JSON object, the failure record for an API error. *)
Definition order_log (failed : string) (posted : result json)
  : list (level * string) :=
  match posted with
  | Ok (JObj _) =>
      [(INFO,
        "✅ %s order placed successfully | symbol=%s | orderId=%s | status=%s")]
  | Ok _ => []
  | Raise (BinanceAPIError _ _ _) => [(ERROR, failed)]
  | Raise _ => []
  end.

(** The three order functions are [place] at their dictionary and their
    two log lines. *)
Definition place (client : BinanceClient) (d : dict pyval)
    (placing failed : string) : M json :=
  mbind (alloc d) (fun params => Orders.submit client params placing failed).

(** Both credentials are in the environment and not blank. *)
Definition has_credentials (w : World) : bool :=
  negb (is_empty (strip (get_default "BINANCE_API_KEY" "" (environ w)))) &&
  negb (is_empty (strip (get_default "BINANCE_API_SECRET" "" (environ w)))).

(** The answer of the network to the [k]-th call from [w] on. *)
Definition answer_at (w : World) (k : nat) : http_outcome :=
  network w (k + List.length (sent w))%nat.

(** The second call of a run of [main], the ping, is answered with a
    status that is neither 4xx nor 5xx. *)
Definition reachable (w : World) : bool :=
  match answer_at w 1 with
  | Responds r => ok r
  | Fails _ => false
  end.

(** Projections of a world after a run, computed without unfolding the
    requests themselves. *)
Ltac world_simpl :=
  cbn [heap sent network log ticks next_ref with_heap with_log with_sent
       with_ticks now_ms environ fst snd].

End ExtraSpec.

(* ===================================================================== *)
(** * Construction of the client as the specification words it *)
(* ===================================================================== *)

Module InitSpec.
Import PyStr Py Env Client.
Local Open Scope list_scope.




End InitSpec.

(* ===================================================================== *)
(** * Python text on all of Unicode *)
(* ===================================================================== *)

(** The three validators of text call [str.strip], [str.upper] and
    [str.isalnum], which work code point by code point on every [str].
    Here a [str] is the list of its code points, and the three methods
    are given by the tables of the Unicode Character Database, version
    14.0.0, as CPython 3.11 carries them.  On text whose code points are
    all below 128 they are the functions of [PyStr], which the rest of
    the development uses. *)
Module Unicode.
Local Open Scope list_scope.
Local Open Scope Z_scope.

Definition text := list Z.

(** The code points of a text of the ASCII repertoire. *)
Definition of_string (s : string) : text :=
  map PyStr.ord (list_ascii_of_string s).

Definition in_ranges (c : Z) (ranges : list (Z * Z)) : bool :=
  existsb (fun r => (fst r <=? c) && (c <=? snd r)) ranges.

(** The code points [c] with [chr(c).isspace()], as closed ranges: those
    of bidirectional type WS, B or S and those of category Zs. *)
Definition WHITESPACE : list (Z * Z) :=
  [
   (9, 13); (28, 32); (133, 133); (160, 160); (5760, 5760); (8192, 8202);
   (8232, 8233); (8239, 8239); (8287, 8287); (12288, 12288)
  ].

(** The code points [c] with [chr(c).isalnum()], as closed ranges: those
    that are alphabetic, decimal, digit or numeric. *)
Definition ALNUM : list (Z * Z) :=
  [
   (48, 57); (65, 90); (97, 122); (170, 170); (178, 179); (181, 181);
   (185, 186); (188, 190); (192, 214); (216, 246); (248, 705); (710, 721);
   (736, 740); (748, 748); (750, 750); (880, 884); (886, 887); (890, 893);
   (895, 895); (902, 902); (904, 906); (908, 908); (910, 929); (931, 1013);
   (1015, 1153); (1162, 1327); (1329, 1366); (1369, 1369); (1376, 1416);
   (1488, 1514); (1519, 1522); (1568, 1610); (1632, 1641); (1646, 1647);
   (1649, 1747); (1749, 1749); (1765, 1766); (1774, 1788); (1791, 1791);
   (1808, 1808); (1810, 1839); (1869, 1957); (1969, 1969); (1984, 2026);
   (2036, 2037); (2042, 2042); (2048, 2069); (2074, 2074); (2084, 2084);
   (2088, 2088); (2112, 2136); (2144, 2154); (2160, 2183); (2185, 2190);
   (2208, 2249); (2308, 2361); (2365, 2365); (2384, 2384); (2392, 2401);
   (2406, 2415); (2417, 2432); (2437, 2444); (2447, 2448); (2451, 2472);
   (2474, 2480); (2482, 2482); (2486, 2489); (2493, 2493); (2510, 2510);
   (2524, 2525); (2527, 2529); (2534, 2545); (2548, 2553); (2556, 2556);
   (2565, 2570); (2575, 2576); (2579, 2600); (2602, 2608); (2610, 2611);
   (2613, 2614); (2616, 2617); (2649, 2652); (2654, 2654); (2662, 2671);
   (2674, 2676); (2693, 2701); (2703, 2705); (2707, 2728); (2730, 2736);
   (2738, 2739); (2741, 2745); (2749, 2749); (2768, 2768); (2784, 2785);
   (2790, 2799); (2809, 2809); (2821, 2828); (2831, 2832); (2835, 2856);
   (2858, 2864); (2866, 2867); (2869, 2873); (2877, 2877); (2908, 2909);
   (2911, 2913); (2918, 2927); (2929, 2935); (2947, 2947); (2949, 2954);
   (2958, 2960); (2962, 2965); (2969, 2970); (2972, 2972); (2974, 2975);
   (2979, 2980); (2984, 2986); (2990, 3001); (3024, 3024); (3046, 3058);
   (3077, 3084); (3086, 3088); (3090, 3112); (3114, 3129); (3133, 3133);
   (3160, 3162); (3165, 3165); (3168, 3169); (3174, 3183); (3192, 3198);
   (3200, 3200); (3205, 3212); (3214, 3216); (3218, 3240); (3242, 3251);
   (3253, 3257); (3261, 3261); (3293, 3294); (3296, 3297); (3302, 3311);
   (3313, 3314); (3332, 3340); (3342, 3344); (3346, 3386); (3389, 3389);
   (3406, 3406); (3412, 3414); (3416, 3425); (3430, 3448); (3450, 3455);
   (3461, 3478); (3482, 3505); (3507, 3515); (3517, 3517); (3520, 3526);
   (3558, 3567); (3585, 3632); (3634, 3635); (3648, 3654); (3664, 3673);
   (3713, 3714); (3716, 3716); (3718, 3722); (3724, 3747); (3749, 3749);
   (3751, 3760); (3762, 3763); (3773, 3773); (3776, 3780); (3782, 3782);
   (3792, 3801); (3804, 3807); (3840, 3840); (3872, 3891); (3904, 3911);
   (3913, 3948); (3976, 3980); (4096, 4138); (4159, 4169); (4176, 4181);
   (4186, 4189); (4193, 4193); (4197, 4198); (4206, 4208); (4213, 4225);
   (4238, 4238); (4240, 4249); (4256, 4293); (4295, 4295); (4301, 4301);
   (4304, 4346); (4348, 4680); (4682, 4685); (4688, 4694); (4696, 4696);
   (4698, 4701); (4704, 4744); (4746, 4749); (4752, 4784); (4786, 4789);
   (4792, 4798); (4800, 4800); (4802, 4805); (4808, 4822); (4824, 4880);
   (4882, 4885); (4888, 4954); (4969, 4988); (4992, 5007); (5024, 5109);
   (5112, 5117); (5121, 5740); (5743, 5759); (5761, 5786); (5792, 5866);
   (5870, 5880); (5888, 5905); (5919, 5937); (5952, 5969); (5984, 5996);
   (5998, 6000); (6016, 6067); (6103, 6103); (6108, 6108); (6112, 6121);
   (6128, 6137); (6160, 6169); (6176, 6264); (6272, 6276); (6279, 6312);
   (6314, 6314); (6320, 6389); (6400, 6430); (6470, 6509); (6512, 6516);
   (6528, 6571); (6576, 6601); (6608, 6618); (6656, 6678); (6688, 6740);
   (6784, 6793); (6800, 6809); (6823, 6823); (6917, 6963); (6981, 6988);
   (6992, 7001); (7043, 7072); (7086, 7141); (7168, 7203); (7232, 7241);
   (7245, 7293); (7296, 7304); (7312, 7354); (7357, 7359); (7401, 7404);
   (7406, 7411); (7413, 7414); (7418, 7418); (7424, 7615); (7680, 7957);
   (7960, 7965); (7968, 8005); (8008, 8013); (8016, 8023); (8025, 8025);
   (8027, 8027); (8029, 8029); (8031, 8061); (8064, 8116); (8118, 8124);
   (8126, 8126); (8130, 8132); (8134, 8140); (8144, 8147); (8150, 8155);
   (8160, 8172); (8178, 8180); (8182, 8188); (8304, 8305); (8308, 8313);
   (8319, 8329); (8336, 8348); (8450, 8450); (8455, 8455); (8458, 8467);
   (8469, 8469); (8473, 8477); (8484, 8484); (8486, 8486); (8488, 8488);
   (8490, 8493); (8495, 8505); (8508, 8511); (8517, 8521); (8526, 8526);
   (8528, 8585); (9312, 9371); (9450, 9471); (10102, 10131); (11264, 11492);
   (11499, 11502); (11506, 11507); (11517, 11517); (11520, 11557);
   (11559, 11559); (11565, 11565); (11568, 11623); (11631, 11631);
   (11648, 11670); (11680, 11686); (11688, 11694); (11696, 11702);
   (11704, 11710); (11712, 11718); (11720, 11726); (11728, 11734);
   (11736, 11742); (11823, 11823); (12293, 12295); (12321, 12329);
   (12337, 12341); (12344, 12348); (12353, 12438); (12445, 12447);
   (12449, 12538); (12540, 12543); (12549, 12591); (12593, 12686);
   (12690, 12693); (12704, 12735); (12784, 12799); (12832, 12841);
   (12872, 12879); (12881, 12895); (12928, 12937); (12977, 12991);
   (13312, 19903); (19968, 42124); (42192, 42237); (42240, 42508);
   (42512, 42539); (42560, 42606); (42623, 42653); (42656, 42735);
   (42775, 42783); (42786, 42888); (42891, 42954); (42960, 42961);
   (42963, 42963); (42965, 42969); (42994, 43009); (43011, 43013);
   (43015, 43018); (43020, 43042); (43056, 43061); (43072, 43123);
   (43138, 43187); (43216, 43225); (43250, 43255); (43259, 43259);
   (43261, 43262); (43264, 43301); (43312, 43334); (43360, 43388);
   (43396, 43442); (43471, 43481); (43488, 43492); (43494, 43518);
   (43520, 43560); (43584, 43586); (43588, 43595); (43600, 43609);
   (43616, 43638); (43642, 43642); (43646, 43695); (43697, 43697);
   (43701, 43702); (43705, 43709); (43712, 43712); (43714, 43714);
   (43739, 43741); (43744, 43754); (43762, 43764); (43777, 43782);
   (43785, 43790); (43793, 43798); (43808, 43814); (43816, 43822);
   (43824, 43866); (43868, 43881); (43888, 44002); (44016, 44025);
   (44032, 55203); (55216, 55238); (55243, 55291); (63744, 64109);
   (64112, 64217); (64256, 64262); (64275, 64279); (64285, 64285);
   (64287, 64296); (64298, 64310); (64312, 64316); (64318, 64318);
   (64320, 64321); (64323, 64324); (64326, 64433); (64467, 64829);
   (64848, 64911); (64914, 64967); (65008, 65019); (65136, 65140);
   (65142, 65276); (65296, 65305); (65313, 65338); (65345, 65370);
   (65382, 65470); (65474, 65479); (65482, 65487); (65490, 65495);
   (65498, 65500); (65536, 65547); (65549, 65574); (65576, 65594);
   (65596, 65597); (65599, 65613); (65616, 65629); (65664, 65786);
   (65799, 65843); (65856, 65912); (65930, 65931); (66176, 66204);
   (66208, 66256); (66273, 66299); (66304, 66339); (66349, 66378);
   (66384, 66421); (66432, 66461); (66464, 66499); (66504, 66511);
   (66513, 66517); (66560, 66717); (66720, 66729); (66736, 66771);
   (66776, 66811); (66816, 66855); (66864, 66915); (66928, 66938);
   (66940, 66954); (66956, 66962); (66964, 66965); (66967, 66977);
   (66979, 66993); (66995, 67001); (67003, 67004); (67072, 67382);
   (67392, 67413); (67424, 67431); (67456, 67461); (67463, 67504);
   (67506, 67514); (67584, 67589); (67592, 67592); (67594, 67637);
   (67639, 67640); (67644, 67644); (67647, 67669); (67672, 67702);
   (67705, 67742); (67751, 67759); (67808, 67826); (67828, 67829);
   (67835, 67867); (67872, 67897); (67968, 68023); (68028, 68047);
   (68050, 68096); (68112, 68115); (68117, 68119); (68121, 68149);
   (68160, 68168); (68192, 68222); (68224, 68255); (68288, 68295);
   (68297, 68324); (68331, 68335); (68352, 68405); (68416, 68437);
   (68440, 68466); (68472, 68497); (68521, 68527); (68608, 68680);
   (68736, 68786); (68800, 68850); (68858, 68899); (68912, 68921);
   (69216, 69246); (69248, 69289); (69296, 69297); (69376, 69415);
   (69424, 69445); (69457, 69460); (69488, 69505); (69552, 69579);
   (69600, 69622); (69635, 69687); (69714, 69743); (69745, 69746);
   (69749, 69749); (69763, 69807); (69840, 69864); (69872, 69881);
   (69891, 69926); (69942, 69951); (69956, 69956); (69959, 69959);
   (69968, 70002); (70006, 70006); (70019, 70066); (70081, 70084);
   (70096, 70106); (70108, 70108); (70113, 70132); (70144, 70161);
   (70163, 70187); (70272, 70278); (70280, 70280); (70282, 70285);
   (70287, 70301); (70303, 70312); (70320, 70366); (70384, 70393);
   (70405, 70412); (70415, 70416); (70419, 70440); (70442, 70448);
   (70450, 70451); (70453, 70457); (70461, 70461); (70480, 70480);
   (70493, 70497); (70656, 70708); (70727, 70730); (70736, 70745);
   (70751, 70753); (70784, 70831); (70852, 70853); (70855, 70855);
   (70864, 70873); (71040, 71086); (71128, 71131); (71168, 71215);
   (71236, 71236); (71248, 71257); (71296, 71338); (71352, 71352);
   (71360, 71369); (71424, 71450); (71472, 71483); (71488, 71494);
   (71680, 71723); (71840, 71922); (71935, 71942); (71945, 71945);
   (71948, 71955); (71957, 71958); (71960, 71983); (71999, 71999);
   (72001, 72001); (72016, 72025); (72096, 72103); (72106, 72144);
   (72161, 72161); (72163, 72163); (72192, 72192); (72203, 72242);
   (72250, 72250); (72272, 72272); (72284, 72329); (72349, 72349);
   (72368, 72440); (72704, 72712); (72714, 72750); (72768, 72768);
   (72784, 72812); (72818, 72847); (72960, 72966); (72968, 72969);
   (72971, 73008); (73030, 73030); (73040, 73049); (73056, 73061);
   (73063, 73064); (73066, 73097); (73112, 73112); (73120, 73129);
   (73440, 73458); (73648, 73648); (73664, 73684); (73728, 74649);
   (74752, 74862); (74880, 75075); (77712, 77808); (77824, 78894);
   (82944, 83526); (92160, 92728); (92736, 92766); (92768, 92777);
   (92784, 92862); (92864, 92873); (92880, 92909); (92928, 92975);
   (92992, 92995); (93008, 93017); (93019, 93025); (93027, 93047);
   (93053, 93071); (93760, 93846); (93952, 94026); (94032, 94032);
   (94099, 94111); (94176, 94177); (94179, 94179); (94208, 100343);
   (100352, 101589); (101632, 101640); (110576, 110579); (110581, 110587);
   (110589, 110590); (110592, 110882); (110928, 110930); (110948, 110951);
   (110960, 111355); (113664, 113770); (113776, 113788); (113792, 113800);
   (113808, 113817); (119520, 119539); (119648, 119672); (119808, 119892);
   (119894, 119964); (119966, 119967); (119970, 119970); (119973, 119974);
   (119977, 119980); (119982, 119993); (119995, 119995); (119997, 120003);
   (120005, 120069); (120071, 120074); (120077, 120084); (120086, 120092);
   (120094, 120121); (120123, 120126); (120128, 120132); (120134, 120134);
   (120138, 120144); (120146, 120485); (120488, 120512); (120514, 120538);
   (120540, 120570); (120572, 120596); (120598, 120628); (120630, 120654);
   (120656, 120686); (120688, 120712); (120714, 120744); (120746, 120770);
   (120772, 120779); (120782, 120831); (122624, 122654); (123136, 123180);
   (123191, 123197); (123200, 123209); (123214, 123214); (123536, 123565);
   (123584, 123627); (123632, 123641); (124896, 124902); (124904, 124907);
   (124909, 124910); (124912, 124926); (124928, 125124); (125127, 125135);
   (125184, 125251); (125259, 125259); (125264, 125273); (126065, 126123);
   (126125, 126127); (126129, 126132); (126209, 126253); (126255, 126269);
   (126464, 126467); (126469, 126495); (126497, 126498); (126500, 126500);
   (126503, 126503); (126505, 126514); (126516, 126519); (126521, 126521);
   (126523, 126523); (126530, 126530); (126535, 126535); (126537, 126537);
   (126539, 126539); (126541, 126543); (126545, 126546); (126548, 126548);
   (126551, 126551); (126553, 126553); (126555, 126555); (126557, 126557);
   (126559, 126559); (126561, 126562); (126564, 126564); (126567, 126570);
   (126572, 126578); (126580, 126583); (126585, 126588); (126590, 126590);
   (126592, 126601); (126603, 126619); (126625, 126627); (126629, 126633);
   (126635, 126651); (127232, 127244); (130032, 130041); (131072, 173791);
   (173824, 177976); (177984, 178205); (178208, 183969); (183984, 191456);
   (194560, 195101); (196608, 201546)
  ].

(** The code points [c] with [chr(c).upper() != chr(c)], each with the
    code points of [chr(c).upper()]: the full upper-case mapping, which
    gives up to three code points for one. *)
Definition UPPER : list (Z * list Z) :=
  [
   (97, [65]); (98, [66]); (99, [67]); (100, [68]); (101, [69]); (102, [70]);
   (103, [71]); (104, [72]); (105, [73]); (106, [74]); (107, [75]);
   (108, [76]); (109, [77]); (110, [78]); (111, [79]); (112, [80]);
   (113, [81]); (114, [82]); (115, [83]); (116, [84]); (117, [85]);
   (118, [86]); (119, [87]); (120, [88]); (121, [89]); (122, [90]);
   (181, [924]); (223, [83; 83]); (224, [192]); (225, [193]); (226, [194]);
   (227, [195]); (228, [196]); (229, [197]); (230, [198]); (231, [199]);
   (232, [200]); (233, [201]); (234, [202]); (235, [203]); (236, [204]);
   (237, [205]); (238, [206]); (239, [207]); (240, [208]); (241, [209]);
   (242, [210]); (243, [211]); (244, [212]); (245, [213]); (246, [214]);
   (248, [216]); (249, [217]); (250, [218]); (251, [219]); (252, [220]);
   (253, [221]); (254, [222]); (255, [376]); (257, [256]); (259, [258]);
   (261, [260]); (263, [262]); (265, [264]); (267, [266]); (269, [268]);
   (271, [270]); (273, [272]); (275, [274]); (277, [276]); (279, [278]);
   (281, [280]); (283, [282]); (285, [284]); (287, [286]); (289, [288]);
   (291, [290]); (293, [292]); (295, [294]); (297, [296]); (299, [298]);
   (301, [300]); (303, [302]); (305, [73]); (307, [306]); (309, [308]);
   (311, [310]); (314, [313]); (316, [315]); (318, [317]); (320, [319]);
   (322, [321]); (324, [323]); (326, [325]); (328, [327]); (329, [700; 78]);
   (331, [330]); (333, [332]); (335, [334]); (337, [336]); (339, [338]);
   (341, [340]); (343, [342]); (345, [344]); (347, [346]); (349, [348]);
   (351, [350]); (353, [352]); (355, [354]); (357, [356]); (359, [358]);
   (361, [360]); (363, [362]); (365, [364]); (367, [366]); (369, [368]);
   (371, [370]); (373, [372]); (375, [374]); (378, [377]); (380, [379]);
   (382, [381]); (383, [83]); (384, [579]); (387, [386]); (389, [388]);
   (392, [391]); (396, [395]); (402, [401]); (405, [502]); (409, [408]);
   (410, [573]); (414, [544]); (417, [416]); (419, [418]); (421, [420]);
   (424, [423]); (429, [428]); (432, [431]); (436, [435]); (438, [437]);
   (441, [440]); (445, [444]); (447, [503]); (453, [452]); (454, [452]);
   (456, [455]); (457, [455]); (459, [458]); (460, [458]); (462, [461]);
   (464, [463]); (466, [465]); (468, [467]); (470, [469]); (472, [471]);
   (474, [473]); (476, [475]); (477, [398]); (479, [478]); (481, [480]);
   (483, [482]); (485, [484]); (487, [486]); (489, [488]); (491, [490]);
   (493, [492]); (495, [494]); (496, [74; 780]); (498, [497]); (499, [497]);
   (501, [500]); (505, [504]); (507, [506]); (509, [508]); (511, [510]);
   (513, [512]); (515, [514]); (517, [516]); (519, [518]); (521, [520]);
   (523, [522]); (525, [524]); (527, [526]); (529, [528]); (531, [530]);
   (533, [532]); (535, [534]); (537, [536]); (539, [538]); (541, [540]);
   (543, [542]); (547, [546]); (549, [548]); (551, [550]); (553, [552]);
   (555, [554]); (557, [556]); (559, [558]); (561, [560]); (563, [562]);
   (572, [571]); (575, [11390]); (576, [11391]); (578, [577]); (583, [582]);
   (585, [584]); (587, [586]); (589, [588]); (591, [590]); (592, [11375]);
   (593, [11373]); (594, [11376]); (595, [385]); (596, [390]); (598, [393]);
   (599, [394]); (601, [399]); (603, [400]); (604, [42923]); (608, [403]);
   (609, [42924]); (611, [404]); (613, [42893]); (614, [42922]);
   (616, [407]); (617, [406]); (618, [42926]); (619, [11362]);
   (620, [42925]); (623, [412]); (625, [11374]); (626, [413]); (629, [415]);
   (637, [11364]); (640, [422]); (642, [42949]); (643, [425]);
   (647, [42929]); (648, [430]); (649, [580]); (650, [433]); (651, [434]);
   (652, [581]); (658, [439]); (669, [42930]); (670, [42928]); (837, [921]);
   (881, [880]); (883, [882]); (887, [886]); (891, [1021]); (892, [1022]);
   (893, [1023]); (912, [921; 776; 769]); (940, [902]); (941, [904]);
   (942, [905]); (943, [906]); (944, [933; 776; 769]); (945, [913]);
   (946, [914]); (947, [915]); (948, [916]); (949, [917]); (950, [918]);
   (951, [919]); (952, [920]); (953, [921]); (954, [922]); (955, [923]);
   (956, [924]); (957, [925]); (958, [926]); (959, [927]); (960, [928]);
   (961, [929]); (962, [931]); (963, [931]); (964, [932]); (965, [933]);
   (966, [934]); (967, [935]); (968, [936]); (969, [937]); (970, [938]);
   (971, [939]); (972, [908]); (973, [910]); (974, [911]); (976, [914]);
   (977, [920]); (981, [934]); (982, [928]); (983, [975]); (985, [984]);
   (987, [986]); (989, [988]); (991, [990]); (993, [992]); (995, [994]);
   (997, [996]); (999, [998]); (1001, [1000]); (1003, [1002]);
   (1005, [1004]); (1007, [1006]); (1008, [922]); (1009, [929]);
   (1010, [1017]); (1011, [895]); (1013, [917]); (1016, [1015]);
   (1019, [1018]); (1072, [1040]); (1073, [1041]); (1074, [1042]);
   (1075, [1043]); (1076, [1044]); (1077, [1045]); (1078, [1046]);
   (1079, [1047]); (1080, [1048]); (1081, [1049]); (1082, [1050]);
   (1083, [1051]); (1084, [1052]); (1085, [1053]); (1086, [1054]);
   (1087, [1055]); (1088, [1056]); (1089, [1057]); (1090, [1058]);
   (1091, [1059]); (1092, [1060]); (1093, [1061]); (1094, [1062]);
   (1095, [1063]); (1096, [1064]); (1097, [1065]); (1098, [1066]);
   (1099, [1067]); (1100, [1068]); (1101, [1069]); (1102, [1070]);
   (1103, [1071]); (1104, [1024]); (1105, [1025]); (1106, [1026]);
   (1107, [1027]); (1108, [1028]); (1109, [1029]); (1110, [1030]);
   (1111, [1031]); (1112, [1032]); (1113, [1033]); (1114, [1034]);
   (1115, [1035]); (1116, [1036]); (1117, [1037]); (1118, [1038]);
   (1119, [1039]); (1121, [1120]); (1123, [1122]); (1125, [1124]);
   (1127, [1126]); (1129, [1128]); (1131, [1130]); (1133, [1132]);
   (1135, [1134]); (1137, [1136]); (1139, [1138]); (1141, [1140]);
   (1143, [1142]); (1145, [1144]); (1147, [1146]); (1149, [1148]);
   (1151, [1150]); (1153, [1152]); (1163, [1162]); (1165, [1164]);
   (1167, [1166]); (1169, [1168]); (1171, [1170]); (1173, [1172]);
   (1175, [1174]); (1177, [1176]); (1179, [1178]); (1181, [1180]);
   (1183, [1182]); (1185, [1184]); (1187, [1186]); (1189, [1188]);
   (1191, [1190]); (1193, [1192]); (1195, [1194]); (1197, [1196]);
   (1199, [1198]); (1201, [1200]); (1203, [1202]); (1205, [1204]);
   (1207, [1206]); (1209, [1208]); (1211, [1210]); (1213, [1212]);
   (1215, [1214]); (1218, [1217]); (1220, [1219]); (1222, [1221]);
   (1224, [1223]); (1226, [1225]); (1228, [1227]); (1230, [1229]);
   (1231, [1216]); (1233, [1232]); (1235, [1234]); (1237, [1236]);
   (1239, [1238]); (1241, [1240]); (1243, [1242]); (1245, [1244]);
   (1247, [1246]); (1249, [1248]); (1251, [1250]); (1253, [1252]);
   (1255, [1254]); (1257, [1256]); (1259, [1258]); (1261, [1260]);
   (1263, [1262]); (1265, [1264]); (1267, [1266]); (1269, [1268]);
   (1271, [1270]); (1273, [1272]); (1275, [1274]); (1277, [1276]);
   (1279, [1278]); (1281, [1280]); (1283, [1282]); (1285, [1284]);
   (1287, [1286]); (1289, [1288]); (1291, [1290]); (1293, [1292]);
   (1295, [1294]); (1297, [1296]); (1299, [1298]); (1301, [1300]);
   (1303, [1302]); (1305, [1304]); (1307, [1306]); (1309, [1308]);
   (1311, [1310]); (1313, [1312]); (1315, [1314]); (1317, [1316]);
   (1319, [1318]); (1321, [1320]); (1323, [1322]); (1325, [1324]);
   (1327, [1326]); (1377, [1329]); (1378, [1330]); (1379, [1331]);
   (1380, [1332]); (1381, [1333]); (1382, [1334]); (1383, [1335]);
   (1384, [1336]); (1385, [1337]); (1386, [1338]); (1387, [1339]);
   (1388, [1340]); (1389, [1341]); (1390, [1342]); (1391, [1343]);
   (1392, [1344]); (1393, [1345]); (1394, [1346]); (1395, [1347]);
   (1396, [1348]); (1397, [1349]); (1398, [1350]); (1399, [1351]);
   (1400, [1352]); (1401, [1353]); (1402, [1354]); (1403, [1355]);
   (1404, [1356]); (1405, [1357]); (1406, [1358]); (1407, [1359]);
   (1408, [1360]); (1409, [1361]); (1410, [1362]); (1411, [1363]);
   (1412, [1364]); (1413, [1365]); (1414, [1366]); (1415, [1333; 1362]);
   (4304, [7312]); (4305, [7313]); (4306, [7314]); (4307, [7315]);
   (4308, [7316]); (4309, [7317]); (4310, [7318]); (4311, [7319]);
   (4312, [7320]); (4313, [7321]); (4314, [7322]); (4315, [7323]);
   (4316, [7324]); (4317, [7325]); (4318, [7326]); (4319, [7327]);
   (4320, [7328]); (4321, [7329]); (4322, [7330]); (4323, [7331]);
   (4324, [7332]); (4325, [7333]); (4326, [7334]); (4327, [7335]);
   (4328, [7336]); (4329, [7337]); (4330, [7338]); (4331, [7339]);
   (4332, [7340]); (4333, [7341]); (4334, [7342]); (4335, [7343]);
   (4336, [7344]); (4337, [7345]); (4338, [7346]); (4339, [7347]);
   (4340, [7348]); (4341, [7349]); (4342, [7350]); (4343, [7351]);
   (4344, [7352]); (4345, [7353]); (4346, [7354]); (4349, [7357]);
   (4350, [7358]); (4351, [7359]); (5112, [5104]); (5113, [5105]);
   (5114, [5106]); (5115, [5107]); (5116, [5108]); (5117, [5109]);
   (7296, [1042]); (7297, [1044]); (7298, [1054]); (7299, [1057]);
   (7300, [1058]); (7301, [1058]); (7302, [1066]); (7303, [1122]);
   (7304, [42570]); (7545, [42877]); (7549, [11363]); (7566, [42950]);
   (7681, [7680]); (7683, [7682]); (7685, [7684]); (7687, [7686]);
   (7689, [7688]); (7691, [7690]); (7693, [7692]); (7695, [7694]);
   (7697, [7696]); (7699, [7698]); (7701, [7700]); (7703, [7702]);
   (7705, [7704]); (7707, [7706]); (7709, [7708]); (7711, [7710]);
   (7713, [7712]); (7715, [7714]); (7717, [7716]); (7719, [7718]);
   (7721, [7720]); (7723, [7722]); (7725, [7724]); (7727, [7726]);
   (7729, [7728]); (7731, [7730]); (7733, [7732]); (7735, [7734]);
   (7737, [7736]); (7739, [7738]); (7741, [7740]); (7743, [7742]);
   (7745, [7744]); (7747, [7746]); (7749, [7748]); (7751, [7750]);
   (7753, [7752]); (7755, [7754]); (7757, [7756]); (7759, [7758]);
   (7761, [7760]); (7763, [7762]); (7765, [7764]); (7767, [7766]);
   (7769, [7768]); (7771, [7770]); (7773, [7772]); (7775, [7774]);
   (7777, [7776]); (7779, [7778]); (7781, [7780]); (7783, [7782]);
   (7785, [7784]); (7787, [7786]); (7789, [7788]); (7791, [7790]);
   (7793, [7792]); (7795, [7794]); (7797, [7796]); (7799, [7798]);
   (7801, [7800]); (7803, [7802]); (7805, [7804]); (7807, [7806]);
   (7809, [7808]); (7811, [7810]); (7813, [7812]); (7815, [7814]);
   (7817, [7816]); (7819, [7818]); (7821, [7820]); (7823, [7822]);
   (7825, [7824]); (7827, [7826]); (7829, [7828]); (7830, [72; 817]);
   (7831, [84; 776]); (7832, [87; 778]); (7833, [89; 778]);
   (7834, [65; 702]); (7835, [7776]); (7841, [7840]); (7843, [7842]);
   (7845, [7844]); (7847, [7846]); (7849, [7848]); (7851, [7850]);
   (7853, [7852]); (7855, [7854]); (7857, [7856]); (7859, [7858]);
   (7861, [7860]); (7863, [7862]); (7865, [7864]); (7867, [7866]);
   (7869, [7868]); (7871, [7870]); (7873, [7872]); (7875, [7874]);
   (7877, [7876]); (7879, [7878]); (7881, [7880]); (7883, [7882]);
   (7885, [7884]); (7887, [7886]); (7889, [7888]); (7891, [7890]);
   (7893, [7892]); (7895, [7894]); (7897, [7896]); (7899, [7898]);
   (7901, [7900]); (7903, [7902]); (7905, [7904]); (7907, [7906]);
   (7909, [7908]); (7911, [7910]); (7913, [7912]); (7915, [7914]);
   (7917, [7916]); (7919, [7918]); (7921, [7920]); (7923, [7922]);
   (7925, [7924]); (7927, [7926]); (7929, [7928]); (7931, [7930]);
   (7933, [7932]); (7935, [7934]); (7936, [7944]); (7937, [7945]);
   (7938, [7946]); (7939, [7947]); (7940, [7948]); (7941, [7949]);
   (7942, [7950]); (7943, [7951]); (7952, [7960]); (7953, [7961]);
   (7954, [7962]); (7955, [7963]); (7956, [7964]); (7957, [7965]);
   (7968, [7976]); (7969, [7977]); (7970, [7978]); (7971, [7979]);
   (7972, [7980]); (7973, [7981]); (7974, [7982]); (7975, [7983]);
   (7984, [7992]); (7985, [7993]); (7986, [7994]); (7987, [7995]);
   (7988, [7996]); (7989, [7997]); (7990, [7998]); (7991, [7999]);
   (8000, [8008]); (8001, [8009]); (8002, [8010]); (8003, [8011]);
   (8004, [8012]); (8005, [8013]); (8016, [933; 787]); (8017, [8025]);
   (8018, [933; 787; 768]); (8019, [8027]); (8020, [933; 787; 769]);
   (8021, [8029]); (8022, [933; 787; 834]); (8023, [8031]); (8032, [8040]);
   (8033, [8041]); (8034, [8042]); (8035, [8043]); (8036, [8044]);
   (8037, [8045]); (8038, [8046]); (8039, [8047]); (8048, [8122]);
   (8049, [8123]); (8050, [8136]); (8051, [8137]); (8052, [8138]);
   (8053, [8139]); (8054, [8154]); (8055, [8155]); (8056, [8184]);
   (8057, [8185]); (8058, [8170]); (8059, [8171]); (8060, [8186]);
   (8061, [8187]); (8064, [7944; 921]); (8065, [7945; 921]);
   (8066, [7946; 921]); (8067, [7947; 921]); (8068, [7948; 921]);
   (8069, [7949; 921]); (8070, [7950; 921]); (8071, [7951; 921]);
   (8072, [7944; 921]); (8073, [7945; 921]); (8074, [7946; 921]);
   (8075, [7947; 921]); (8076, [7948; 921]); (8077, [7949; 921]);
   (8078, [7950; 921]); (8079, [7951; 921]); (8080, [7976; 921]);
   (8081, [7977; 921]); (8082, [7978; 921]); (8083, [7979; 921]);
   (8084, [7980; 921]); (8085, [7981; 921]); (8086, [7982; 921]);
   (8087, [7983; 921]); (8088, [7976; 921]); (8089, [7977; 921]);
   (8090, [7978; 921]); (8091, [7979; 921]); (8092, [7980; 921]);
   (8093, [7981; 921]); (8094, [7982; 921]); (8095, [7983; 921]);
   (8096, [8040; 921]); (8097, [8041; 921]); (8098, [8042; 921]);
   (8099, [8043; 921]); (8100, [8044; 921]); (8101, [8045; 921]);
   (8102, [8046; 921]); (8103, [8047; 921]); (8104, [8040; 921]);
   (8105, [8041; 921]); (8106, [8042; 921]); (8107, [8043; 921]);
   (8108, [8044; 921]); (8109, [8045; 921]); (8110, [8046; 921]);
   (8111, [8047; 921]); (8112, [8120]); (8113, [8121]); (8114, [8122; 921]);
   (8115, [913; 921]); (8116, [902; 921]); (8118, [913; 834]);
   (8119, [913; 834; 921]); (8124, [913; 921]); (8126, [921]);
   (8130, [8138; 921]); (8131, [919; 921]); (8132, [905; 921]);
   (8134, [919; 834]); (8135, [919; 834; 921]); (8140, [919; 921]);
   (8144, [8152]); (8145, [8153]); (8146, [921; 776; 768]);
   (8147, [921; 776; 769]); (8150, [921; 834]); (8151, [921; 776; 834]);
   (8160, [8168]); (8161, [8169]); (8162, [933; 776; 768]);
   (8163, [933; 776; 769]); (8164, [929; 787]); (8165, [8172]);
   (8166, [933; 834]); (8167, [933; 776; 834]); (8178, [8186; 921]);
   (8179, [937; 921]); (8180, [911; 921]); (8182, [937; 834]);
   (8183, [937; 834; 921]); (8188, [937; 921]); (8526, [8498]);
   (8560, [8544]); (8561, [8545]); (8562, [8546]); (8563, [8547]);
   (8564, [8548]); (8565, [8549]); (8566, [8550]); (8567, [8551]);
   (8568, [8552]); (8569, [8553]); (8570, [8554]); (8571, [8555]);
   (8572, [8556]); (8573, [8557]); (8574, [8558]); (8575, [8559]);
   (8580, [8579]); (9424, [9398]); (9425, [9399]); (9426, [9400]);
   (9427, [9401]); (9428, [9402]); (9429, [9403]); (9430, [9404]);
   (9431, [9405]); (9432, [9406]); (9433, [9407]); (9434, [9408]);
   (9435, [9409]); (9436, [9410]); (9437, [9411]); (9438, [9412]);
   (9439, [9413]); (9440, [9414]); (9441, [9415]); (9442, [9416]);
   (9443, [9417]); (9444, [9418]); (9445, [9419]); (9446, [9420]);
   (9447, [9421]); (9448, [9422]); (9449, [9423]); (11312, [11264]);
   (11313, [11265]); (11314, [11266]); (11315, [11267]); (11316, [11268]);
   (11317, [11269]); (11318, [11270]); (11319, [11271]); (11320, [11272]);
   (11321, [11273]); (11322, [11274]); (11323, [11275]); (11324, [11276]);
   (11325, [11277]); (11326, [11278]); (11327, [11279]); (11328, [11280]);
   (11329, [11281]); (11330, [11282]); (11331, [11283]); (11332, [11284]);
   (11333, [11285]); (11334, [11286]); (11335, [11287]); (11336, [11288]);
   (11337, [11289]); (11338, [11290]); (11339, [11291]); (11340, [11292]);
   (11341, [11293]); (11342, [11294]); (11343, [11295]); (11344, [11296]);
   (11345, [11297]); (11346, [11298]); (11347, [11299]); (11348, [11300]);
   (11349, [11301]); (11350, [11302]); (11351, [11303]); (11352, [11304]);
   (11353, [11305]); (11354, [11306]); (11355, [11307]); (11356, [11308]);
   (11357, [11309]); (11358, [11310]); (11359, [11311]); (11361, [11360]);
   (11365, [570]); (11366, [574]); (11368, [11367]); (11370, [11369]);
   (11372, [11371]); (11379, [11378]); (11382, [11381]); (11393, [11392]);
   (11395, [11394]); (11397, [11396]); (11399, [11398]); (11401, [11400]);
   (11403, [11402]); (11405, [11404]); (11407, [11406]); (11409, [11408]);
   (11411, [11410]); (11413, [11412]); (11415, [11414]); (11417, [11416]);
   (11419, [11418]); (11421, [11420]); (11423, [11422]); (11425, [11424]);
   (11427, [11426]); (11429, [11428]); (11431, [11430]); (11433, [11432]);
   (11435, [11434]); (11437, [11436]); (11439, [11438]); (11441, [11440]);
   (11443, [11442]); (11445, [11444]); (11447, [11446]); (11449, [11448]);
   (11451, [11450]); (11453, [11452]); (11455, [11454]); (11457, [11456]);
   (11459, [11458]); (11461, [11460]); (11463, [11462]); (11465, [11464]);
   (11467, [11466]); (11469, [11468]); (11471, [11470]); (11473, [11472]);
   (11475, [11474]); (11477, [11476]); (11479, [11478]); (11481, [11480]);
   (11483, [11482]); (11485, [11484]); (11487, [11486]); (11489, [11488]);
   (11491, [11490]); (11500, [11499]); (11502, [11501]); (11507, [11506]);
   (11520, [4256]); (11521, [4257]); (11522, [4258]); (11523, [4259]);
   (11524, [4260]); (11525, [4261]); (11526, [4262]); (11527, [4263]);
   (11528, [4264]); (11529, [4265]); (11530, [4266]); (11531, [4267]);
   (11532, [4268]); (11533, [4269]); (11534, [4270]); (11535, [4271]);
   (11536, [4272]); (11537, [4273]); (11538, [4274]); (11539, [4275]);
   (11540, [4276]); (11541, [4277]); (11542, [4278]); (11543, [4279]);
   (11544, [4280]); (11545, [4281]); (11546, [4282]); (11547, [4283]);
   (11548, [4284]); (11549, [4285]); (11550, [4286]); (11551, [4287]);
   (11552, [4288]); (11553, [4289]); (11554, [4290]); (11555, [4291]);
   (11556, [4292]); (11557, [4293]); (11559, [4295]); (11565, [4301]);
   (42561, [42560]); (42563, [42562]); (42565, [42564]); (42567, [42566]);
   (42569, [42568]); (42571, [42570]); (42573, [42572]); (42575, [42574]);
   (42577, [42576]); (42579, [42578]); (42581, [42580]); (42583, [42582]);
   (42585, [42584]); (42587, [42586]); (42589, [42588]); (42591, [42590]);
   (42593, [42592]); (42595, [42594]); (42597, [42596]); (42599, [42598]);
   (42601, [42600]); (42603, [42602]); (42605, [42604]); (42625, [42624]);
   (42627, [42626]); (42629, [42628]); (42631, [42630]); (42633, [42632]);
   (42635, [42634]); (42637, [42636]); (42639, [42638]); (42641, [42640]);
   (42643, [42642]); (42645, [42644]); (42647, [42646]); (42649, [42648]);
   (42651, [42650]); (42787, [42786]); (42789, [42788]); (42791, [42790]);
   (42793, [42792]); (42795, [42794]); (42797, [42796]); (42799, [42798]);
   (42803, [42802]); (42805, [42804]); (42807, [42806]); (42809, [42808]);
   (42811, [42810]); (42813, [42812]); (42815, [42814]); (42817, [42816]);
   (42819, [42818]); (42821, [42820]); (42823, [42822]); (42825, [42824]);
   (42827, [42826]); (42829, [42828]); (42831, [42830]); (42833, [42832]);
   (42835, [42834]); (42837, [42836]); (42839, [42838]); (42841, [42840]);
   (42843, [42842]); (42845, [42844]); (42847, [42846]); (42849, [42848]);
   (42851, [42850]); (42853, [42852]); (42855, [42854]); (42857, [42856]);
   (42859, [42858]); (42861, [42860]); (42863, [42862]); (42874, [42873]);
   (42876, [42875]); (42879, [42878]); (42881, [42880]); (42883, [42882]);
   (42885, [42884]); (42887, [42886]); (42892, [42891]); (42897, [42896]);
   (42899, [42898]); (42900, [42948]); (42903, [42902]); (42905, [42904]);
   (42907, [42906]); (42909, [42908]); (42911, [42910]); (42913, [42912]);
   (42915, [42914]); (42917, [42916]); (42919, [42918]); (42921, [42920]);
   (42933, [42932]); (42935, [42934]); (42937, [42936]); (42939, [42938]);
   (42941, [42940]); (42943, [42942]); (42945, [42944]); (42947, [42946]);
   (42952, [42951]); (42954, [42953]); (42961, [42960]); (42967, [42966]);
   (42969, [42968]); (42998, [42997]); (43859, [42931]); (43888, [5024]);
   (43889, [5025]); (43890, [5026]); (43891, [5027]); (43892, [5028]);
   (43893, [5029]); (43894, [5030]); (43895, [5031]); (43896, [5032]);
   (43897, [5033]); (43898, [5034]); (43899, [5035]); (43900, [5036]);
   (43901, [5037]); (43902, [5038]); (43903, [5039]); (43904, [5040]);
   (43905, [5041]); (43906, [5042]); (43907, [5043]); (43908, [5044]);
   (43909, [5045]); (43910, [5046]); (43911, [5047]); (43912, [5048]);
   (43913, [5049]); (43914, [5050]); (43915, [5051]); (43916, [5052]);
   (43917, [5053]); (43918, [5054]); (43919, [5055]); (43920, [5056]);
   (43921, [5057]); (43922, [5058]); (43923, [5059]); (43924, [5060]);
   (43925, [5061]); (43926, [5062]); (43927, [5063]); (43928, [5064]);
   (43929, [5065]); (43930, [5066]); (43931, [5067]); (43932, [5068]);
   (43933, [5069]); (43934, [5070]); (43935, [5071]); (43936, [5072]);
   (43937, [5073]); (43938, [5074]); (43939, [5075]); (43940, [5076]);
   (43941, [5077]); (43942, [5078]); (43943, [5079]); (43944, [5080]);
   (43945, [5081]); (43946, [5082]); (43947, [5083]); (43948, [5084]);
   (43949, [5085]); (43950, [5086]); (43951, [5087]); (43952, [5088]);
   (43953, [5089]); (43954, [5090]); (43955, [5091]); (43956, [5092]);
   (43957, [5093]); (43958, [5094]); (43959, [5095]); (43960, [5096]);
   (43961, [5097]); (43962, [5098]); (43963, [5099]); (43964, [5100]);
   (43965, [5101]); (43966, [5102]); (43967, [5103]); (64256, [70; 70]);
   (64257, [70; 73]); (64258, [70; 76]); (64259, [70; 70; 73]);
   (64260, [70; 70; 76]); (64261, [83; 84]); (64262, [83; 84]);
   (64275, [1348; 1350]); (64276, [1348; 1333]); (64277, [1348; 1339]);
   (64278, [1358; 1350]); (64279, [1348; 1341]); (65345, [65313]);
   (65346, [65314]); (65347, [65315]); (65348, [65316]); (65349, [65317]);
   (65350, [65318]); (65351, [65319]); (65352, [65320]); (65353, [65321]);
   (65354, [65322]); (65355, [65323]); (65356, [65324]); (65357, [65325]);
   (65358, [65326]); (65359, [65327]); (65360, [65328]); (65361, [65329]);
   (65362, [65330]); (65363, [65331]); (65364, [65332]); (65365, [65333]);
   (65366, [65334]); (65367, [65335]); (65368, [65336]); (65369, [65337]);
   (65370, [65338]); (66600, [66560]); (66601, [66561]); (66602, [66562]);
   (66603, [66563]); (66604, [66564]); (66605, [66565]); (66606, [66566]);
   (66607, [66567]); (66608, [66568]); (66609, [66569]); (66610, [66570]);
   (66611, [66571]); (66612, [66572]); (66613, [66573]); (66614, [66574]);
   (66615, [66575]); (66616, [66576]); (66617, [66577]); (66618, [66578]);
   (66619, [66579]); (66620, [66580]); (66621, [66581]); (66622, [66582]);
   (66623, [66583]); (66624, [66584]); (66625, [66585]); (66626, [66586]);
   (66627, [66587]); (66628, [66588]); (66629, [66589]); (66630, [66590]);
   (66631, [66591]); (66632, [66592]); (66633, [66593]); (66634, [66594]);
   (66635, [66595]); (66636, [66596]); (66637, [66597]); (66638, [66598]);
   (66639, [66599]); (66776, [66736]); (66777, [66737]); (66778, [66738]);
   (66779, [66739]); (66780, [66740]); (66781, [66741]); (66782, [66742]);
   (66783, [66743]); (66784, [66744]); (66785, [66745]); (66786, [66746]);
   (66787, [66747]); (66788, [66748]); (66789, [66749]); (66790, [66750]);
   (66791, [66751]); (66792, [66752]); (66793, [66753]); (66794, [66754]);
   (66795, [66755]); (66796, [66756]); (66797, [66757]); (66798, [66758]);
   (66799, [66759]); (66800, [66760]); (66801, [66761]); (66802, [66762]);
   (66803, [66763]); (66804, [66764]); (66805, [66765]); (66806, [66766]);
   (66807, [66767]); (66808, [66768]); (66809, [66769]); (66810, [66770]);
   (66811, [66771]); (66967, [66928]); (66968, [66929]); (66969, [66930]);
   (66970, [66931]); (66971, [66932]); (66972, [66933]); (66973, [66934]);
   (66974, [66935]); (66975, [66936]); (66976, [66937]); (66977, [66938]);
   (66979, [66940]); (66980, [66941]); (66981, [66942]); (66982, [66943]);
   (66983, [66944]); (66984, [66945]); (66985, [66946]); (66986, [66947]);
   (66987, [66948]); (66988, [66949]); (66989, [66950]); (66990, [66951]);
   (66991, [66952]); (66992, [66953]); (66993, [66954]); (66995, [66956]);
   (66996, [66957]); (66997, [66958]); (66998, [66959]); (66999, [66960]);
   (67000, [66961]); (67001, [66962]); (67003, [66964]); (67004, [66965]);
   (68800, [68736]); (68801, [68737]); (68802, [68738]); (68803, [68739]);
   (68804, [68740]); (68805, [68741]); (68806, [68742]); (68807, [68743]);
   (68808, [68744]); (68809, [68745]); (68810, [68746]); (68811, [68747]);
   (68812, [68748]); (68813, [68749]); (68814, [68750]); (68815, [68751]);
   (68816, [68752]); (68817, [68753]); (68818, [68754]); (68819, [68755]);
   (68820, [68756]); (68821, [68757]); (68822, [68758]); (68823, [68759]);
   (68824, [68760]); (68825, [68761]); (68826, [68762]); (68827, [68763]);
   (68828, [68764]); (68829, [68765]); (68830, [68766]); (68831, [68767]);
   (68832, [68768]); (68833, [68769]); (68834, [68770]); (68835, [68771]);
   (68836, [68772]); (68837, [68773]); (68838, [68774]); (68839, [68775]);
   (68840, [68776]); (68841, [68777]); (68842, [68778]); (68843, [68779]);
   (68844, [68780]); (68845, [68781]); (68846, [68782]); (68847, [68783]);
   (68848, [68784]); (68849, [68785]); (68850, [68786]); (71872, [71840]);
   (71873, [71841]); (71874, [71842]); (71875, [71843]); (71876, [71844]);
   (71877, [71845]); (71878, [71846]); (71879, [71847]); (71880, [71848]);
   (71881, [71849]); (71882, [71850]); (71883, [71851]); (71884, [71852]);
   (71885, [71853]); (71886, [71854]); (71887, [71855]); (71888, [71856]);
   (71889, [71857]); (71890, [71858]); (71891, [71859]); (71892, [71860]);
   (71893, [71861]); (71894, [71862]); (71895, [71863]); (71896, [71864]);
   (71897, [71865]); (71898, [71866]); (71899, [71867]); (71900, [71868]);
   (71901, [71869]); (71902, [71870]); (71903, [71871]); (93792, [93760]);
   (93793, [93761]); (93794, [93762]); (93795, [93763]); (93796, [93764]);
   (93797, [93765]); (93798, [93766]); (93799, [93767]); (93800, [93768]);
   (93801, [93769]); (93802, [93770]); (93803, [93771]); (93804, [93772]);
   (93805, [93773]); (93806, [93774]); (93807, [93775]); (93808, [93776]);
   (93809, [93777]); (93810, [93778]); (93811, [93779]); (93812, [93780]);
   (93813, [93781]); (93814, [93782]); (93815, [93783]); (93816, [93784]);
   (93817, [93785]); (93818, [93786]); (93819, [93787]); (93820, [93788]);
   (93821, [93789]); (93822, [93790]); (93823, [93791]); (125218, [125184]);
   (125219, [125185]); (125220, [125186]); (125221, [125187]);
   (125222, [125188]); (125223, [125189]); (125224, [125190]);
   (125225, [125191]); (125226, [125192]); (125227, [125193]);
   (125228, [125194]); (125229, [125195]); (125230, [125196]);
   (125231, [125197]); (125232, [125198]); (125233, [125199]);
   (125234, [125200]); (125235, [125201]); (125236, [125202]);
   (125237, [125203]); (125238, [125204]); (125239, [125205]);
   (125240, [125206]); (125241, [125207]); (125242, [125208]);
   (125243, [125209]); (125244, [125210]); (125245, [125211]);
   (125246, [125212]); (125247, [125213]); (125248, [125214]);
   (125249, [125215]); (125250, [125216]); (125251, [125217])
  ].

Definition isspace (c : Z) : bool := in_ranges c WHITESPACE.

Definition isalnum_char (c : Z) : bool := in_ranges c ALNUM.

Fixpoint assoc (c : Z) (table : list (Z * list Z)) : option (list Z) :=
  match table with
  | [] => None
  | (c', u) :: table' => if c' =? c then Some u else assoc c table'
  end.

Definition upper_char (c : Z) : text :=
  match assoc c UPPER with
  | Some u => u
  | None => [c]
  end.

(** [s.upper()]. *)
Definition upper (s : text) : text := flat_map upper_char s.

(** [s.isalnum()]: every code point is alphanumeric and there is at least
    one. *)
Definition isalnum (s : text) : bool :=
  match s with
  | [] => false
  | _ => forallb isalnum_char s
  end.

Fixpoint lstrip (s : text) : text :=
  match s with
  | [] => []
  | c :: s' => if isspace c then lstrip s' else s
  end.

Fixpoint rstrip (s : text) : text :=
  match s with
  | [] => []
  | c :: s' =>
      match rstrip s' with
      | [] => if isspace c then [] else [c]
      | r => c :: r
      end
  end.

(** [s.strip()]. *)
Definition strip (s : text) : text := rstrip (lstrip s).

(** Truthiness of a [str]: [not s] holds exactly for the empty text. *)
Definition is_empty (s : text) : bool :=
  match s with [] => true | _ => false end.

Fixpoint text_eqb (a b : text) : bool :=
  match a, b with
  | [], [] => true
  | x :: a', y :: b' => (x =? y) && text_eqb a' b'
  | _, _ => false
  end.

(** [x in S] for a set of texts. *)
Definition text_in (x : text) (S : list text) : bool :=
  existsb (text_eqb x) S.

Inductive exn : Type :=
| ValidationError (msg : text).

Inductive result (A : Type) : Type :=
| Ok (a : A)
| Raise (e : exn).
Arguments Ok {A} a.
Arguments Raise {A} e.

Definition VALID_SIDES : list text :=
  map of_string Validators.VALID_SIDES.

Definition VALID_ORDER_TYPES : list text :=
  map of_string Validators.VALID_ORDER_TYPES.

(** [", ".join(sorted(S))] for one of the two sets above, whose members
    are ASCII literals. *)
Definition joined (S : list string) : text :=
  of_string (PyStr.join ", " (Validators.sorted S)).

Definition validate_symbol (symbol : text) : result text :=
  let symbol := upper (strip symbol) in
  if is_empty symbol then
    Raise (ValidationError (of_string "Symbol cannot be empty."))
  else if negb (isalnum symbol) then
    Raise (ValidationError
      (of_string "Symbol '" ++ symbol ++
       of_string "' must contain only letters and numbers (e.g. BTCUSDT)."))
  else Ok symbol.

Definition validate_side (side : text) : result text :=
  let side := upper (strip side) in
  if negb (text_in side VALID_SIDES) then
    Raise (ValidationError
      (of_string "Invalid side '" ++ side ++
       of_string "'. Must be one of: " ++
       joined Validators.VALID_SIDES ++ of_string "."))
  else Ok side.

Definition validate_order_type (order_type : text) : result text :=
  let order_type := upper (strip order_type) in
  if negb (text_in order_type VALID_ORDER_TYPES) then
    Raise (ValidationError
      (of_string "Invalid order type '" ++ order_type ++
       of_string "'. Must be one of: " ++
       joined Validators.VALID_ORDER_TYPES ++ of_string "."))
  else Ok order_type.

(** Every code point is below 128. *)
Definition is_ascii (s : text) : bool :=
  forallb (fun c => (0 <=? c) && (c <? 128)) s.

(** [validate_symbol] as the specification words it: it succeeds exactly
    when the stripped input is non-empty and alphanumeric, it returns the
    stripped input upper-cased, and it fails with the error of the empty
    input or with the error of the input that is not alphanumeric. *)
Definition validate_symbol_as_stated : Prop :=
  forall s : text,
    ((exists r, validate_symbol s = Ok r) <->
     strip s <> [] /\ isalnum (strip s) = true) /\
    (forall r, validate_symbol s = Ok r -> r = upper (strip s)) /\
    (forall e, validate_symbol s = Raise e ->
       (strip s = [] /\
        e = ValidationError (of_string "Symbol cannot be empty.")) \/
       (isalnum (strip s) = false /\
        e = ValidationError
              (of_string "Symbol '" ++ upper (strip s) ++
               of_string
                 "' must contain only letters and numbers (e.g. BTCUSDT)."))).

End Unicode.

(* ===================================================================== *)
(** * The model run on known values *)
(* ===================================================================== *)

Module Checks.
Import PyStr Py Validators Env Client Orders.

(** FIPS 180-4, the one-block message "abc". *)
Example sha256_abc :
  Sha256.hex (Sha256.sha256 (Sha256.encode "abc")) =
  "ba7816bf8f01cfea414140de5dae2223b00361a396177a9cb410ff61f20015ad".
Proof. vm_compute. reflexivity. Qed.

(** RFC 4231, test case 2. *)
Example hmac_sha256_jefe :
  Sha256.hmac_sha256_hex (Sha256.encode "Jefe")
    (Sha256.encode "what do ya want for nothing?") =
  "5bdcc146bf60754e6a042426089575c75a003f089d2739839dec58b964ec3843".
Proof. vm_compute. reflexivity. Qed.

Example first_round_constant : hd 0 Sha256.K = 0x428a2f98.
Proof. reflexivity. Qed.

Example float_texts :
  option_map PyFloat.repr (PyFloat.of_string " 1e16 ") = Some "1e+16" /\
  option_map PyFloat.repr (PyFloat.of_string "0.001") = Some "0.001" /\
  option_map PyFloat.repr (PyFloat.of_string "1_000.50") = Some "1000.5" /\
  option_map PyFloat.repr (PyFloat.of_string "-Infinity") = Some "-inf" /\
  PyFloat.of_string "1__0" = None /\
  PyFloat.of_string "12abc" = None.
Proof. vm_compute. repeat split. Qed.

Example urlencode_text :
  UrlEncode.urlencode
    [("symbol", PStr "BTCUSDT"); ("quantity", PFloat (PyFloat.of_decimal false 1 (-3)));
     ("note", PStr "a b&c=d")] =
  "symbol=BTCUSDT&quantity=0.001&note=a+b%26c%3Dd".
Proof. vm_compute. reflexivity. Qed.

(** The end-to-end scenario of the specification. *)
Example validate_then_build :
  validate_all "btcusdt" "buy" "market" (PStr "0.001") PNone PNone =
    Ok [("symbol", PStr "BTCUSDT"); ("side", PStr "BUY");
        ("order_type", PStr "MARKET");
        ("quantity", PFloat (PyFloat.of_decimal false 1 (-3)))] /\
  market_params "BTCUSDT" "BUY" (PFloat (PyFloat.of_decimal false 1 (-3))) =
    [("symbol", PStr "BTCUSDT"); ("side", PStr "BUY");
     ("type", PStr "MARKET");
     ("quantity", PFloat (PyFloat.of_decimal false 1 (-3)))].
Proof. vm_compute. split; reflexivity. Qed.

(** A ping that cannot connect returns [False] and raises nothing. *)
Example ping_unreachable :
  fst (ping Samples.client
         (Samples.world (fun _ => Fails ConnectionError) [])) = Ok false.
Proof. vm_compute. reflexivity. Qed.

(** A 2xx answer is returned as it is. *)
Example order_accepted :
  fst (post_order Samples.client 0%nat
         (Samples.world (Samples.always Samples.accepted)
            [("symbol", PStr "BTCUSDT")])) = Ok Samples.order_json.
Proof. vm_compute. reflexivity. Qed.

End Checks.

(* ===================================================================== *)
(** * Facts about the validators *)
(* ===================================================================== *)

Module ValidatorFacts.
Import PyStr Py Validators ValidatorSpec.

Lemma isalnum_upper_char (c : ascii) :
  isalnum_char (upper_char c) = isalnum_char c.
Proof. destruct c as [[] [] [] [] [] [] [] []]; reflexivity. Qed.

Lemma forallb_map_str (p : ascii -> bool) (f : ascii -> ascii) (s : string) :
  (forall c, p (f c) = p c) -> forallb_str p (map_str f s) = forallb_str p s.
Proof.
  intros Hpf. induction s as [|c s IH]; simpl; [reflexivity|].
  now rewrite Hpf, IH.
Qed.

Lemma isalnum_upper (s : string) : isalnum (upper s) = isalnum s.
Proof.
  destruct s as [|c s]; [reflexivity|].
  unfold isalnum, upper. simpl map_str. cbv iota.
  change (String (upper_char c) (map_str upper_char s))
    with (map_str upper_char (String c s)).
  apply forallb_map_str, isalnum_upper_char.
Qed.

Lemma is_empty_upper (s : string) : is_empty (upper s) = is_empty s.
Proof. destruct s; reflexivity. Qed.

Lemma is_empty_true (s : string) : is_empty s = true <-> s = "".
Proof. destruct s; simpl; split; congruence. Qed.

Lemma is_empty_false (s : string) : is_empty s = false <-> s <> "".
Proof. destruct s; simpl; split; congruence. Qed.

(** The outcome of [validate_symbol] in terms of the stripped input. *)
Lemma validate_symbol_cases (s : string) :
  validate_symbol s =
    if is_empty (strip s) then Raise (ValidationError "Symbol cannot be empty.")
    else if isalnum (strip s) then Ok (upper (strip s))
    else Raise (ValidationError
           ("Symbol '" ++ upper (strip s) ++
            "' must contain only letters and numbers (e.g. BTCUSDT).")).
Proof.
  unfold validate_symbol.
  rewrite is_empty_upper, isalnum_upper.
  destruct (is_empty (strip s)); [reflexivity|].
  destruct (isalnum (strip s)); reflexivity.
Qed.


Lemma py_float_errors (v : pyval) (e : exn) :
  py_float v = Raise e -> e = TypeError \/ e = ValueError \/ e = OverflowError.
Proof.
  destruct v as [| b | z | f | s]; simpl.
  - intros [= <-]; auto.
  - discriminate.
  - destruct (PyFloat.of_int z); [discriminate | intros [= <-]; auto].
  - discriminate.
  - destruct (PyFloat.of_string s); [discriminate | intros [= <-]; auto].
Qed.

Lemma float_or_cases (msg : string) (v : pyval) :
  float_or msg v =
    match py_float v with
    | Ok x => Ok x
    | Raise OverflowError => Raise OverflowError
    | Raise _ => Raise (ValidationError msg)
    end.
Proof.
  unfold float_or. destruct (py_float v) as [x|e] eqn:E; [reflexivity|].
  destruct (py_float_errors _ _ E) as [-> | [-> | ->]]; reflexivity.
Qed.

(** The three validators of a positive number, by cases on [float(raw)]. *)
Lemma validate_quantity_cases (raw : pyval) :
  validate_quantity raw =
    match py_float raw with
    | Ok q =>
        if PyFloat.leb q PyFloat.zero
        then Raise (ValidationError (quantity_not_positive q)) else Ok q
    | Raise OverflowError => Raise OverflowError
    | Raise _ => Raise (ValidationError (quantity_not_a_number raw))
    end.
Proof.
  unfold validate_quantity. rewrite float_or_cases.
  destruct (py_float raw) as [q|[]]; reflexivity.
Qed.

Lemma validate_price_cases (raw : pyval) :
  validate_price raw =
    if is_none raw then Raise (ValidationError price_required)
    else
      match py_float raw with
      | Ok p =>
          if PyFloat.leb p PyFloat.zero
          then Raise (ValidationError (price_not_positive p)) else Ok p
      | Raise OverflowError => Raise OverflowError
      | Raise _ => Raise (ValidationError (price_not_a_number raw))
      end.
Proof.
  unfold validate_price. destruct (is_none raw); [reflexivity|].
  rewrite float_or_cases. destruct (py_float raw) as [p|[]]; reflexivity.
Qed.

Lemma validate_stop_price_cases (raw : pyval) :
  validate_stop_price raw =
    if is_none raw then Raise (ValidationError stop_price_required)
    else
      match py_float raw with
      | Ok p =>
          if PyFloat.leb p PyFloat.zero
          then Raise (ValidationError (stop_price_not_positive p)) else Ok p
      | Raise OverflowError => Raise OverflowError
      | Raise _ => Raise (ValidationError (stop_price_not_a_number raw))
      end.
Proof.
  unfold validate_stop_price. destruct (is_none raw); [reflexivity|].
  rewrite float_or_cases. destruct (py_float raw) as [p|[]]; reflexivity.
Qed.

(** The test [x <= 0] lets through the numbers above zero and the NaN. *)
Lemma not_leb_zero (x : PyFloat.float) :
  PyFloat.leb x PyFloat.zero = false <->
  PyFloat.ltb PyFloat.zero x = true \/ x = PyFloat.nan.
Proof.
  destruct x as [s | [] | | [] m e]; cbv; intuition congruence.
Qed.

(** The three messages of each validator differ whatever the input. *)
Lemma price_messages_distinct (raw : pyval) (p : PyFloat.float) :
  price_required <> price_not_a_number raw /\
  price_required <> price_not_positive p /\
  price_not_a_number raw <> price_not_positive p.
Proof. repeat split; discriminate. Qed.

Lemma stop_price_messages_distinct (raw : pyval) (p : PyFloat.float) :
  stop_price_required <> stop_price_not_a_number raw /\
  stop_price_required <> stop_price_not_positive p /\
  stop_price_not_a_number raw <> stop_price_not_positive p.
Proof. repeat split; discriminate. Qed.

(** ** What [validate_order_type] and [validate_side] return *)

Lemma str_in_spec (x : string) (l : list string) :
  str_in x l = true <-> In x l.
Proof.
  unfold str_in. rewrite existsb_exists. split.
  - intros [y [Hy E]]. apply String.eqb_eq in E. now subst.
  - intros H. exists x. split; [assumption | apply String.eqb_refl].
Qed.

Lemma validate_order_type_ok (order_type t : string) :
  validate_order_type order_type = Ok t ->
  t = "MARKET" \/ t = "LIMIT" \/ t = "TAKE_PROFIT".
Proof.
  unfold validate_order_type.
  destruct (str_in _ VALID_ORDER_TYPES) eqn:E; simpl; [|discriminate].
  intros [= <-]. apply str_in_spec in E. simpl in E. intuition.
Qed.

(** ** Errors that are not the missing-quantity error *)

Lemma validate_order_type_error (s : string) (e : exn) :
  validate_order_type s = Raise e -> other_error e.
Proof.
  unfold validate_order_type. destruct (negb _); [|discriminate].
  intros [= <-] t. discriminate.
Qed.

Lemma validate_symbol_error (s : string) (e : exn) :
  validate_symbol s = Raise e -> other_error e.
Proof.
  rewrite validate_symbol_cases.
  destruct (is_empty _); [intros [= <-] t; discriminate|].
  destruct (isalnum _); [discriminate | intros [= <-] t; discriminate].
Qed.

Lemma validate_side_error (s : string) (e : exn) :
  validate_side s = Raise e -> other_error e.
Proof.
  unfold validate_side. destruct (negb _); [|discriminate].
  intros [= <-] t. discriminate.
Qed.

Lemma validate_quantity_error (raw : pyval) (e : exn) :
  validate_quantity raw = Raise e -> other_error e.
Proof.
  rewrite validate_quantity_cases.
  destruct (py_float raw) as [q|[]]; try destruct (PyFloat.leb _ _);
    try discriminate; intros [= <-] t; discriminate.
Qed.

Lemma validate_price_error (raw : pyval) (e : exn) :
  validate_price raw = Raise e -> other_error e.
Proof.
  rewrite validate_price_cases. destruct (is_none raw).
  - intros [= <-] t; discriminate.
  - destruct (py_float raw) as [q|[]]; try destruct (PyFloat.leb _ _);
      try discriminate; intros [= <-] t; discriminate.
Qed.

Lemma validate_stop_price_error (raw : pyval) (e : exn) :
  validate_stop_price raw = Raise e -> other_error e.
Proof.
  rewrite validate_stop_price_cases. destruct (is_none raw).
  - intros [= <-] t; discriminate.
  - destruct (py_float raw) as [q|[]]; try destruct (PyFloat.leb _ _);
      try discriminate; intros [= <-] t; discriminate.
Qed.

(** [validate_all] fails for a missing quantity only through its own
    check, on a MARKET or LIMIT order. *)
Lemma quantity_required_only_when_missing
    (symbol side order_type : string) (quantity price stop_price : pyval)
    (t : string) :
  validate_all symbol side order_type quantity price stop_price =
    Raise (ValidationError (quantity_required t)) ->
  quantity = PNone /\
  exists t0, validate_order_type order_type = Ok t0 /\
             (t0 = "MARKET" \/ t0 = "LIMIT").
Proof.
  unfold validate_all.
  destruct (validate_order_type order_type) as [t0|e] eqn:Ht; simpl.
  2:{ intros [= ->]. destruct (validate_order_type_error _ _ Ht t eq_refl). }
  destruct (validate_symbol symbol) as [sy|e] eqn:Hsy; simpl.
  2:{ intros [= ->]. destruct (validate_symbol_error _ _ Hsy t eq_refl). }
  destruct (validate_side side) as [sd|e] eqn:Hsd; simpl.
  2:{ intros [= ->]. destruct (validate_side_error _ _ Hsd t eq_refl). }
  destruct (validate_order_type_ok _ _ Ht) as [-> | [-> | ->]];
    cbn -[validate_quantity validate_price validate_stop_price].
  - destruct quantity; cbn -[validate_quantity];
      try (intros _; split; [reflexivity | eauto]; fail);
      match goal with
      | |- context [validate_quantity ?q] =>
          destruct (validate_quantity q) as [x|e] eqn:Hq; simpl;
          [discriminate
          | intros [= ->]; destruct (validate_quantity_error _ _ Hq t eq_refl)]
      end.
  - destruct quantity; cbn -[validate_quantity validate_price];
      try (intros _; split; [reflexivity | eauto]; fail);
      match goal with
      | |- context [validate_quantity ?q] =>
          destruct (validate_quantity q) as [x|e] eqn:Hq; simpl;
          [ destruct (validate_price price) as [y|e'] eqn:Hp; simpl;
            [discriminate
            | intros [= ->]; destruct (validate_price_error _ _ Hp t eq_refl)]
          | intros [= ->]; destruct (validate_quantity_error _ _ Hq t eq_refl)]
      end.
  - destruct (validate_stop_price stop_price) as [y|e'] eqn:Hp; simpl;
      [discriminate
      | intros [= ->]; destruct (validate_stop_price_error _ _ Hp t eq_refl)].
Qed.

End ValidatorFacts.

(* ===================================================================== *)
(** * The validators against the specification *)
(* ===================================================================== *)

Module ValidatorTheorems.
Import PyStr Py Validators ValidatorSpec ValidatorFacts.


(** C7, at the input where the code leaves the specification.  The text
    "nan" reads as a float, the test [p <= 0] is false for it, and both
    validators return the NaN as a valid price: neither validator succeeds
    exactly on the inputs that read as a number above zero. *)
Theorem validate_price_accepts_nan :
  validate_price (PStr "nan") = Ok PyFloat.nan /\
  validate_stop_price (PStr "nan") = Ok PyFloat.nan /\
  PyFloat.ltb PyFloat.zero PyFloat.nan = false /\
  ~ accepts_exactly_positive validate_price /\
  ~ accepts_exactly_positive validate_stop_price.
Proof.
  assert (Hp : validate_price (PStr "nan") = Ok PyFloat.nan) by reflexivity.
  assert (Hsp : validate_stop_price (PStr "nan") = Ok PyFloat.nan)
    by reflexivity.
  assert (Hf : py_float (PStr "nan") = Ok PyFloat.nan) by reflexivity.
  repeat split; try assumption.
  - intros H. specialize (H (PStr "nan")). rewrite Hp in H.
    destruct (proj1 H eq_refl) as [x [[Hx Hnan] _]].
    rewrite Hf in Hx. congruence.
  - intros H. specialize (H (PStr "nan")). rewrite Hsp in H.
    destruct (proj1 H eq_refl) as [x [[Hx Hnan] _]].
    rewrite Hf in Hx. congruence.
Qed.

(** Away from the NaN the validators of C7 do what the specification
    says: absent input, unreadable input and a value at or below zero fail
    with three different messages, and the rest succeeds. *)
Lemma validate_price_outcomes (raw : pyval) :
  (raw = PNone ->
   validate_price raw = Raise (ValidationError price_required)) /\
  (raw <> PNone -> py_float raw = Raise ValueError ->
   validate_price raw = Raise (ValidationError (price_not_a_number raw))) /\
  (forall p, raw <> PNone -> py_float raw = Ok p ->
   PyFloat.leb p PyFloat.zero = true ->
   validate_price raw = Raise (ValidationError (price_not_positive p))) /\
  (forall p, raw <> PNone -> py_float raw = Ok p ->
   PyFloat.ltb PyFloat.zero p = true -> validate_price raw = Ok p).
Proof.
  rewrite validate_price_cases.
  repeat split.
  - intros ->. reflexivity.
  - intros Hn E. rewrite E. destruct raw; try reflexivity. congruence.
  - intros p Hn E L. rewrite E, L. destruct raw; try reflexivity. congruence.
  - intros p Hn E L. rewrite E.
    replace (PyFloat.leb p PyFloat.zero) with false
      by (symmetry; apply not_leb_zero; auto).
    destruct raw; try reflexivity. congruence.
Qed.

Lemma validate_stop_price_outcomes (raw : pyval) :
  (raw = PNone ->
   validate_stop_price raw = Raise (ValidationError stop_price_required)) /\
  (raw <> PNone -> py_float raw = Raise ValueError ->
   validate_stop_price raw =
     Raise (ValidationError (stop_price_not_a_number raw))) /\
  (forall p, raw <> PNone -> py_float raw = Ok p ->
   PyFloat.leb p PyFloat.zero = true ->
   validate_stop_price raw =
     Raise (ValidationError (stop_price_not_positive p))) /\
  (forall p, raw <> PNone -> py_float raw = Ok p ->
   PyFloat.ltb PyFloat.zero p = true -> validate_stop_price raw = Ok p).
Proof.
  rewrite validate_stop_price_cases.
  repeat split.
  - intros ->. reflexivity.
  - intros Hn E. rewrite E. destruct raw; try reflexivity. congruence.
  - intros p Hn E L. rewrite E, L. destruct raw; try reflexivity. congruence.
  - intros p Hn E L. rewrite E.
    replace (PyFloat.leb p PyFloat.zero) with false
      by (symmetry; apply not_leb_zero; auto).
    destruct raw; try reflexivity. congruence.
Qed.

(** C10.  [validate_quantity] has no error of its own for absent input:
    [validate_quantity(None)] fails with the "not a valid number" message,
    and every message of [validate_quantity] is that one or the
    "greater than 0" one.  A missing quantity is reported as required by
    the check [validate_all] makes itself, for MARKET and LIMIT orders,
    and by nothing else. *)
Theorem quantity_required_by_validate_all :
  validate_quantity PNone =
    Raise (ValidationError "Quantity 'None' is not a valid number.") /\
  (forall raw msg,
     validate_quantity raw = Raise (ValidationError msg) ->
     msg = quantity_not_a_number raw \/
     exists q, msg = quantity_not_positive q) /\
  (forall symbol side order_type price stop_price t,
     validate_order_type order_type = Ok t ->
     t = "MARKET" \/ t = "LIMIT" ->
     is_ok (validate_symbol symbol) = true ->
     is_ok (validate_side side) = true ->
     validate_all symbol side order_type PNone price stop_price =
       Raise (ValidationError ("--qty is required for " ++ t ++ " orders."))) /\
  (forall symbol side order_type quantity price stop_price t,
     validate_all symbol side order_type quantity price stop_price =
       Raise (ValidationError ("--qty is required for " ++ t ++ " orders.")) ->
     quantity = PNone /\
     exists t0, validate_order_type order_type = Ok t0 /\
                (t0 = "MARKET" \/ t0 = "LIMIT")).
Proof.
  split; [reflexivity|]. split; [|split].
  - intros raw msg. rewrite validate_quantity_cases.
    destruct (py_float raw) as [q|[]]; try destruct (PyFloat.leb _ _);
      try discriminate; intros [= <-]; eauto.
  - intros symbol side order_type price stop_price t Ht Hmk Hsy Hsd.
    unfold validate_all. rewrite Ht.
    destruct (validate_symbol symbol); [|discriminate].
    destruct (validate_side side); [|discriminate].
    destruct Hmk as [-> | ->]; reflexivity.
  - intros. eapply quantity_required_only_when_missing; eassumption.
Qed.

Lemma quantity_required_by_validate_all_witness :
  validate_order_type "market" = Ok "MARKET" /\
  is_ok (validate_symbol "BTCUSDT") = true /\
  is_ok (validate_side "BUY") = true /\
  validate_all "BTCUSDT" "BUY" "market" PNone PNone PNone =
    Raise (ValidationError "--qty is required for MARKET orders.").
Proof.
  split; [reflexivity|]. split; [reflexivity|]. split; [reflexivity|].
  exact (proj1 (proj2 (proj2 quantity_required_by_validate_all))
           "BTCUSDT" "BUY" "market" PNone PNone "MARKET"
           eq_refl (or_introl eq_refl) eq_refl eq_refl).
Defined.

End ValidatorTheorems.

(* ===================================================================== *)
(** * The validators of text on all of Unicode *)
(* ===================================================================== *)

Module UnicodeFacts.
Import Unicode.
Local Open Scope list_scope.

Lemma assoc_in (c : Z) (table : list (Z * list Z)) (u : list Z) :
  assoc c table = Some u -> In (c, u) table.
Proof.
  induction table as [|[c' u'] table IH]; simpl; [discriminate|].
  destruct (c' =? c) eqn:E.
  - intros [= ->]. apply Z.eqb_eq in E. subst. now left.
  - intros H. right. now apply IH.
Qed.

(** No code point is mapped to the empty text. *)
Lemma upper_char_not_nil (c : Z) : upper_char c <> [].
Proof.
  unfold upper_char.
  destruct (assoc c UPPER) as [u|] eqn:E; [|discriminate].
  apply assoc_in in E.
  assert (H : forallb (fun e => negb (is_empty (snd e))) UPPER = true)
    by (vm_compute; reflexivity).
  rewrite forallb_forall in H. specialize (H _ E).
  destruct u; [discriminate H | discriminate].
Qed.

Lemma upper_nil (s : text) : upper s = [] <-> s = [].
Proof.
  split; [|intros ->; reflexivity].
  destruct s as [|c s]; [reflexivity|]. simpl.
  pose proof (upper_char_not_nil c).
  destruct (upper_char c); [congruence | discriminate].
Qed.

Lemma text_is_empty_true (s : text) : is_empty s = true <-> s = [].
Proof.
  destruct s; simpl; split; intros H; try reflexivity; discriminate H.
Qed.

Lemma text_is_empty_upper (s : text) : is_empty (upper s) = is_empty s.
Proof.
  destruct s as [|c s]; [reflexivity|]. simpl.
  pose proof (upper_char_not_nil c).
  destruct (upper_char c); [congruence | reflexivity].
Qed.

(** [validate_symbol] by cases on the stripped input. *)
Lemma text_validate_symbol_cases (s : text) :
  validate_symbol s =
    if is_empty (strip s) then
      Raise (ValidationError (of_string "Symbol cannot be empty."))
    else if isalnum (upper (strip s)) then Ok (upper (strip s))
    else
      Raise (ValidationError
        (of_string "Symbol '" ++ upper (strip s) ++
         of_string
           "' must contain only letters and numbers (e.g. BTCUSDT).")).
Proof.
  unfold validate_symbol. rewrite text_is_empty_upper.
  destruct (is_empty (strip s)); [reflexivity|].
  destruct (isalnum (upper (strip s))); reflexivity.
Qed.

(** ** Text below 128 *)

Lemma below_128 (c : Z) :
  0 <= c < 128 -> In c (map Z.of_nat (seq 0 128)).
Proof.
  intros H. rewrite in_map_iff. exists (Z.to_nat c).
  split; [lia|]. apply in_seq. lia.
Qed.

(** Below 128 the upper-case mapping gives one code point, again below
    128, which is alphanumeric exactly when the original is. *)
Lemma upper_char_below_128 (c : Z) :
  0 <= c < 128 ->
  exists c', upper_char c = [c'] /\ 0 <= c' < 128 /\
             isalnum_char c' = isalnum_char c.
Proof.
  intros H. apply below_128 in H.
  assert (E : forallb
                (fun c =>
                   match upper_char c with
                   | [c'] => (0 <=? c') && (c' <? 128) &&
                             Bool.eqb (isalnum_char c') (isalnum_char c)
                   | _ => false
                   end) (map Z.of_nat (seq 0 128)) = true)
    by (vm_compute; reflexivity).
  rewrite forallb_forall in E. specialize (E _ H).
  destruct (upper_char c) as [|c' [|]]; try discriminate E.
  exists c'. apply andb_prop in E. destruct E as [E1 E2].
  apply andb_prop in E1. destruct E1 as [E0 E1].
  apply Bool.eqb_prop in E2.
  split; [reflexivity|]. split; [lia | exact E2].
Qed.

Lemma is_ascii_cons (c : Z) (s : text) :
  is_ascii (c :: s) = true <-> 0 <= c < 128 /\ is_ascii s = true.
Proof.
  unfold is_ascii. simpl. rewrite andb_true_iff, andb_true_iff.
  rewrite Z.leb_le, Z.ltb_lt. tauto.
Qed.

Lemma lstrip_is_ascii (s : text) :
  is_ascii s = true -> is_ascii (lstrip s) = true.
Proof.
  induction s as [|c s IH]; [reflexivity|]. intros H. simpl.
  destruct (isspace c); [|exact H].
  apply IH. now apply is_ascii_cons in H.
Qed.

Lemma rstrip_is_ascii (s : text) :
  is_ascii s = true -> is_ascii (rstrip s) = true.
Proof.
  induction s as [|c s IH]; [reflexivity|]. intros H.
  apply is_ascii_cons in H. destruct H as [Hc Hs]. specialize (IH Hs).
  simpl. destruct (rstrip s) as [|d r].
  - destruct (isspace c); [reflexivity|].
    apply is_ascii_cons. now split.
  - apply is_ascii_cons. now split.
Qed.

Lemma strip_is_ascii (s : text) :
  is_ascii s = true -> is_ascii (strip s) = true.
Proof. intros H. now apply rstrip_is_ascii, lstrip_is_ascii. Qed.

Lemma forallb_upper_below_128 (s : text) :
  is_ascii s = true ->
  forallb isalnum_char (upper s) = forallb isalnum_char s.
Proof.
  induction s as [|c s IH]; [reflexivity|]. intros H.
  apply is_ascii_cons in H. destruct H as [Hc Hs].
  destruct (upper_char_below_128 c Hc) as [c' [Hu [_ Ha]]].
  simpl. rewrite Hu. simpl. now rewrite Ha, IH.
Qed.

(** On text below 128, upper-casing does not change whether the text is
    alphanumeric. *)
Lemma isalnum_upper_below_128 (s : text) :
  is_ascii s = true -> isalnum (upper s) = isalnum s.
Proof.
  intros H. pose proof (forallb_upper_below_128 s H) as E.
  unfold isalnum. destruct s as [|c s]; [reflexivity|].
  destruct (upper (c :: s)) eqn:Eu.
  - apply (proj1 (upper_nil _)) in Eu. discriminate Eu.
  - exact E.
Qed.

(** ** Agreement with the functions of [PyStr] *)

Lemma of_string_cons (c : ascii) (s : string) :
  of_string (String c s) = PyStr.ord c :: of_string s.
Proof. reflexivity. Qed.

Lemma of_string_app (a b : string) :
  of_string (a ++ b)%string = of_string a ++ of_string b.
Proof.
  induction a as [|c a IH]; [reflexivity|].
  simpl String.append. rewrite !of_string_cons, IH. reflexivity.
Qed.

(** One character below 128: the three tables agree with [PyStr]. *)
Lemma char_agrees (c : ascii) :
  PyStr.is_ascii_char c = true ->
  isspace (PyStr.ord c) = PyStr.isspace c /\
  upper_char (PyStr.ord c) = [PyStr.ord (PyStr.upper_char c)] /\
  isalnum_char (PyStr.ord c) = PyStr.isalnum_char c /\
  0 <= PyStr.ord c < 128.
Proof.
  destruct c as [b0 b1 b2 b3 b4 b5 b6 b7].
  destruct b7; [intros H; vm_compute in H; destruct b0, b1, b2, b3, b4, b5, b6; discriminate H|].
  intros _.
  destruct b0, b1, b2, b3, b4, b5, b6;
    repeat split; vm_compute; try reflexivity; discriminate.
Qed.

Lemma ord_eqb (a b : ascii) :
  (PyStr.ord a =? PyStr.ord b) = Ascii.eqb a b.
Proof.
  destruct (Ascii.eqb a b) eqn:E.
  - apply Ascii.eqb_eq in E. subst. apply Z.eqb_refl.
  - apply Z.eqb_neq. intros H. apply Ascii.eqb_neq in E. apply E.
    unfold PyStr.ord in H. apply N2Z.inj in H.
    rewrite <- (ascii_N_embedding a), <- (ascii_N_embedding b).
    now rewrite H.
Qed.

Lemma text_eqb_of_string (a b : string) :
  text_eqb (of_string a) (of_string b) = String.eqb a b.
Proof.
  revert b. induction a as [|c a IH]; intros [|d b]; try reflexivity.
  rewrite !of_string_cons. simpl. rewrite ord_eqb, IH. reflexivity.
Qed.

Lemma text_in_of_string (x : string) (S : list string) :
  text_in (of_string x) (map of_string S) = Validators.str_in x S.
Proof.
  unfold text_in, Validators.str_in.
  induction S as [|y S IH]; [reflexivity|].
  simpl. now rewrite text_eqb_of_string, IH.
Qed.

Lemma lstrip_of_string (s : string) :
  PyStr.is_ascii s = true ->
  lstrip (of_string s) = of_string (PyStr.lstrip_by PyStr.isspace s) /\
  PyStr.is_ascii (PyStr.lstrip_by PyStr.isspace s) = true.
Proof.
  induction s as [|c s IH]; [intros _; split; reflexivity|].
  intros H. pose proof H as H0.
  unfold PyStr.is_ascii in H. simpl in H.
  apply andb_prop in H. destruct H as [Hc Hs].
  rewrite of_string_cons. simpl.
  rewrite (proj1 (char_agrees c Hc)).
  destruct (PyStr.isspace c).
  - now apply IH.
  - split; [reflexivity | exact H0].
Qed.

Lemma rstrip_of_string (s : string) :
  PyStr.is_ascii s = true ->
  rstrip (of_string s) = of_string (PyStr.rstrip_by PyStr.isspace s) /\
  PyStr.is_ascii (PyStr.rstrip_by PyStr.isspace s) = true.
Proof.
  induction s as [|c s IH]; [intros _; split; reflexivity|].
  intros H. unfold PyStr.is_ascii in H. simpl in H.
  apply andb_prop in H. destruct H as [Hc Hs].
  destruct (IH Hs) as [E A].
  rewrite of_string_cons. simpl. rewrite E.
  rewrite (proj1 (char_agrees c Hc)).
  destruct (PyStr.rstrip_by PyStr.isspace s) as [|d r].
  - simpl. destruct (PyStr.isspace c); split; try reflexivity.
    unfold PyStr.is_ascii. simpl. now rewrite Hc.
  - rewrite of_string_cons. split; [reflexivity|].
    unfold PyStr.is_ascii. simpl. rewrite Hc. exact A.
Qed.

Lemma strip_of_string (s : string) :
  PyStr.is_ascii s = true ->
  strip (of_string s) = of_string (PyStr.strip s) /\
  PyStr.is_ascii (PyStr.strip s) = true.
Proof.
  intros H. unfold strip, PyStr.strip, PyStr.strip_by.
  destruct (lstrip_of_string s H) as [E A]. rewrite E.
  now apply rstrip_of_string.
Qed.

Lemma upper_of_string (s : string) :
  PyStr.is_ascii s = true ->
  upper (of_string s) = of_string (PyStr.upper s) /\
  PyStr.is_ascii (PyStr.upper s) = true.
Proof.
  induction s as [|c s IH]; [intros _; split; reflexivity|].
  intros H. unfold PyStr.is_ascii in H. simpl in H.
  apply andb_prop in H. destruct H as [Hc Hs].
  destruct (IH Hs) as [E A].
  destruct (char_agrees c Hc) as [_ [Hu _]].
  split.
  - rewrite of_string_cons. unfold upper. simpl flat_map.
    fold (upper (of_string s)). rewrite Hu, E. reflexivity.
  - unfold PyStr.is_ascii, PyStr.upper. simpl.
    fold (PyStr.upper s). fold (PyStr.is_ascii (PyStr.upper s)).
    rewrite A, andb_true_r.
    destruct c as [b0 b1 b2 b3 b4 b5 b6 b7].
    destruct b7; [vm_compute in Hc; destruct b0, b1, b2, b3, b4, b5, b6; discriminate Hc|].
    destruct b0, b1, b2, b3, b4, b5, b6; reflexivity.
Qed.

Lemma isalnum_of_string (s : string) :
  PyStr.is_ascii s = true ->
  isalnum (of_string s) = PyStr.isalnum s.
Proof.
  intros H.
  assert (E : forallb isalnum_char (of_string s) =
              PyStr.forallb_str PyStr.isalnum_char s).
  { induction s as [|c s IH]; [reflexivity|].
    unfold PyStr.is_ascii in H. simpl in H.
    apply andb_prop in H. destruct H as [Hc Hs].
    rewrite of_string_cons. simpl.
    destruct (char_agrees c Hc) as [_ [_ [Ha _]]].
    now rewrite Ha, IH. }
  destruct s as [|c s]; [reflexivity|]. exact E.
Qed.

(** The text a result of the ASCII validators stands for. *)
Lemma validate_symbol_of_string (s : string) :
  PyStr.is_ascii s = true ->
  match Validators.validate_symbol s with
  | Py.Ok r => validate_symbol (of_string s) = Ok (of_string r)
  | Py.Raise (Py.ValidationError msg) =>
      validate_symbol (of_string s) =
        Raise (ValidationError (of_string msg))
  | Py.Raise _ => False
  end.
Proof.
  intros H. unfold validate_symbol, Validators.validate_symbol.
  destruct (strip_of_string s H) as [Es As]. rewrite Es.
  destruct (upper_of_string _ As) as [Eu Au]. rewrite Eu.
  rewrite (isalnum_of_string _ Au).
  destruct (PyStr.upper (PyStr.strip s)) as [|c u] eqn:E;
    [reflexivity|].
  rewrite of_string_cons. cbn [is_empty PyStr.is_empty].
  destruct (PyStr.isalnum (String c u)); cbn [negb].
  - rewrite of_string_cons. reflexivity.
  - rewrite !of_string_app, of_string_cons. reflexivity.
Qed.

Lemma validate_side_of_string (s : string) :
  PyStr.is_ascii s = true ->
  match Validators.validate_side s with
  | Py.Ok r => validate_side (of_string s) = Ok (of_string r)
  | Py.Raise (Py.ValidationError msg) =>
      validate_side (of_string s) = Raise (ValidationError (of_string msg))
  | Py.Raise _ => False
  end.
Proof.
  intros H. unfold validate_side, Validators.validate_side.
  destruct (strip_of_string s H) as [Es As]. rewrite Es.
  destruct (upper_of_string _ As) as [Eu Au]. rewrite Eu.
  unfold VALID_SIDES. rewrite text_in_of_string.
  destruct (Validators.str_in _ _); cbn [negb]; [reflexivity|].
  unfold joined. rewrite !of_string_app. reflexivity.
Qed.

Lemma validate_order_type_of_string (s : string) :
  PyStr.is_ascii s = true ->
  match Validators.validate_order_type s with
  | Py.Ok r => validate_order_type (of_string s) = Ok (of_string r)
  | Py.Raise (Py.ValidationError msg) =>
      validate_order_type (of_string s) =
        Raise (ValidationError (of_string msg))
  | Py.Raise _ => False
  end.
Proof.
  intros H. unfold validate_order_type, Validators.validate_order_type.
  destruct (strip_of_string s H) as [Es As]. rewrite Es.
  destruct (upper_of_string _ As) as [Eu Au]. rewrite Eu.
  unfold VALID_ORDER_TYPES. rewrite text_in_of_string.
  destruct (Validators.str_in _ _); cbn [negb]; [reflexivity|].
  unfold joined. rewrite !of_string_app. reflexivity.
Qed.

(** Outside the ASCII repertoire the validators accept more than the
    texts that spell a side or an order type in ASCII: LATIN SMALL LETTER
    LONG S (U+017F) is upper-cased to S, LATIN SMALL LETTER DOTLESS I
    (U+0131) to I. *)
Lemma validate_side_long_s :
  validate_side (383 :: of_string "ell") = Ok (of_string "SELL") /\
  validate_order_type (of_string "l" ++ 305 :: of_string "m" ++
                       305 :: of_string "t") = Ok (of_string "LIMIT").
Proof. split; vm_compute; reflexivity. Qed.

End UnicodeFacts.

Module SymbolTheorems.
Import Unicode UnicodeFacts.
Local Open Scope list_scope.

(** C6, amended.  For every text [s], of any code points,
    [validate_symbol s] succeeds if and only if [s] stripped of
    surrounding whitespace is non-empty and its upper-cased form is
    alphanumeric; on success it returns the stripped input upper-cased;
    otherwise it fails with the error that names the empty input, or with
    the one that names the characters that are neither letters nor
    digits.  For a text whose code points are all below 128 the
    upper-cased form is alphanumeric exactly when the stripped input is,
    and the function is [Validators.validate_symbol]. *)
Theorem validate_symbol_upper_alnum (s : text) :
  (forall r,
     validate_symbol s = Ok r <->
     r = upper (strip s) /\ strip s <> [] /\
     isalnum (upper (strip s)) = true) /\
  (strip s = [] ->
   validate_symbol s =
     Raise (ValidationError (of_string "Symbol cannot be empty."))) /\
  (strip s <> [] -> isalnum (upper (strip s)) = false ->
   validate_symbol s =
     Raise (ValidationError
       (of_string "Symbol '" ++ upper (strip s) ++
        of_string
          "' must contain only letters and numbers (e.g. BTCUSDT)."))) /\
  (is_ascii s = true ->
   isalnum (upper (strip s)) = isalnum (strip s)) /\
  (forall a : string,
     s = of_string a -> PyStr.is_ascii a = true ->
     match Validators.validate_symbol a with
     | Py.Ok r => validate_symbol s = Ok (of_string r)
     | Py.Raise (Py.ValidationError msg) =>
         validate_symbol s = Raise (ValidationError (of_string msg))
     | Py.Raise _ => False
     end).
Proof.
  rewrite text_validate_symbol_cases.
  split; [|split; [|split; [|split]]].
  - intros r. destruct (is_empty (strip s)) eqn:E.
    + apply text_is_empty_true in E. split; [discriminate|].
      intros [_ [H _]]. congruence.
    + assert (Hne : strip s <> [])
        by (intros H; rewrite H in E; discriminate E).
      destruct (isalnum (upper (strip s))).
      * split; [intros [= <-]; auto | intros [-> _]; reflexivity].
      * split; [discriminate | intros [_ [_ H]]; discriminate H].
  - intros ->. reflexivity.
  - intros Hne Ha. rewrite Ha.
    destruct (strip s); [congruence | reflexivity].
  - intros H. apply isalnum_upper_below_128. now apply strip_is_ascii.
  - intros a -> Ha. rewrite <- text_validate_symbol_cases.
    now apply validate_symbol_of_string.
Qed.

Lemma validate_symbol_upper_alnum_witness :
  is_ascii (of_string " btcusdt ") = true /\
  isalnum (upper (strip (of_string " btcusdt "))) = true /\
  validate_symbol (of_string " btcusdt ") = Ok (of_string "BTCUSDT").
Proof.
  assert (Ha : is_ascii (of_string " btcusdt ") = true) by reflexivity.
  pose proof (validate_symbol_upper_alnum (of_string " btcusdt ")) as H.
  destruct H as [Hiff [_ [_ [Hascii _]]]].
  assert (Hal : isalnum (upper (strip (of_string " btcusdt "))) = true).
  { rewrite (Hascii Ha). vm_compute. reflexivity. }
  split; [exact Ha|]. split; [exact Hal|].
  apply Hiff. split; [vm_compute; reflexivity|].
  split; [vm_compute; discriminate | exact Hal].
Defined.

(** C6 as stated fails.  LATIN SMALL LETTER J WITH CARON (U+01F0) is a
    letter, so the stripped input is non-empty and alphanumeric; its
    upper-case form is J followed by COMBINING CARON (U+030C), which is
    not alphanumeric, and [validate_symbol] raises. *)
Lemma validate_symbol_as_stated_counterexample :
  ~ validate_symbol_as_stated.
Proof.
  intros H. destruct (H [496]) as [[_ Hacc] _].
  destruct Hacc as [r Hr]; [split; [discriminate | vm_compute; reflexivity]|].
  revert Hr. vm_compute. discriminate.
Qed.

(** The failure in the other direction.  COMBINING GREEK YPOGEGRAMMENI
    (U+0345) is not alphanumeric; its upper-case form is GREEK CAPITAL
    LETTER IOTA (U+0399), and [validate_symbol] accepts it. *)
Lemma validate_symbol_accepts_ypogegrammeni :
  isalnum (strip [837]) = false /\ validate_symbol [837] = Ok [921].
Proof. split; vm_compute; reflexivity. Qed.

End SymbolTheorems.

(* ===================================================================== *)
(** * Facts about dictionaries and the client *)
(* ===================================================================== *)

Module DictFacts.
Import Py.
Local Open Scope list_scope.

Section WithValues.
Context {V : Type}.
Implicit Types (d : dict V) (k : string) (v : V).

Lemma get_set_same k v d : get k (set k v d) = Some v.
Proof.
  induction d as [|[k' v'] d IH]; simpl.
  - now rewrite String.eqb_refl.
  - destruct (String.eqb k' k) eqn:E; simpl.
    + now rewrite String.eqb_refl.
    + now rewrite E.
Qed.

Lemma get_set_other k k' v d : k <> k' -> get k' (set k v d) = get k' d.
Proof.
  intros Hne. induction d as [|[k0 v0] d IH]; simpl.
  - destruct (String.eqb_spec k k'); congruence.
  - destruct (String.eqb_spec k0 k) as [->|Hk]; simpl.
    + destruct (String.eqb_spec k k'); congruence.
    + now rewrite IH.
Qed.

Lemma has_key_set_same k v d : has_key k (set k v d) = true.
Proof. unfold has_key. now rewrite get_set_same. Qed.

Lemma has_key_set_other k k' v d :
  k <> k' -> has_key k' (set k v d) = has_key k' d.
Proof. intros H. unfold has_key. now rewrite get_set_other. Qed.

(** A new key goes to the end. *)
Lemma set_absent k v d : has_key k d = false -> set k v d = d ++ [(k, v)].
Proof.
  unfold has_key. induction d as [|[k' v'] d IH]; simpl; [reflexivity|].
  destruct (String.eqb k' k); [discriminate|].
  intros H. now rewrite IH.
Qed.

(** An assignment keeps the keys that are there, in their order. *)
Lemma keys_set k v d : exists extra, keys (set k v d) = keys d ++ extra.
Proof.
  unfold keys. induction d as [|[k' v'] d [extra IH]]; simpl.
  - now exists [k].
  - destruct (String.eqb_spec k' k) as [->|Hk]; simpl.
    + exists []. now rewrite app_nil_r.
    + exists extra. now rewrite IH.
Qed.

End WithValues.
End DictFacts.

Module ClientFacts.
Import PyStr Py Env Client ClientSpec DictFacts.
Local Open Scope list_scope.

(** The timestamp [_timestamp] returns is computed from the next clock
    reading and the stored offset; taking it only advances the clock. *)
Lemma timestamp_run (self : BinanceClient) (w : World) :
  _timestamp self w =
    (int_add (now_ms w (ticks w)) (time_offset_ms self),
     with_ticks w (S (ticks w))).
Proof. reflexivity. Qed.

Lemma timestamp_of_int_offset (self : BinanceClient) (w : World) (off : Z) :
  time_offset_ms self = PInt off ->
  fst (_timestamp self w) = Ok (PInt (now_ms w (ticks w) + off)).
Proof. intros H. rewrite timestamp_run. simpl. now rewrite H. Qed.

Lemma store_same (h : ref -> dict pyval) (r : ref) (d : dict pyval) :
  store h r d r = d.
Proof. unfold store. now rewrite Nat.eqb_refl. Qed.

Lemma store_other (h : ref -> dict pyval) (r r' : ref) (d : dict pyval) :
  r' <> r -> store h r d r' = h r'.
Proof. intros H. unfold store. now rewrite (proj2 (Nat.eqb_neq r' r) H). Qed.

(** When the timestamp cannot be computed [_post] stops there: nothing is
    sent and no dictionary is touched. *)
Lemma post_without_timestamp
    (self : BinanceClient) (endpoint : string) (params : ref) (w : World)
    (e : exn) :
  fst (_timestamp self w) = Raise e ->
  _post self endpoint params w = (Raise e, with_ticks w (S (ticks w))).
Proof.
  rewrite timestamp_run. simpl. intros H.
  unfold _post, mbind. rewrite timestamp_run. now rewrite H.
Qed.

(** The effect of [_post] once the timestamp is there. *)
Lemma post_effect
    (self : BinanceClient) (endpoint : string) (params : ref) (w : World)
    (ts : pyval) :
  fst (_timestamp self w) = Ok ts ->
  let form := signed_params self ts (heap w params) in
  let out := _post self endpoint params w in
  fst out = post_result (network w (List.length (sent w))) /\
  sent (snd out) = sent w ++ [post_request self endpoint form] /\
  heap (snd out) params = form /\
  (forall r, r <> params -> heap (snd out) r = heap w r) /\
  next_ref (snd out) = next_ref w.
Proof.
  rewrite timestamp_run. simpl. intros Hts.
  unfold _post, mbind. rewrite timestamp_run, Hts.
  unfold setitem, read, emit, try_except, session_post, http, raise, lift,
    ret, response_json, json_get, signed_params, post_request.
  cbn [heap sent network log ticks next_ref with_heap with_log with_sent
       with_ticks now_ms environ fst snd].
  rewrite !store_same.
  destruct (network w (Datatypes.length (sent w))) as [r|e].
  - cbn [heap sent network log ticks next_ref with_heap with_log with_sent
         with_ticks now_ms environ fst snd is_ConnectionError is_Timeout
         post_result].
    destruct (json_body r) as [body|];
      cbn [heap sent network log ticks next_ref with_heap with_log with_sent
           with_ticks now_ms environ fst snd].
    + destruct (ok r); cbn [negb];
        [| destruct body];
        cbn [heap sent network log ticks next_ref with_heap with_log
             with_sent with_ticks now_ms environ fst snd];
        (repeat split; [now rewrite store_same
                       | intros r' Hr'; now rewrite !store_other by assumption]).
    + repeat split; [now rewrite store_same
                    | intros r' Hr'; now rewrite !store_other by assumption].
  - destruct e;
      cbn [heap sent network log ticks next_ref with_heap with_log with_sent
           with_ticks now_ms environ fst snd is_ConnectionError is_Timeout
           post_result];
      (repeat split; [now rewrite store_same
                     | intros r' Hr'; now rewrite !store_other by assumption]).
Qed.

End ClientFacts.

(* ===================================================================== *)
(** * The client against the specification *)
(* ===================================================================== *)

Module ClientTheorems.
Import PyStr Py Env Client ClientSpec DictFacts ClientFacts.
Local Open Scope list_scope.

(** The form of a caller that heeds the docstring of [post_order]: the
    caller's items, then the timestamp, then the signature of all that. *)
Lemma signed_params_unsigned
    (self : BinanceClient) (ts : pyval) (d : dict pyval) :
  unsigned d ->
  signed_params self ts d =
    d ++ [("timestamp", ts);
          ("signature", PStr (signature_of self (d ++ [("timestamp", ts)])))].
Proof.
  intros [Hts Hsig]. unfold signed_params.
  rewrite (set_absent "timestamp" ts d Hts).
  rewrite set_absent.
  - rewrite <- app_assoc. reflexivity.
  - rewrite <- (set_absent "timestamp" ts d Hts).
    rewrite has_key_set_other; [assumption | discriminate].
Qed.

(** C1, amended.  For every call to [post_order] whose dictionary holds
    neither a [timestamp] nor a [signature] key, as the docstring asks,
    and for which the timestamp [ts] is obtained, the client issues one
    POST whose form is the caller's items followed by [timestamp] and then
    [signature], in that order, where the signature is the HMAC-SHA256,
    keyed by the secret, of the URL-encoded items and timestamp, the
    signature itself left out. *)
Theorem post_order_signs_last
    (self : BinanceClient) (params : ref) (w : World) (ts : pyval) :
  fst (_timestamp self w) = Ok ts ->
  unsigned (heap w params) ->
  let form :=
    heap w params ++
    [("timestamp", ts);
     ("signature",
      PStr (signature_of self (heap w params ++ [("timestamp", ts)])))] in
  sent (snd (post_order self params w)) =
    sent w ++ [post_request self ORDER_ENDPOINT form] /\
  posts_signed_last self params w.
Proof.
  intros Hts Hun form.
  destruct (post_effect self ORDER_ENDPOINT params w ts Hts)
    as [_ [Hsent _]].
  rewrite (signed_params_unsigned self ts _ Hun) in Hsent.
  split; [exact Hsent|].
  exists (post_request self ORDER_ENDPOINT form). split; [exact Hsent|].
  exists (heap w params), ts. reflexivity.
Qed.

Lemma post_order_signs_last_witness :
  let w := Samples.world (Samples.always Samples.accepted)
             [("symbol", PStr "BTCUSDT"); ("side", PStr "BUY")] in
  fst (_timestamp Samples.client w) = Ok (PInt 1700000000000) /\
  unsigned (heap w 0%nat) /\
  posts_signed_last Samples.client 0%nat w.
Proof.
  intros w. split; [reflexivity|]. split; [split; reflexivity|].
  exact (proj2 (post_order_signs_last Samples.client 0%nat w
                  (PInt 1700000000000) eq_refl (conj eq_refl eq_refl))).
Defined.

(** C1 as stated fails: a caller that passes a [signature] key gets a form
    in which the new signature takes the place of the old one, ahead of
    the timestamp. *)
Lemma post_order_signs_last_counterexample :
  ~ posts_signed_last Samples.client 0%nat
      (Samples.world (Samples.always Samples.accepted)
         [("signature", PStr "stale"); ("symbol", PStr "BTCUSDT")]).
Proof.
  intros [rq [Hsent [fields [ts Hform]]]].
  destruct (post_effect Samples.client ORDER_ENDPOINT 0%nat
              (Samples.world (Samples.always Samples.accepted)
                 [("signature", PStr "stale"); ("symbol", PStr "BTCUSDT")])
              (PInt 1700000000000) eq_refl) as [_ [Hsent' _]].
  unfold post_order in Hsent. rewrite Hsent' in Hsent.
  apply app_inj_tail in Hsent. destruct Hsent as [_ <-].
  unfold post_request, signed_params in Hform. cbn [data] in Hform.
  remember (signature_of Samples.client (fields ++ [("timestamp", ts)]))
    as sg eqn:Hsg. clear Hsg.
  revert Hform.
  generalize (PStr (_sign Samples.client
                      (set "timestamp" (PInt 1700000000000)
                         (heap (Samples.world (Samples.always Samples.accepted)
                                  [("signature", PStr "stale");
                                   ("symbol", PStr "BTCUSDT")]) 0%nat)))).
  intros v Hform. clear Hsent'. cbn in Hform.
  destruct fields as [|f1 [|f2 [|f3 fields]]]; cbn in Hform;
    try discriminate Hform.
  injection Hform as _ _ _ Hrest. destruct fields; discriminate Hrest.
Qed.

(** C9, amended.  [post_order] changes the caller's dictionary in place:
    after any call that gets as far as the timestamp [ts], whatever the
    network then answers, the dictionary object the caller passed holds
    the keys [timestamp] and [signature]; every other key keeps its value,
    the keys that were there keep their order, and no other dictionary
    changes.  When the caller supplied neither of the two keys, every
    item the caller supplied is unchanged and the two are appended. *)
Theorem post_order_extends_params
    (self : BinanceClient) (params : ref) (w : World) (ts : pyval) :
  fst (_timestamp self w) = Ok ts ->
  let before := heap w params in
  let after := heap (snd (post_order self params w)) params in
  get "timestamp" after = Some ts /\
  get "signature" after =
    Some (PStr (_sign self (set "timestamp" ts before))) /\
  (forall k, k <> "timestamp" -> k <> "signature" ->
             get k after = get k before) /\
  (exists extra, keys after = keys before ++ extra) /\
  (forall r, r <> params ->
             heap (snd (post_order self params w)) r = heap w r) /\
  (unsigned before ->
   extends_params self params w /\
   after = before ++
     [("timestamp", ts);
      ("signature",
       PStr (signature_of self (before ++ [("timestamp", ts)])))]).
Proof.
  intros Hts before after.
  destruct (post_effect self ORDER_ENDPOINT params w ts Hts)
    as [_ [_ [Hheap [Hframe _]]]].
  fold (post_order self params w) in Hheap, Hframe.
  assert (Hafter : after = signed_params self ts before) by exact Hheap.
  assert (Hother : forall k, k <> "timestamp" -> k <> "signature" ->
                             get k after = get k before).
  { intros k Hk1 Hk2. rewrite Hafter. unfold signed_params.
    rewrite !get_set_other; congruence. }
  repeat split.
  - rewrite Hafter. unfold signed_params.
    rewrite get_set_other by discriminate. apply get_set_same.
  - rewrite Hafter. unfold signed_params. apply get_set_same.
  - exact Hother.
  - rewrite Hafter. unfold signed_params.
    destruct (keys_set "timestamp" ts before) as [e1 H1].
    destruct (keys_set "signature"
                (PStr (_sign self (set "timestamp" ts before)))
                (set "timestamp" ts before)) as [e2 H2].
    exists (e1 ++ e2). rewrite H2, H1. now rewrite app_assoc.
  - exact Hframe.
  - fold after. unfold has_key. rewrite Hafter. unfold signed_params.
    rewrite get_set_other by discriminate. now rewrite get_set_same.
  - fold after. unfold has_key. rewrite Hafter. unfold signed_params.
    now rewrite get_set_same.
  - fold before after. intros k v Hk.
    destruct H as [Hnts Hnsig]. unfold has_key in Hnts, Hnsig.
    rewrite Hother; [assumption | |]; intros ->; fold before in Hnts, Hnsig;
      rewrite Hk in *; discriminate.
  - rewrite Hafter. now apply signed_params_unsigned.
Qed.

Lemma post_order_extends_params_witness :
  let w := Samples.world (Samples.always Samples.bad_gateway)
             [("symbol", PStr "BTCUSDT"); ("side", PStr "BUY")] in
  fst (_timestamp Samples.client w) = Ok (PInt 1700000000000) /\
  unsigned (heap w 0%nat) /\
  extends_params Samples.client 0%nat w.
Proof.
  intros w. split; [reflexivity|]. split; [split; reflexivity|].
  exact (proj1 (proj2 (proj2 (proj2 (proj2 (proj2
           (post_order_extends_params Samples.client 0%nat w
              (PInt 1700000000000) eq_refl)))))
           (conj eq_refl eq_refl))).
Defined.

(** C9 as stated fails: a [timestamp] the caller supplied is overwritten. *)
Lemma post_order_extends_params_counterexample :
  ~ extends_params Samples.client 0%nat
      (Samples.world (Samples.always Samples.accepted)
         [("timestamp", PInt 5); ("symbol", PStr "BTCUSDT")]).
Proof.
  intros [_ [_ H]].
  specialize (H "timestamp" (PInt 5) eq_refl).
  vm_compute in H. discriminate H.
Qed.

(** What [post_order] returns once the request is out. *)
Lemma post_order_outcome
    (self : BinanceClient) (params : ref) (w : World) (ts : pyval) :
  fst (_timestamp self w) = Ok ts ->
  fst (post_order self params w) =
    post_result (network w (List.length (sent w))).
Proof.
  intros Hts. exact (proj1 (post_effect self ORDER_ENDPOINT params w ts Hts)).
Qed.

(** A 4xx or 5xx answer whose body is a JSON object becomes the promised
    [BinanceAPIError], with -1 and "Unknown error" for absent fields. *)
Lemma api_error_of_json_object (r : Response) (fields : dict json) :
  ok r = false -> json_body r = Some (JObj fields) ->
  post_result (Responds r) = Raise (promised_api_error r).
Proof.
  intros Hok Hbody. unfold post_result, promised_api_error.
  now rewrite Hbody, Hok.
Qed.

(** The scenario of the specification: code -2010 with its message. *)
Lemma insufficient_balance :
  let r := {| status_code := 400;
              json_body := Some (JObj [("code", JInt (-2010));
                                       ("msg", JStr "Insufficient balance")]) |} in
  fst (post_order Samples.client 0%nat
         (Samples.world (Samples.always r) [("symbol", PStr "BTCUSDT")])) =
  Raise (BinanceAPIError 400 (JInt (-2010)) (JStr "Insufficient balance")).
Proof. vm_compute. reflexivity. Qed.

(** C3, at the input where the code leaves the specification.  A 502
    answer whose body is not JSON is a non-2xx response, yet [post_order]
    does not fail with the [BinanceAPIError] carrying 502, -1 and the
    generic message: [response.json()] is called before the status is
    looked at and its [JSONDecodeError] goes to the caller. *)
Theorem post_order_bad_gateway :
  let w := Samples.world (Samples.always Samples.bad_gateway)
             [("symbol", PStr "BTCUSDT")] in
  non_2xx Samples.bad_gateway /\
  fst (post_order Samples.client 0%nat w) = Raise JSONDecodeError /\
  promised_api_error Samples.bad_gateway =
    BinanceAPIError 502 (JInt (-1)) (JStr "Unknown error") /\
  fst (post_order Samples.client 0%nat w) <>
    Raise (promised_api_error Samples.bad_gateway).
Proof.
  intros w. split; [right; cbn; lia|].
  assert (H : fst (post_order Samples.client 0%nat w) = Raise JSONDecodeError)
    by (vm_compute; reflexivity).
  split; [exact H|]. split; [reflexivity|].
  rewrite H. discriminate.
Qed.

End ClientTheorems.

Module InitTheorems.
Import PyStr Py Env Client ClientSpec ValidatorFacts ExtraSpec InitSpec.
Local Open Scope list_scope.

(** What [get_server_time] returns, by cases on the answer of the network:
    the [serverTime] field of a JSON object, 0 when the field is absent,
    and an exception for a network failure, a body that is not JSON, or
    JSON that is not an object. *)
Lemma get_server_time_outcome (self : BinanceClient) (w : World) :
  fst (get_server_time self w) =
    match network w (List.length (sent w)) with
    | Fails e => Raise e
    | Responds r =>
        match json_body r with
        | None => Raise JSONDecodeError
        | Some (JObj fields) => Ok (get_default "serverTime" (JInt 0) fields)
        | Some _ => Raise AttributeError
        end
    end.
Proof.
  unfold get_server_time, mbind, session_get, http, lift, response_json,
    json_get.
  destruct (network w (Datatypes.length (sent w))) as [r|e]; [|reflexivity].
  destruct (json_body r) as [[]|]; reflexivity.
Qed.

(** [_sync_time] never raises, and what it stores. *)
Lemma sync_time_outcome (self : BinanceClient) (w : World) :
  let t0 := now_ms w (ticks w) in
  let t1 := now_ms w (S (ticks w)) in
  let mid := (t0 + t1) / 2 in
  let warning :=
    (WARNING, "Could not sync server time: %s — using local time") in
  exists w',
    _sync_time self w =
      (Ok (with_offset self
             match fst (get_server_time self (snd (time_ms w))) with
             | Ok server_time =>
                 match sub_int server_time mid with
                 | Ok off => off
                 | Raise _ => PInt 0
                 end
             | Raise _ => PInt 0
             end), w') /\
    match fst (get_server_time self (snd (time_ms w))) with
    | Ok server_time =>
        match sub_int server_time mid with
        | Ok _ => log w' = log w ++ [(DEBUG, "Time offset synced: %d ms")]
        | Raise _ => log w' = log w ++ [warning]
        end
    | Raise _ => log w' = log w ++ [warning]
    end.
Proof.
  intros t0 t1 mid warning.
  change (snd (time_ms w)) with (with_ticks w (S (ticks w))).
  unfold _sync_time, try_except, mbind.
  unfold time_ms at 1. cbn [fst snd].
  destruct (get_server_time self (with_ticks w (S (ticks w))))
    as [[server_time|e] w1] eqn:Hst.
  - assert (Hw1 : ticks w1 = S (ticks w) /\ now_ms w1 = now_ms w /\
                  log w1 = log w).
    { revert Hst.
      unfold get_server_time, mbind, session_get, http, lift, response_json,
        json_get.
      cbn [network sent with_ticks].
      destruct (network w (Datatypes.length (sent w))) as [r|e];
        [|discriminate].
      destruct (json_body r) as [[]|]; try discriminate.
      intros [= _ <-]. repeat split. }
    destruct Hw1 as [Htk [Hnow Hlog]].
    unfold time_ms at 1. cbn [fst snd]. unfold lift.
    rewrite Hnow, Htk. fold t0 t1 mid.
    destruct (sub_int server_time mid) as [off|e];
      cbn [is_Exception emit ret fst snd log with_log with_ticks];
      eexists; (split; [reflexivity|]); cbn [log with_log with_ticks];
      now rewrite Hlog.
  - assert (Hlog : log w1 = log w).
    { revert Hst.
      unfold get_server_time, mbind, session_get, http, lift, response_json,
        json_get.
      cbn [network sent with_ticks].
      destruct (network w (Datatypes.length (sent w))) as [r|e'].
      - destruct (json_body r) as [[]|]; try discriminate;
          intros [= _ <-]; reflexivity.
      - intros [= _ <-]. reflexivity. }
    cbn [is_Exception emit ret fst snd log with_log].
    eexists; (split; [reflexivity|]). cbn [log with_log]. now rewrite Hlog.
Qed.




(** With the server time an integer, the offset is that time minus the
    midpoint of the two readings. *)
Lemma init_offset_example :
  match
    fst (init (Samples.world
                 (Samples.always (Samples.server_time 1700000000500)) []))
  with
  | Ok self => time_offset_ms self = PInt 500
  | Raise _ => False
  end.
Proof. vm_compute. reflexivity. Qed.

End InitTheorems.

(* ===================================================================== *)
(** * Signing *)
(* ===================================================================== *)

Module SigningFacts.
Import PyStr Py UrlEncode UrlDecode Env Client ClientSpec.

Lemma forallb_str_app (p : ascii -> bool) (s t : string) :
  forallb_str p (s ++ t) = forallb_str p s && forallb_str p t.
Proof.
  induction s as [|c s IH]; simpl; [reflexivity|].
  now rewrite IH, andb_assoc.
Qed.

(** ** [quote_plus] and back *)

Lemma quote_plus_cons (c : ascii) (s : string) :
  quote_plus (String c s) = quote_char c ++ quote_plus s.
Proof.
  unfold quote_char. simpl.
  destruct (unreserved c); [reflexivity|].
  destruct (ord c =? 32); reflexivity.
Qed.

Lemma unquote_quote_char (c : ascii) (rest : string) :
  unquote_plus (quote_char c ++ rest) = String c (unquote_plus rest).
Proof. destruct c as [[] [] [] [] [] [] [] []]; reflexivity. Qed.

Lemma unquote_quote (s : string) : unquote_plus (quote_plus s) = s.
Proof.
  induction s as [|c s IH]; [reflexivity|].
  rewrite quote_plus_cons, unquote_quote_char. now rewrite IH.
Qed.

Lemma quote_char_free (c : ascii) :
  free_of 38 (quote_char c) = true /\ free_of 61 (quote_char c) = true.
Proof. destruct c as [[] [] [] [] [] [] [] []]; split; reflexivity. Qed.

Lemma quote_plus_free (s : string) :
  free_of 38 (quote_plus s) = true /\ free_of 61 (quote_plus s) = true.
Proof.
  induction s as [|c s [IH1 IH2]]; [split; reflexivity|].
  rewrite quote_plus_cons. unfold free_of in *.
  rewrite !forallb_str_app, IH1, IH2.
  destruct (quote_char_free c) as [H1 H2]. unfold free_of in H1, H2.
  now rewrite H1, H2.
Qed.

(** ** Cutting and splitting text that was joined *)

Lemma cut_app (sep : Z) (a b : string) :
  free_of sep a = true ->
  cut sep (a ++ String (chr sep) b) =
    if ord (chr sep) =? sep then (a, b) else cut sep (a ++ String (chr sep) b).
Proof.
  intros Ha. destruct (ord (chr sep) =? sep) eqn:E; [|reflexivity].
  induction a as [|c a IH]; simpl.
  - now rewrite E.
  - simpl in Ha. apply andb_true_iff in Ha. destruct Ha as [Hc Ha].
    apply negb_true_iff in Hc. rewrite Hc, (IH Ha). reflexivity.
Qed.

Lemma split_on_free (sep : Z) (a : string) :
  free_of sep a = true -> split_on sep a = [a].
Proof.
  induction a as [|c a IH]; simpl; [reflexivity|].
  intros Ha. apply andb_true_iff in Ha. destruct Ha as [Hc Ha].
  apply negb_true_iff in Hc. now rewrite Hc, (IH Ha).
Qed.

Lemma split_on_app (sep : Z) (a b : string) :
  free_of sep a = true -> ord (chr sep) = sep ->
  split_on sep (a ++ String (chr sep) b) = a :: split_on sep b.
Proof.
  intros Ha E. induction a as [|c a IH]; simpl.
  - now rewrite E, Z.eqb_refl.
  - simpl in Ha. apply andb_true_iff in Ha. destruct Ha as [Hc Ha].
    apply negb_true_iff in Hc. now rewrite Hc, (IH Ha).
Qed.

(** ** [urlencode] and back *)

Lemma encode_pair_free (kv : string * pyval) :
  free_of 38 (encode_pair kv) = true.
Proof.
  unfold encode_pair, free_of.
  rewrite !forallb_str_app.
  destruct (quote_plus_free (fst kv)) as [H1 _].
  destruct (quote_plus_free (str (snd kv))) as [H2 _].
  unfold free_of in H1, H2. now rewrite H1, H2.
Qed.

Lemma decode_encode_pair (kv : string * pyval) :
  decode_pair (encode_pair kv) = rendered kv.
Proof.
  unfold decode_pair, encode_pair, rendered.
  change ("=" ++ quote_plus (str (snd kv)))
    with (String (chr 61) (quote_plus (str (snd kv)))).
  rewrite cut_app by apply quote_plus_free.
  change (ord (chr 61) =? 61) with true. cbv iota beta.
  now rewrite !unquote_quote.
Qed.

Lemma encode_pair_not_empty (kv : string * pyval) :
  is_empty (encode_pair kv) = false.
Proof.
  unfold encode_pair. destruct (quote_plus (fst kv)); reflexivity.
Qed.

Lemma is_empty_app_false (s t : string) :
  is_empty s = false -> is_empty (s ++ t) = false.
Proof. destruct s; [discriminate | reflexivity]. Qed.

Lemma split_join (l : list (string * pyval)) :
  l <> [] ->
  split_on 38 (join "&" (map encode_pair l)) = map encode_pair l.
Proof.
  induction l as [|kv l IH]; [congruence|].
  intros _. destruct l as [|kv' l].
  - simpl. apply split_on_free, encode_pair_free.
  - change (join "&" (map encode_pair (kv :: kv' :: l)))
      with (encode_pair kv ++ String (chr 38)
              (join "&" (map encode_pair (kv' :: l)))).
    rewrite split_on_app; [|apply encode_pair_free | reflexivity].
    rewrite IH by discriminate. reflexivity.
Qed.

Lemma join_not_empty (l : list (string * pyval)) :
  l <> [] -> is_empty (join "&" (map encode_pair l)) = false.
Proof.
  destruct l as [|kv [|kv' l]]; [congruence | |]; intros _.
  - apply encode_pair_not_empty.
  - change (join "&" (map encode_pair (kv :: kv' :: l)))
      with (encode_pair kv ++ "&" ++ join "&" (map encode_pair (kv' :: l))).
    apply is_empty_app_false, encode_pair_not_empty.
Qed.

(** Reading back what [urlencode] wrote gives the keys and the texts of
    the values. *)
Lemma parse_urlencode (params : dict pyval) :
  parse_qsl (urlencode params) = map rendered params.
Proof.
  unfold parse_qsl, urlencode.
  destruct params as [|kv l]; [reflexivity|].
  rewrite join_not_empty by discriminate.
  rewrite split_join by discriminate.
  rewrite map_map. apply map_ext. intros a. apply decode_encode_pair.
Qed.

(** [urlencode] sees a parameter only through its key and [str(value)]. *)
Lemma urlencode_rendered (params params' : dict pyval) :
  map rendered params = map rendered params' ->
  urlencode params = urlencode params'.
Proof.
  intros H. unfold urlencode. f_equal.
  assert (E : forall l, map encode_pair l =
                        map (fun r => quote_plus (fst r) ++ "=" ++ quote_plus (snd r))
                            (map rendered l)).
  { intros l. rewrite map_map. reflexivity. }
  now rewrite !E, H.
Qed.

Lemma urlencode_iff (params params' : dict pyval) :
  urlencode params = urlencode params' <->
  map rendered params = map rendered params'.
Proof.
  split.
  - intros H. rewrite <- !parse_urlencode. now rewrite H.
  - apply urlencode_rendered.
Qed.

Lemma sign_rendered (self : BinanceClient) (params params' : dict pyval) :
  map rendered params = map rendered params' ->
  _sign self params = _sign self params'.
Proof.
  intros H. unfold _sign. now rewrite (urlencode_rendered _ _ H).
Qed.

(** ** The shape of a signature *)

Lemma hex_length (bs : Sha256.bytes) :
  String.length (Sha256.hex bs) = (2 * List.length bs)%nat.
Proof.
  induction bs as [|b bs IH]; [reflexivity|].
  simpl. rewrite IH. lia.
Qed.

Lemma hex_lower (bs : Sha256.bytes) :
  forallb_str is_lower_hex (Sha256.hex bs) = true.
Proof.
  induction bs as [|b bs IH]; [reflexivity|].
  simpl. rewrite IH.
  destruct b; reflexivity.
Qed.

Lemma sha256_length (msg : Sha256.bytes) :
  List.length (Sha256.sha256 msg) = 32%nat.
Proof. reflexivity. Qed.

Lemma sign_shape (self : BinanceClient) (params : dict pyval) :
  String.length (_sign self params) = 64%nat /\
  forallb_str is_lower_hex (_sign self params) = true.
Proof.
  unfold _sign, Sha256.hmac_sha256_hex, Sha256.hmac_sha256.
  split; [|apply hex_lower].
  rewrite hex_length, sha256_length. reflexivity.
Qed.

End SigningFacts.

Module SigningTheorems.
Import PyStr Py UrlEncode UrlDecode Env Client ClientSpec SigningFacts.

(** C2, amended.  Signing is deterministic: the same parameters in the
    same order with the same secret give the same signature, which is 64
    lower-case hexadecimal digits, the HMAC-SHA256 of the URL-encoded
    query string keyed by the secret.  The signature depends on the
    parameters only through that query string, and the query string
    changes exactly when a key or the text [str(value)] of a value
    changes: parameters with the same keys and texts, such as the integer
    1 and the string "1", get the same signature.  That a different query
    string or a different secret gives a different signature is not
    claimed. *)
Theorem signing_follows_rendered_text :
  signing_repeatable /\
  (forall self params,
     _sign self params = signature_of self params /\
     String.length (_sign self params) = 64%nat /\
     forallb_str is_lower_hex (_sign self params) = true) /\
  (forall self params params',
     map rendered params = map rendered params' ->
     _sign self params = _sign self params') /\
  (forall params params',
     urlencode params = urlencode params' <->
     map rendered params = map rendered params').
Proof.
  split; [|split; [|split]].
  - intros self self' params params' Hs Hp. unfold _sign.
    now rewrite Hs, Hp.
  - intros self params. split; [reflexivity | apply sign_shape].
  - intros self params params'. apply sign_rendered.
  - apply urlencode_iff.
Qed.

Lemma signing_follows_rendered_text_witness :
  map rendered [("quantity", PInt 1)] = map rendered [("quantity", PStr "1")] /\
  _sign Samples.client [("quantity", PInt 1)] =
  _sign Samples.client [("quantity", PStr "1")].
Proof.
  split; [reflexivity|].
  exact (proj1 (proj2 (proj2 signing_follows_rendered_text))
           Samples.client [("quantity", PInt 1)] [("quantity", PStr "1")]
           eq_refl).
Defined.

(** C2 as stated fails: replacing the integer 1 by the string "1" changes
    the value of a parameter and leaves the signature as it was. *)
Lemma signing_as_stated_counterexample : ~ signing_as_stated.
Proof.
  intros [_ [H _]].
  apply (H Samples.client [] "quantity" (PInt 1) (PStr "1") []).
  - discriminate.
  - apply sign_rendered. reflexivity.
Qed.

End SigningTheorems.

(* ===================================================================== *)
(** * Order dispatch *)
(* ===================================================================== *)

Module OrdersFacts.
Import PyStr Py Env Client Orders ClientSpec DictFacts ClientFacts.
Local Open Scope list_scope.

(** After [post_order], [submit] logs and prints; it sends nothing. *)
Lemma submit_sent
    (client : BinanceClient) (params : ref) (placing failed : string)
    (w : World) :
  sent (snd (submit client params placing failed w)) =
  sent (snd (post_order client params (snd (emit INFO placing w)))).
Proof.
  unfold submit, mbind, try_except. cbn [emit fst snd].
  destruct (post_order client params (with_log w (log w ++ [(INFO, placing)])))
    as [[response|e] w2]; cbn [fst snd].
  - unfold _print_response_summary, _log_and_print_success, mbind, lift,
      json_get, emit, ret.
    destruct response; reflexivity.
  - destruct (is_BinanceAPIError e); reflexivity.
Qed.

(** The form of a take-profit order once signed. *)
Lemma take_profit_form_keys
    (client : BinanceClient) (symbol side : string) (stop_price ts : pyval) :
  keys (signed_params client ts (take_profit_params symbol side stop_price)) =
    ["symbol"; "side"; "type"; "stopPrice"; "closePosition";
     "timestamp"; "signature"].
Proof.
  unfold signed_params.
  generalize (PStr (_sign client
                      (set "timestamp" ts
                         (take_profit_params symbol side stop_price)))).
  intros v. reflexivity.
Qed.

(** The requests a take-profit order issues: none when the timestamp
    cannot be computed, else one POST of the signed form. *)
Lemma take_profit_requests
    (client : BinanceClient) (symbol side : string) (stop_price : pyval)
    (w : World) :
  let w' :=
    snd (place_take_profit_market_order client symbol side stop_price w) in
  match int_add (now_ms w (ticks w)) (time_offset_ms client) with
  | Ok ts =>
      sent w' = sent w ++
        [post_request client ORDER_ENDPOINT
           (signed_params client ts
              (take_profit_params symbol side stop_price))]
  | Raise _ => sent w' = sent w
  end.
Proof.
  unfold place_take_profit_market_order, mbind. cbn [alloc fst snd].
  rewrite submit_sent. cbn [emit fst snd].
  set (w2 := with_log _ _).
  assert (Hts : fst (_timestamp client w2) =
                int_add (now_ms w (ticks w)) (time_offset_ms client))
    by reflexivity.
  destruct (int_add (now_ms w (ticks w)) (time_offset_ms client)) as [ts|e].
  - destruct (post_effect client ORDER_ENDPOINT (next_ref w) w2 ts Hts)
      as [_ [Hsent _]].
    unfold post_order. rewrite Hsent. subst w2.
    cbn [sent heap with_log with_heap]. now rewrite store_same.
  - unfold post_order.
    rewrite (post_without_timestamp client ORDER_ENDPOINT (next_ref w) w2 e Hts).
    reflexivity.
Qed.

End OrdersFacts.

Module OrdersTheorems.
Import PyStr Py Validators ValidatorSpec ValidatorFacts.
Import Env Client Orders ClientSpec DictFacts ClientFacts OrdersFacts.
Local Open Scope list_scope.

(** C8.  On the TAKE_PROFIT path no quantity is required or sent.
    [validate_all] with order type TAKE_PROFIT gives the same outcome
    whatever the quantity, never the missing-quantity error, and a
    validated structure without a quantity; MARKET without a quantity
    fails with the quantity-required error and LIMIT without a price
    fails with the price-required error (the fields checked before them
    being valid).  The parameters built for TAKE_PROFIT_MARKET are exactly
    symbol, side, type, stopPrice and closePosition="true".  The order
    function issues one request, a POST to /fapi/v1/order whose form is
    symbol, side, type=TAKE_PROFIT_MARKET, stopPrice,
    closePosition="true", then the timestamp and the signature of those
    six fields, the values being the arguments as passed; there is no
    quantity field.  The dispatch of the command line calls the order
    function with the validated symbol, side and stop price. *)
Theorem take_profit_needs_no_quantity :
  (forall symbol side order_type quantity price stop_price,
     validate_order_type order_type = Ok "TAKE_PROFIT" ->
     validate_all symbol side order_type quantity price stop_price =
       validate_all symbol side order_type PNone price stop_price /\
     (forall t,
        validate_all symbol side order_type quantity price stop_price <>
          Raise (ValidationError (quantity_required t))) /\
     (forall d,
        validate_all symbol side order_type quantity price stop_price = Ok d ->
        keys d = ["symbol"; "side"; "order_type"; "stop_price"])) /\
  (forall symbol side order_type price stop_price,
     validate_order_type order_type = Ok "MARKET" ->
     is_ok (validate_symbol symbol) = true ->
     is_ok (validate_side side) = true ->
     validate_all symbol side order_type PNone price stop_price =
       Raise (ValidationError "--qty is required for MARKET orders.")) /\
  (forall symbol side order_type quantity stop_price,
     validate_order_type order_type = Ok "LIMIT" ->
     is_ok (validate_symbol symbol) = true ->
     is_ok (validate_side side) = true ->
     quantity <> PNone -> is_ok (validate_quantity quantity) = true ->
     validate_all symbol side order_type quantity PNone stop_price =
       Raise (ValidationError "Price is required for LIMIT orders.")) /\
  (forall symbol side stop_price,
     take_profit_params symbol side stop_price =
       [("symbol", PStr symbol); ("side", PStr side);
        ("type", PStr "TAKE_PROFIT_MARKET"); ("stopPrice", stop_price);
        ("closePosition", PStr "true")]) /\
  (forall client symbol side stop_price w,
     let w' :=
       snd (place_take_profit_market_order client symbol side stop_price w) in
     match int_add (now_ms w (ticks w)) (time_offset_ms client) with
     | Ok ts =>
         let fields :=
           [("symbol", PStr symbol); ("side", PStr side);
            ("type", PStr "TAKE_PROFIT_MARKET"); ("stopPrice", stop_price);
            ("closePosition", PStr "true"); ("timestamp", ts)] in
         let form := fields ++ [("signature", PStr (_sign client fields))] in
         sent w' = sent w ++
           [{| method := "POST";
               url := "https://testnet.binancefuture.com/fapi/v1/order";
               headers := session_headers client; data := form;
               timeout := 10 |}] /\
         has_key "quantity" form = false
     | Raise _ => sent w' = sent w
     end) /\
  (forall client off (w : World),
     time_offset_ms client = PInt off ->
     int_add (now_ms w (ticks w)) (time_offset_ms client) =
       Ok (PInt (now_ms w (ticks w) + off))) /\
  (forall client symbol side order_type quantity price stop_price d w,
     validate_order_type order_type = Ok "TAKE_PROFIT" ->
     validate_all symbol side order_type quantity price stop_price = Ok d ->
     exists sy sd sp,
       validate_symbol symbol = Ok sy /\
       validate_side side = Ok sd /\
       validate_stop_price stop_price = Ok sp /\
       dispatch client d w =
         mbind (place_take_profit_market_order client sy sd (PFloat sp))
               (fun _ => ret tt) w).
Proof.
  split; [|split; [|split; [|split; [|split; [|split]]]]].
  - intros symbol side order_type quantity price stop_price Ht.
    assert (E : forall q,
              validate_all symbol side order_type q price stop_price =
              match validate_symbol symbol with
              | Raise e => Raise e
              | Ok sy =>
                  match validate_side side with
                  | Raise e => Raise e
                  | Ok sd =>
                      match validate_stop_price stop_price with
                      | Raise e => Raise e
                      | Ok sp =>
                          Ok [("symbol", PStr sy); ("side", PStr sd);
                              ("order_type", PStr "TAKE_PROFIT");
                              ("stop_price", PFloat sp)]
                      end
                  end
              end).
    { intros q. unfold validate_all. rewrite Ht. simpl.
      destruct (validate_symbol symbol); [|reflexivity].
      destruct (validate_side side); [|reflexivity].
      cbn -[validate_stop_price].
      destruct (validate_stop_price stop_price); reflexivity. }
    split; [now rewrite !E|]. split.
    + intros t H.
      destruct (quantity_required_only_when_missing _ _ _ _ _ _ _ H)
        as [_ [t0 [Ht0 Hmk]]].
      rewrite Ht in Ht0. injection Ht0 as <-.
      destruct Hmk; discriminate.
    + intros d. rewrite E.
      destruct (validate_symbol symbol); [|discriminate].
      destruct (validate_side side); [|discriminate].
      destruct (validate_stop_price stop_price); [|discriminate].
      intros [= <-]. reflexivity.
  - intros symbol side order_type price stop_price Ht Hsy Hsd.
    unfold validate_all. rewrite Ht.
    destruct (validate_symbol symbol); [|discriminate].
    destruct (validate_side side); [|discriminate]. reflexivity.
  - intros symbol side order_type quantity stop_price Ht Hsy Hsd Hq Hqv.
    unfold validate_all. rewrite Ht.
    destruct (validate_symbol symbol); [|discriminate].
    destruct (validate_side side); [|discriminate].
    cbn -[validate_quantity].
    destruct quantity; try congruence;
      cbn -[validate_quantity];
      match goal with
      | |- context [validate_quantity ?q] =>
          destruct (validate_quantity q); [reflexivity | discriminate]
      end.
  - reflexivity.
  - intros client symbol side stop_price w.
    pose proof (take_profit_requests client symbol side stop_price w) as H.
    cbv zeta in H |- *.
    destruct (int_add (now_ms w (ticks w)) (time_offset_ms client))
      as [ts|e] eqn:Hts; [|exact H].
    rewrite H. unfold post_request, signed_params.
    replace (set "timestamp" ts (take_profit_params symbol side stop_price))
      with [("symbol", PStr symbol); ("side", PStr side);
            ("type", PStr "TAKE_PROFIT_MARKET"); ("stopPrice", stop_price);
            ("closePosition", PStr "true"); ("timestamp", ts)]
      by reflexivity.
    generalize (_sign client
                  [("symbol", PStr symbol); ("side", PStr side);
                   ("type", PStr "TAKE_PROFIT_MARKET");
                   ("stopPrice", stop_price);
                   ("closePosition", PStr "true"); ("timestamp", ts)]).
    intros sig. split; reflexivity.
  - intros client off w Hoff. rewrite Hoff. reflexivity.
  - intros client symbol side order_type quantity price stop_price d w Ht.
    unfold validate_all. rewrite Ht. simpl.
    destruct (validate_symbol symbol) as [sy|]; [|discriminate].
    destruct (validate_side side) as [sd|]; [|discriminate].
    cbn -[validate_stop_price].
    destruct (validate_stop_price stop_price) as [sp|]; [|discriminate].
    intros [= <-]. exists sy, sd, sp. repeat split; reflexivity.
Qed.

Lemma take_profit_needs_no_quantity_witness :
  validate_order_type "take_profit" = Ok "TAKE_PROFIT" /\
  validate_all "btcusdt" "sell" "take_profit" PNone PNone (PStr "90000") =
    validate_all "btcusdt" "sell" "take_profit" (PStr "0.001") PNone
      (PStr "90000") /\
  is_ok (validate_all "btcusdt" "sell" "take_profit" PNone PNone
           (PStr "90000")) = true.
Proof.
  split; [reflexivity|]. split; [|vm_compute; reflexivity].
  symmetry.
  exact (proj1 (proj1 take_profit_needs_no_quantity
                  "btcusdt" "sell" "take_profit" (PStr "0.001") PNone
                  (PStr "90000") eq_refl)).
Defined.

End OrdersTheorems.

(* ===================================================================== *)
(** * Further properties of the validators *)
(* ===================================================================== *)

Module ValidatorExtras.
Import PyStr Py Validators ValidatorSpec ValidatorFacts ExtraSpec.

Lemma upper_alnum_of_alnum (c : ascii) :
  isalnum_char c = true -> is_upper_alnum (upper_char c) = true.
Proof. destruct c as [[] [] [] [] [] [] [] []]; cbv; congruence. Qed.

Lemma upper_alnum_char_facts (c : ascii) :
  is_upper_alnum c = true ->
  isspace c = false /\ upper_char c = c /\ isalnum_char c = true /\
  UrlEncode.unreserved c = true.
Proof.
  destruct c as [[] [] [] [] [] [] [] []]; cbv; intros H;
    try discriminate H; repeat split.
Qed.

Lemma forallb_str_impl (p q : ascii -> bool) (s : string) :
  (forall c, p c = true -> q c = true) ->
  forallb_str p s = true -> forallb_str q s = true.
Proof.
  intros Hpq. induction s as [|c s IH]; simpl; [reflexivity|].
  intros H. apply andb_true_iff in H. destruct H as [Hc Hs].
  now rewrite (Hpq c Hc), (IH Hs).
Qed.

Lemma upper_of_alnum (s : string) :
  forallb_str isalnum_char s = true ->
  forallb_str is_upper_alnum (upper s) = true.
Proof.
  unfold upper. induction s as [|c s IH]; simpl; [reflexivity|].
  intros H. apply andb_true_iff in H. destruct H as [Hc Hs].
  now rewrite (upper_alnum_of_alnum c Hc), (IH Hs).
Qed.

(** Text of digits and upper-case letters is left alone by [strip], by
    [upper] and by [quote_plus]. *)
Lemma lstrip_no_space (s : string) :
  forallb_str is_upper_alnum s = true -> lstrip_by isspace s = s.
Proof.
  destruct s as [|c s]; simpl; [reflexivity|].
  intros H. apply andb_true_iff in H. destruct H as [Hc _].
  destruct (upper_alnum_char_facts c Hc) as [-> _]. reflexivity.
Qed.

Lemma rstrip_no_space (s : string) :
  forallb_str is_upper_alnum s = true -> rstrip_by isspace s = s.
Proof.
  induction s as [|c s IH]; simpl; [reflexivity|].
  intros H. apply andb_true_iff in H. destruct H as [Hc Hs].
  rewrite (IH Hs). destruct (upper_alnum_char_facts c Hc) as [-> _].
  destruct s; reflexivity.
Qed.

Lemma strip_upper_alnum (s : string) :
  forallb_str is_upper_alnum s = true -> strip s = s.
Proof.
  intros H. unfold strip, strip_by.
  now rewrite (lstrip_no_space s H), (rstrip_no_space s H).
Qed.

Lemma upper_upper_alnum (s : string) :
  forallb_str is_upper_alnum s = true -> upper s = s.
Proof.
  unfold upper. induction s as [|c s IH]; simpl; [reflexivity|].
  intros H. apply andb_true_iff in H. destruct H as [Hc Hs].
  destruct (upper_alnum_char_facts c Hc) as [_ [-> _]].
  now rewrite (IH Hs).
Qed.

Lemma quote_plus_upper_alnum (s : string) :
  forallb_str is_upper_alnum s = true -> UrlEncode.quote_plus s = s.
Proof.
  induction s as [|c s IH]; simpl; [reflexivity|].
  intros H. apply andb_true_iff in H. destruct H as [Hc Hs].
  destruct (upper_alnum_char_facts c Hc) as [_ [_ [_ ->]]].
  now rewrite (IH Hs).
Qed.

(** X1.  What [validate_symbol] returns is in normal form: for ASCII
    input, a returned symbol is non-empty, consists of digits and
    upper-case letters only, is returned unchanged when validated again,
    and is written by [quote_plus] (hence in the signed query string)
    without any escaping. *)
Theorem validate_symbol_normal_form (s r : string) :
  is_ascii s = true ->
  validate_symbol s = Ok r ->
  r <> "" /\
  forallb_str is_upper_alnum r = true /\
  validate_symbol r = Ok r /\
  UrlEncode.quote_plus r = r.
Proof.
  intros _. rewrite validate_symbol_cases.
  destruct (is_empty (strip s)) eqn:E; [discriminate|].
  destruct (isalnum (strip s)) eqn:A; [|discriminate].
  intros [= <-].
  assert (Hall : forallb_str is_upper_alnum (upper (strip s)) = true).
  { apply upper_of_alnum. destruct (strip s); [discriminate | exact A]. }
  assert (Hne : upper (strip s) <> "").
  { apply is_empty_false. now rewrite is_empty_upper. }
  repeat split.
  - exact Hne.
  - exact Hall.
  - rewrite validate_symbol_cases, (strip_upper_alnum _ Hall).
    rewrite (proj2 (is_empty_false _) Hne).
    rewrite (upper_upper_alnum _ Hall).
    replace (isalnum (upper (strip s))) with true; [reflexivity|].
    symmetry. rewrite isalnum_upper. exact A.
  - apply quote_plus_upper_alnum, Hall.
Qed.

Lemma validate_symbol_normal_form_witness :
  is_ascii " btcusdt " = true /\
  validate_symbol " btcusdt " = Ok "BTCUSDT" /\
  validate_symbol "BTCUSDT" = Ok "BTCUSDT".
Proof.
  split; [reflexivity|]. split; [reflexivity|].
  exact (proj1 (proj2 (proj2
           (validate_symbol_normal_form " btcusdt " "BTCUSDT"
              eq_refl eq_refl)))).
Defined.

(** X2.  [validate_side] accepts exactly the ASCII texts that, stripped
    and upper-cased, are BUY or SELL, and returns that normal form, which
    it accepts unchanged; any other text fails with the message that
    quotes the normalised input and lists "BUY, SELL". *)
Theorem validate_side_iff (s : string) :
  is_ascii s = true ->
  (forall r, validate_side s = Ok r <->
             r = upper (strip s) /\ (r = "BUY" \/ r = "SELL")) /\
  (forall r, validate_side s = Ok r -> validate_side r = Ok r) /\
  (upper (strip s) <> "BUY" -> upper (strip s) <> "SELL" ->
   validate_side s =
     Raise (ValidationError
       ("Invalid side '" ++ upper (strip s) ++
        "'. Must be one of: BUY, SELL."))).
Proof.
  intros _. unfold validate_side.
  destruct (str_in (upper (strip s)) VALID_SIDES) eqn:E; simpl.
  - apply str_in_spec in E. simpl in E.
    assert (H : upper (strip s) = "BUY" \/ upper (strip s) = "SELL")
      by intuition.
    split; [|split].
    + intros r. split.
      * intros [= <-]. auto.
      * intros [-> _]. reflexivity.
    + intros r [= <-]. destruct H as [-> | ->]; reflexivity.
    + intros H1 H2. destruct H; contradiction.
  - assert (H : ~ In (upper (strip s)) VALID_SIDES).
    { intros Hin. apply str_in_spec in Hin. congruence. }
    simpl in H.
    split; [|split].
    + intros r. split; [discriminate|].
      intros [-> [Hb | Hs]]; exfalso; apply H; auto.
    + discriminate.
    + reflexivity.
Qed.

Lemma validate_side_iff_witness :
  is_ascii " buy" = true /\ validate_side " buy" = Ok "BUY".
Proof.
  split; [reflexivity|].
  apply (proj1 (validate_side_iff " buy" eq_refl)).
  split; [reflexivity | left; reflexivity].
Defined.

(** X3.  [validate_order_type] accepts exactly the ASCII texts that,
    stripped and upper-cased, are MARKET, LIMIT or TAKE_PROFIT, and
    returns that normal form, which it accepts unchanged; any other text,
    STOP_MARKET and TAKE_PROFIT_MARKET among them, fails with the message
    that lists "LIMIT, MARKET, TAKE_PROFIT". *)
Theorem validate_order_type_iff (s : string) :
  is_ascii s = true ->
  (forall r, validate_order_type s = Ok r <->
             r = upper (strip s) /\
             (r = "MARKET" \/ r = "LIMIT" \/ r = "TAKE_PROFIT")) /\
  (forall r, validate_order_type s = Ok r -> validate_order_type r = Ok r) /\
  (upper (strip s) <> "MARKET" -> upper (strip s) <> "LIMIT" ->
   upper (strip s) <> "TAKE_PROFIT" ->
   validate_order_type s =
     Raise (ValidationError
       ("Invalid order type '" ++ upper (strip s) ++
        "'. Must be one of: LIMIT, MARKET, TAKE_PROFIT."))) /\
  is_ok (validate_order_type "STOP_MARKET") = false /\
  is_ok (validate_order_type "TAKE_PROFIT_MARKET") = false.
Proof.
  intros _.
  assert (Hmain :
    (forall r, validate_order_type s = Ok r <->
               r = upper (strip s) /\
               (r = "MARKET" \/ r = "LIMIT" \/ r = "TAKE_PROFIT")) /\
    (forall r, validate_order_type s = Ok r -> validate_order_type r = Ok r) /\
    (upper (strip s) <> "MARKET" -> upper (strip s) <> "LIMIT" ->
     upper (strip s) <> "TAKE_PROFIT" ->
     validate_order_type s =
       Raise (ValidationError
         ("Invalid order type '" ++ upper (strip s) ++
          "'. Must be one of: LIMIT, MARKET, TAKE_PROFIT.")))).
  { unfold validate_order_type at 1 2 4.
    destruct (str_in (upper (strip s)) VALID_ORDER_TYPES) eqn:E; simpl.
    - apply str_in_spec in E. simpl in E.
      assert (H : upper (strip s) = "MARKET" \/ upper (strip s) = "LIMIT" \/
                  upper (strip s) = "TAKE_PROFIT") by intuition.
      split; [|split].
      + intros r. split.
        * intros [= <-]. auto.
        * intros [-> _]. reflexivity.
      + intros r [= <-]. destruct H as [-> | [-> | ->]]; reflexivity.
      + intros H1 H2 H3. destruct H as [H | [H | H]]; contradiction.
    - assert (H : ~ In (upper (strip s)) VALID_ORDER_TYPES).
      { intros Hin. apply str_in_spec in Hin. congruence. }
      simpl in H.
      split; [|split].
      + intros r. split; [discriminate|].
        intros [-> [Hb | [Hb | Hb]]]; exfalso; apply H; auto.
      + discriminate.
      + reflexivity. }
  destruct Hmain as [H1 [H2 H3]].
  split; [exact H1|]. split; [exact H2|]. split; [exact H3|].
  split; reflexivity.
Qed.

Lemma validate_order_type_iff_witness :
  is_ascii "Take_Profit " = true /\
  validate_order_type "Take_Profit " = Ok "TAKE_PROFIT".
Proof.
  split; [reflexivity|].
  apply (proj1 (validate_order_type_iff "Take_Profit " eq_refl)).
  split; [reflexivity | right; right; reflexivity].
Defined.

(** X4.  The three validators of a positive number accept the same
    inputs and return the same number: for any input other than [None],
    each returns [q] exactly when [float(raw)] is [q] and [q <= 0] is
    false; nothing is rounded or replaced. *)
Theorem positive_number_validators_agree (raw : pyval) (q : PyFloat.float) :
  raw <> PNone ->
  (validate_quantity raw = Ok q <->
   py_float raw = Ok q /\ PyFloat.leb q PyFloat.zero = false) /\
  (validate_price raw = Ok q <-> validate_quantity raw = Ok q) /\
  (validate_stop_price raw = Ok q <-> validate_quantity raw = Ok q).
Proof.
  intros Hn.
  assert (Hnone : is_none raw = false)
    by (destruct raw; simpl; congruence).
  rewrite validate_quantity_cases, validate_price_cases,
    validate_stop_price_cases, Hnone.
  destruct (py_float raw) as [x|e].
  - destruct (PyFloat.leb x PyFloat.zero) eqn:L.
    + split; [|split]; (split; [discriminate|]).
      * intros [[= ->] H]. congruence.
      * discriminate.
      * discriminate.
    + split; [|split].
      * split; [intros [= <-]; auto | intros [[= ->] _]; reflexivity].
      * tauto.
      * tauto.
  - destruct e; (split; [|split]); split; try discriminate;
      intros [H _]; discriminate H.
Qed.

Lemma positive_number_validators_agree_witness :
  PStr "0.001" <> PNone /\
  (validate_price (PStr "0.001") = Ok (PyFloat.of_decimal false 1 (-3)) <->
   validate_quantity (PStr "0.001") = Ok (PyFloat.of_decimal false 1 (-3))).
Proof.
  split; [discriminate|].
  exact (proj1 (proj2 (positive_number_validators_agree
                         (PStr "0.001") (PyFloat.of_decimal false 1 (-3))
                         ltac:(discriminate)))).
Defined.

End ValidatorExtras.

Module ValidateAllExtras.
Import PyStr Py Validators ValidatorSpec ValidatorFacts ExtraSpec.

Lemma validate_symbol_raises (s : string) (e : exn) :
  validate_symbol s = Raise e -> exists msg, e = ValidationError msg.
Proof.
  rewrite validate_symbol_cases.
  destruct (is_empty _); [intros [= <-]; eauto|].
  destruct (isalnum _); [discriminate | intros [= <-]; eauto].
Qed.

Lemma validate_side_raises (s : string) (e : exn) :
  validate_side s = Raise e -> exists msg, e = ValidationError msg.
Proof.
  unfold validate_side. destruct (negb _); [|discriminate].
  intros [= <-]; eauto.
Qed.

Lemma validate_order_type_raises (s : string) (e : exn) :
  validate_order_type s = Raise e -> exists msg, e = ValidationError msg.
Proof.
  unfold validate_order_type. destruct (negb _); [|discriminate].
  intros [= <-]; eauto.
Qed.

(** [float] of a text or of [None] does not overflow. *)
Lemma py_float_command_line (v : pyval) :
  Cli.from_command_line v -> py_float v <> Raise OverflowError.
Proof.
  intros [-> | [s ->]]; simpl; [discriminate|].
  destruct (PyFloat.of_string s); discriminate.
Qed.

Lemma validate_quantity_raises (v : pyval) (e : exn) :
  Cli.from_command_line v ->
  validate_quantity v = Raise e -> exists msg, e = ValidationError msg.
Proof.
  intros Hv. rewrite validate_quantity_cases.
  pose proof (py_float_command_line v Hv) as Hno.
  destruct (py_float v) as [q|[]]; try congruence;
    try destruct (PyFloat.leb _ _); try discriminate;
    intros [= <-]; eauto.
Qed.

Lemma validate_price_raises (v : pyval) (e : exn) :
  Cli.from_command_line v ->
  validate_price v = Raise e -> exists msg, e = ValidationError msg.
Proof.
  intros Hv. rewrite validate_price_cases.
  pose proof (py_float_command_line v Hv) as Hno.
  destruct (is_none v); [intros [= <-]; eauto|].
  destruct (py_float v) as [q|[]]; try congruence;
    try destruct (PyFloat.leb _ _); try discriminate;
    intros [= <-]; eauto.
Qed.

Lemma validate_stop_price_raises (v : pyval) (e : exn) :
  Cli.from_command_line v ->
  validate_stop_price v = Raise e -> exists msg, e = ValidationError msg.
Proof.
  intros Hv. rewrite validate_stop_price_cases.
  pose proof (py_float_command_line v Hv) as Hno.
  destruct (is_none v); [intros [= <-]; eauto|].
  destruct (py_float v) as [q|[]]; try congruence;
    try destruct (PyFloat.leb _ _); try discriminate;
    intros [= <-]; eauto.
Qed.

(** [validate_all], one order type at a time. *)
Lemma validate_all_market
    (symbol side order_type : string) (quantity price stop_price : pyval) :
  validate_order_type order_type = Ok "MARKET" ->
  validate_all symbol side order_type quantity price stop_price =
    match validate_symbol symbol with
    | Raise e => Raise e
    | Ok sy =>
        match validate_side side with
        | Raise e => Raise e
        | Ok sd =>
            if is_none quantity then
              Raise (ValidationError (quantity_required "MARKET"))
            else
              match validate_quantity quantity with
              | Raise e => Raise e
              | Ok q =>
                  Ok [("symbol", PStr sy); ("side", PStr sd);
                      ("order_type", PStr "MARKET"); ("quantity", PFloat q)]
              end
        end
    end.
Proof.
  intros Ht. unfold validate_all. rewrite Ht. simpl.
  destruct (validate_symbol symbol); [|reflexivity].
  destruct (validate_side side); [|reflexivity].
  cbn -[validate_quantity].
  destruct (is_none quantity); [reflexivity|].
  destruct (validate_quantity quantity); reflexivity.
Qed.

Lemma validate_all_limit
    (symbol side order_type : string) (quantity price stop_price : pyval) :
  validate_order_type order_type = Ok "LIMIT" ->
  validate_all symbol side order_type quantity price stop_price =
    match validate_symbol symbol with
    | Raise e => Raise e
    | Ok sy =>
        match validate_side side with
        | Raise e => Raise e
        | Ok sd =>
            if is_none quantity then
              Raise (ValidationError (quantity_required "LIMIT"))
            else
              match validate_quantity quantity with
              | Raise e => Raise e
              | Ok q =>
                  match validate_price price with
                  | Raise e => Raise e
                  | Ok p =>
                      Ok [("symbol", PStr sy); ("side", PStr sd);
                          ("order_type", PStr "LIMIT");
                          ("quantity", PFloat q); ("price", PFloat p)]
                  end
              end
        end
    end.
Proof.
  intros Ht. unfold validate_all. rewrite Ht. simpl.
  destruct (validate_symbol symbol); [|reflexivity].
  destruct (validate_side side); [|reflexivity].
  cbn -[validate_quantity validate_price].
  destruct (is_none quantity); [reflexivity|].
  destruct (validate_quantity quantity); [|reflexivity].
  cbn -[validate_price].
  destruct (validate_price price); reflexivity.
Qed.

Lemma validate_all_take_profit
    (symbol side order_type : string) (quantity price stop_price : pyval) :
  validate_order_type order_type = Ok "TAKE_PROFIT" ->
  validate_all symbol side order_type quantity price stop_price =
    match validate_symbol symbol with
    | Raise e => Raise e
    | Ok sy =>
        match validate_side side with
        | Raise e => Raise e
        | Ok sd =>
            match validate_stop_price stop_price with
            | Raise e => Raise e
            | Ok sp =>
                Ok [("symbol", PStr sy); ("side", PStr sd);
                    ("order_type", PStr "TAKE_PROFIT");
                    ("stop_price", PFloat sp)]
            end
        end
    end.
Proof.
  intros Ht. unfold validate_all. rewrite Ht. simpl.
  destruct (validate_symbol symbol); [|reflexivity].
  destruct (validate_side side); [|reflexivity].
  cbn -[validate_stop_price].
  destruct (validate_stop_price stop_price); reflexivity.
Qed.

Lemma validate_all_error_kind
    (symbol side order_type : string) (quantity price stop_price : pyval)
    (e : exn) :
  Cli.from_command_line quantity ->
  Cli.from_command_line price ->
  Cli.from_command_line stop_price ->
  validate_all symbol side order_type quantity price stop_price = Raise e ->
  exists msg, e = ValidationError msg.
Proof.
  intros Hq Hp Hsp.
  destruct (validate_order_type order_type) as [t|e0] eqn:Ht.
  - destruct (validate_order_type_ok _ _ Ht) as [-> | [-> | ->]].
    + rewrite (validate_all_market _ _ _ _ price stop_price Ht).
      destruct (validate_symbol symbol) eqn:Hsy;
        [|intros [= <-]; eapply validate_symbol_raises; eassumption].
      destruct (validate_side side) eqn:Hsd;
        [|intros [= <-]; eapply validate_side_raises; eassumption].
      destruct (is_none quantity); [intros [= <-]; eauto|].
      destruct (validate_quantity quantity) eqn:Hqv; [discriminate|].
      intros [= <-]. eapply validate_quantity_raises; [exact Hq | exact Hqv].
    + rewrite (validate_all_limit _ _ _ _ _ stop_price Ht).
      destruct (validate_symbol symbol) eqn:Hsy;
        [|intros [= <-]; eapply validate_symbol_raises; eassumption].
      destruct (validate_side side) eqn:Hsd;
        [|intros [= <-]; eapply validate_side_raises; eassumption].
      destruct (is_none quantity); [intros [= <-]; eauto|].
      destruct (validate_quantity quantity) eqn:Hqv;
        [|intros [= <-]; eapply validate_quantity_raises; [exact Hq | exact Hqv]].
      destruct (validate_price price) eqn:Hpv; [discriminate|].
      intros [= <-]. eapply validate_price_raises; [exact Hp | exact Hpv].
    + rewrite (validate_all_take_profit _ _ _ quantity price _ Ht).
      destruct (validate_symbol symbol) eqn:Hsy;
        [|intros [= <-]; eapply validate_symbol_raises; eassumption].
      destruct (validate_side side) eqn:Hsd;
        [|intros [= <-]; eapply validate_side_raises; eassumption].
      destruct (validate_stop_price stop_price) eqn:Hpv; [discriminate|].
      intros [= <-]. eapply validate_stop_price_raises; [exact Hsp | exact Hpv].
  - unfold validate_all. rewrite Ht. simpl. intros [= <-].
    eapply validate_order_type_raises; eassumption.
Qed.

(** X5.  On what the command line can supply (each optional value a text
    or [None]) [validate_all] fails only with [ValidationError]: no other
    exception escapes the [except ValidationError] of [main]. *)
Theorem validate_all_raises_validation_error
    (symbol side order_type : string) (quantity price stop_price : pyval)
    (e : exn) :
  Cli.from_command_line quantity ->
  Cli.from_command_line price ->
  Cli.from_command_line stop_price ->
  validate_all symbol side order_type quantity price stop_price = Raise e ->
  exists msg, e = ValidationError msg.
Proof. apply validate_all_error_kind. Qed.

Lemma validate_all_raises_validation_error_witness :
  Cli.from_command_line (PStr "abc") /\ Cli.from_command_line PNone /\
  validate_all "BTCUSDT" "BUY" "MARKET" (PStr "abc") PNone PNone =
    Raise (ValidationError "Quantity 'abc' is not a valid number.") /\
  exists msg,
    ValidationError "Quantity 'abc' is not a valid number." =
    ValidationError msg.
Proof.
  assert (Hq : Cli.from_command_line (PStr "abc"))
    by (right; exists "abc"; reflexivity).
  assert (Hn : Cli.from_command_line PNone) by (left; reflexivity).
  split; [exact Hq|]. split; [exact Hn|]. split; [reflexivity|].
  exact (validate_all_raises_validation_error
           "BTCUSDT" "BUY" "MARKET" (PStr "abc") PNone PNone _
           Hq Hn Hn eq_refl).
Defined.

(** X6.  A structure [validate_all] returns holds exactly the fields of
    its order type, each the value its validator returned: symbol, side,
    order_type and quantity for MARKET; those and price for LIMIT; symbol,
    side, order_type and stop_price for TAKE_PROFIT.  Every key the
    dispatch of [main] reads by subscript is therefore present. *)
Theorem validate_all_shape
    (symbol side order_type : string) (quantity price stop_price : pyval)
    (d : dict pyval) :
  validate_all symbol side order_type quantity price stop_price = Ok d ->
  exists sy sd t,
    validate_symbol symbol = Ok sy /\
    validate_side side = Ok sd /\
    validate_order_type order_type = Ok t /\
    ((t = "MARKET" /\ exists q,
        validate_quantity quantity = Ok q /\
        d = [("symbol", PStr sy); ("side", PStr sd);
             ("order_type", PStr t); ("quantity", PFloat q)]) \/
     (t = "LIMIT" /\ exists q p,
        validate_quantity quantity = Ok q /\ validate_price price = Ok p /\
        d = [("symbol", PStr sy); ("side", PStr sd);
             ("order_type", PStr t); ("quantity", PFloat q);
             ("price", PFloat p)]) \/
     (t = "TAKE_PROFIT" /\ exists sp,
        validate_stop_price stop_price = Ok sp /\
        d = [("symbol", PStr sy); ("side", PStr sd);
             ("order_type", PStr t); ("stop_price", PFloat sp)])).
Proof.
  destruct (validate_order_type order_type) as [t|e0] eqn:Ht.
  2:{ unfold validate_all. rewrite Ht. discriminate. }
  destruct (validate_order_type_ok _ _ Ht) as [-> | [-> | ->]].
  - rewrite (validate_all_market _ _ _ _ price stop_price Ht).
    destruct (validate_symbol symbol) as [sy|]; [|discriminate].
    destruct (validate_side side) as [sd|]; [|discriminate].
    destruct (is_none quantity); [discriminate|].
    destruct (validate_quantity quantity) as [q|]; [|discriminate].
    intros [= <-]. exists sy, sd, "MARKET". repeat split. left. eauto.
  - rewrite (validate_all_limit _ _ _ _ _ stop_price Ht).
    destruct (validate_symbol symbol) as [sy|]; [|discriminate].
    destruct (validate_side side) as [sd|]; [|discriminate].
    destruct (is_none quantity); [discriminate|].
    destruct (validate_quantity quantity) as [q|]; [|discriminate].
    destruct (validate_price price) as [p|]; [|discriminate].
    intros [= <-]. exists sy, sd, "LIMIT". repeat split.
    right. left. split; [reflexivity|]. exists q, p. auto.
  - rewrite (validate_all_take_profit _ _ _ quantity price _ Ht).
    destruct (validate_symbol symbol) as [sy|]; [|discriminate].
    destruct (validate_side side) as [sd|]; [|discriminate].
    destruct (validate_stop_price stop_price) as [sp|]; [|discriminate].
    intros [= <-]. exists sy, sd, "TAKE_PROFIT". repeat split.
    right. right. eauto.
Qed.

Lemma validate_all_shape_witness :
  validate_all "ethusdt" "sell" "limit" (PStr "2") (PStr "1500") PNone =
    Ok [("symbol", PStr "ETHUSDT"); ("side", PStr "SELL");
        ("order_type", PStr "LIMIT");
        ("quantity", PFloat (PyFloat.of_decimal false 2 0));
        ("price", PFloat (PyFloat.of_decimal false 1500 0))] /\
  exists sy sd t,
    validate_symbol "ethusdt" = Ok sy /\ validate_side "sell" = Ok sd /\
    validate_order_type "limit" = Ok t.
Proof.
  assert (H : validate_all "ethusdt" "sell" "limit" (PStr "2") (PStr "1500")
                PNone =
              Ok [("symbol", PStr "ETHUSDT"); ("side", PStr "SELL");
                  ("order_type", PStr "LIMIT");
                  ("quantity", PFloat (PyFloat.of_decimal false 2 0));
                  ("price", PFloat (PyFloat.of_decimal false 1500 0))])
    by (vm_compute; reflexivity).
  split; [exact H|].
  destruct (validate_all_shape _ _ _ _ _ _ _ H)
    as [sy [sd [t [H1 [H2 [H3 _]]]]]].
  exists sy, sd, t. auto.
Defined.

(** X7.  [validate_all] never looks at the fields its order type does not
    use: a MARKET order gives the same outcome whatever the price and the
    stop price, a LIMIT order whatever the stop price, a TAKE_PROFIT
    order whatever the quantity and the price. *)
Theorem validate_all_ignores_unused_fields
    (symbol side order_type : string) (quantity price stop_price : pyval)
    (quantity' price' stop_price' : pyval) :
  (validate_order_type order_type = Ok "MARKET" ->
   validate_all symbol side order_type quantity price stop_price =
   validate_all symbol side order_type quantity price' stop_price') /\
  (validate_order_type order_type = Ok "LIMIT" ->
   validate_all symbol side order_type quantity price stop_price =
   validate_all symbol side order_type quantity price stop_price') /\
  (validate_order_type order_type = Ok "TAKE_PROFIT" ->
   validate_all symbol side order_type quantity price stop_price =
   validate_all symbol side order_type quantity' price' stop_price).
Proof.
  repeat split; intros Ht.
  - now rewrite !(validate_all_market _ _ _ _ _ _ Ht).
  - now rewrite !(validate_all_limit _ _ _ _ _ _ Ht).
  - now rewrite !(validate_all_take_profit _ _ _ _ _ _ Ht).
Qed.

Lemma validate_all_ignores_unused_fields_witness :
  validate_order_type "market" = Ok "MARKET" /\
  validate_all "btcusdt" "buy" "market" (PStr "1") PNone PNone =
  validate_all "btcusdt" "buy" "market" (PStr "1") (PStr "-5") (PStr "x").
Proof.
  split; [reflexivity|].
  exact (proj1 (validate_all_ignores_unused_fields
                  "btcusdt" "buy" "market" (PStr "1") PNone PNone
                  PNone (PStr "-5") (PStr "x")) eq_refl).
Defined.

End ValidateAllExtras.

(* ===================================================================== *)
(** * Further properties of the client *)
(* ===================================================================== *)

Module ClientExtras.
Import PyStr Py Env Client ClientSpec ExtraSpec.
Import ValidatorFacts DictFacts ClientFacts InitTheorems.
Local Open Scope list_scope.

(** What [_sync_time] sends and leaves alone. *)
Lemma sync_time_effect (self : BinanceClient) (w : World) :
  let w' := snd (_sync_time self w) in
  sent w' = sent w ++ [get_request self TIME_ENDPOINT] /\
  (forall r, heap w' r = heap w r) /\
  next_ref w' = next_ref w /\
  environ w' = environ w /\
  network w' = network w.
Proof.
  unfold _sync_time, try_except, mbind, time_ms, get_server_time, mbind,
    session_get, http, lift, response_json, json_get, get_request.
  world_simpl.
  destruct (network w (Datatypes.length (sent w))) as [r|e]; world_simpl.
  - destruct (json_body r) as [[]|]; world_simpl;
      try (repeat split; fail).
    destruct (sub_int _ _); world_simpl; repeat split.
  - repeat split.
Qed.

(** The two ways the constructor ends. *)
Lemma init_cases (w : World) :
  let key := strip (get_default "BINANCE_API_KEY" "" (environ w)) in
  let secret := strip (get_default "BINANCE_API_SECRET" "" (environ w)) in
  (has_credentials w = false /\
   exists msg, init w = (Raise (EnvironmentError msg), w)) \/
  (has_credentials w = true /\
   exists self w',
     init w = (Ok self, w') /\
     session_headers self = session_headers (fresh key secret) /\
     sent w' = sent w ++ [get_request (fresh key secret) TIME_ENDPOINT] /\
     (forall r, heap w' r = heap w r) /\
     network w' = network w).
Proof.
  intros key secret.
  unfold has_credentials, init, mbind, getenv. cbn [fst snd].
  fold key secret.
  destruct (is_empty key) eqn:Ek;
    [left; split; [reflexivity | eexists; reflexivity]|].
  destruct (is_empty secret) eqn:Es;
    [left; split; [reflexivity | eexists; reflexivity]|].
  right. split; [reflexivity|].
  destruct (sync_time_outcome (fresh key secret) w) as [w1 [Hrun _]].
  pose proof (sync_time_effect (fresh key secret) w) as Heff.
  cbv zeta in Heff. rewrite Hrun in Heff |- *. cbn [snd] in Heff.
  destruct Heff as [Hsent [Hheap [_ [_ Hnet]]]].
  cbn [emit ret fst snd].
  eexists _, _. split; [reflexivity|].
  split; [reflexivity|]. world_simpl. auto.
Qed.

(** X8.  Constructing the client fails exactly when a credential is
    missing: an API key that is empty once stripped raises the
    [EnvironmentError] naming BINANCE_API_KEY, a missing secret (with a
    key present) the one naming BINANCE_API_SECRET, and in both cases
    nothing has been done: no clock reading, no request, no log record.
    [EnvironmentError] is the only exception the constructor raises. *)
Theorem init_requires_credentials (w : World) :
  let key := strip (get_default "BINANCE_API_KEY" "" (environ w)) in
  let secret := strip (get_default "BINANCE_API_SECRET" "" (environ w)) in
  (key = "" ->
   init w =
     (Raise (EnvironmentError
               "BINANCE_API_KEY not set. Add it to your .env file."), w)) /\
  (key <> "" -> secret = "" ->
   init w =
     (Raise (EnvironmentError
               "BINANCE_API_SECRET not set. Add it to your .env file."), w)) /\
  (forall e w',
     init w = (Raise e, w') ->
     (key = "" \/ secret = "") /\ w' = w /\
     exists msg, e = EnvironmentError msg).
Proof.
  intros key secret.
  unfold init, mbind, getenv. cbn [fst snd]. fold key secret.
  destruct (is_empty key) eqn:Ek.
  - apply is_empty_true in Ek.
    split; [intros _; reflexivity|]. split; [congruence|].
    intros e w' [= <- <-]. eauto.
  - pose proof (proj1 (is_empty_false _) Ek) as Hk.
    destruct (is_empty secret) eqn:Es.
    + apply is_empty_true in Es.
      split; [congruence|]. split; [intros _ _; reflexivity|].
      intros e w' [= <- <-]. eauto.
    + pose proof (proj1 (is_empty_false _) Es) as Hs.
      split; [congruence|]. split; [congruence|].
      intros e w'.
      destruct (sync_time_outcome (fresh key secret) w) as [w1 [Hrun _]].
      rewrite Hrun. discriminate.
Qed.

Lemma init_requires_credentials_witness :
  let w := Samples.world (Samples.always Samples.accepted) [] in
  let bare :=
    {| environ := [("BINANCE_API_KEY", "   ")]; now_ms := now_ms w;
       ticks := ticks w; network := network w; sent := sent w;
       log := log w; heap := heap w; next_ref := next_ref w |} in
  strip (get_default "BINANCE_API_KEY" "" (environ bare)) = "" /\
  fst (init bare) =
    Raise (EnvironmentError
             "BINANCE_API_KEY not set. Add it to your .env file.").
Proof.
  intros w bare. split; [reflexivity|].
  exact (f_equal fst (proj1 (init_requires_credentials bare) eq_refl)).
Defined.

(** X9.  With both credentials present the constructor makes exactly one
    request, the GET of /fapi/v1/time with a timeout of 5, and the client
    it returns sends the stripped API key in the X-MBX-APIKEY header of
    every request, with the form content type; no dictionary is touched. *)
Theorem init_makes_one_request (w : World) :
  let key := strip (get_default "BINANCE_API_KEY" "" (environ w)) in
  let secret := strip (get_default "BINANCE_API_SECRET" "" (environ w)) in
  let heads :=
    [("X-MBX-APIKEY", key);
     ("Content-Type", "application/x-www-form-urlencoded")] in
  key <> "" -> secret <> "" ->
  exists self w',
    init w = (Ok self, w') /\
    session_headers self = heads /\
    sent w' =
      sent w ++
      [{| method := "GET";
          url := "https://testnet.binancefuture.com/fapi/v1/time";
          headers := heads; data := []; timeout := 5 |}] /\
    (forall r, heap w' r = heap w r).
Proof.
  intros key secret heads Hk Hs.
  unfold init, mbind, getenv. cbn [fst snd]. fold key secret.
  rewrite (proj2 (is_empty_false key) Hk).
  rewrite (proj2 (is_empty_false secret) Hs).
  destruct (sync_time_outcome (fresh key secret) w) as [w1 [Hrun _]].
  pose proof (sync_time_effect (fresh key secret) w) as Heff.
  cbv zeta in Heff. rewrite Hrun in Heff |- *. cbn [snd] in Heff.
  destruct Heff as [Hsent [Hheap _]].
  cbn [emit ret fst snd].
  eexists _, _. split; [reflexivity|].
  split; [reflexivity|]. world_simpl. split; [|exact Hheap].
  rewrite Hsent. reflexivity.
Qed.

Lemma init_makes_one_request_witness :
  let w := Samples.world (fun _ => Fails Timeout) [] in
  strip (get_default "BINANCE_API_KEY" "" (environ w)) <> "" /\
  strip (get_default "BINANCE_API_SECRET" "" (environ w)) <> "" /\
  exists self w', init w = (Ok self, w') /\ List.length (sent w') = 1%nat.
Proof.
  intros w.
  assert (Hk : strip (get_default "BINANCE_API_KEY" "" (environ w)) <> "")
    by (vm_compute; discriminate).
  assert (Hs : strip (get_default "BINANCE_API_SECRET" "" (environ w)) <> "")
    by (vm_compute; discriminate).
  split; [exact Hk|]. split; [exact Hs|].
  destruct (init_makes_one_request w Hk Hs)
    as [self [w' [Hinit [_ [Hsent _]]]]].
  exists self, w'. split; [exact Hinit|]. rewrite Hsent. reflexivity.
Defined.

(** X10.  When the server time is an integer and the local clock does not
    run backwards between the two readings [t0] and [t1] around the call,
    the offset [_sync_time] stores lies between [serverTime - t1] and
    [serverTime - t0]: it is off from either reading's difference by at
    most the duration of the call. *)
Theorem sync_time_offset_between
    (self : BinanceClient) (w : World) (server_time : Z) :
  let t0 := now_ms w (ticks w) in
  let t1 := now_ms w (S (ticks w)) in
  fst (get_server_time self (snd (time_ms w))) = Ok (JInt server_time) ->
  t0 <= t1 ->
  exists self' w' off,
    _sync_time self w = (Ok self', w') /\
    time_offset_ms self' = PInt off /\
    server_time - t1 <= off <= server_time - t0.
Proof.
  intros t0 t1 Hst Hle.
  destruct (sync_time_outcome self w) as [w' [Hrun _]].
  rewrite Hst in Hrun. cbn [sub_int] in Hrun.
  eexists _, w', _. split; [exact Hrun|]. split; [reflexivity|].
  fold t0 t1.
  assert (H : t0 <= (t0 + t1) / 2 <= t1).
  { split.
    - apply Z.div_le_lower_bound; lia.
    - apply Z.div_le_upper_bound; lia. }
  lia.
Qed.

Lemma sync_time_offset_between_witness :
  let w := Samples.world (Samples.always (Samples.server_time 1700000000500))
             [] in
  fst (get_server_time Samples.client (snd (time_ms w))) =
    Ok (JInt 1700000000500) /\
  now_ms w (ticks w) <= now_ms w (S (ticks w)) /\
  exists self' w' off,
    _sync_time Samples.client w = (Ok self', w') /\
    time_offset_ms self' = PInt off /\ 499 <= off <= 500.
Proof.
  intros w.
  assert (H1 : fst (get_server_time Samples.client (snd (time_ms w))) =
               Ok (JInt 1700000000500)) by reflexivity.
  assert (H2 : now_ms w (ticks w) <= now_ms w (S (ticks w)))
    by (vm_compute; discriminate).
  split; [exact H1|]. split; [exact H2|].
  destruct (sync_time_offset_between Samples.client w 1700000000500 H1 H2)
    as [self' [w' [off [Hrun [Hoff Hb]]]]].
  exists self', w', off. split; [exact Hrun|]. split; [exact Hoff|].
  revert Hb. change (now_ms w (S (ticks w))) with 1700000000001.
  change (now_ms w (ticks w)) with 1700000000000. lia.
Defined.

Lemma ping_run (self : BinanceClient) (w : World) :
  exists w',
    ping self w =
      (Ok match network w (List.length (sent w)) with
          | Responds r => ok r
          | Fails _ => false
          end, w') /\
    sent w' = sent w ++ [get_request self PING_ENDPOINT] /\
    log w' = log w ++
      [match network w (List.length (sent w)) with
       | Responds _ => (DEBUG, "Ping response: %s")
       | Fails _ => (ERROR, "Ping failed: %s")
       end] /\
    (forall r, heap w' r = heap w r).
Proof.
  unfold ping, try_except, mbind, session_get, http, emit, ret, get_request.
  world_simpl.
  destruct (network w (Datatypes.length (sent w))) as [r|e]; world_simpl;
    eexists; (split; [reflexivity|]); world_simpl; repeat split.
Qed.

(** X11.  [ping] never raises.  It makes one GET of /fapi/v1/ping with a
    timeout of 5 and returns [True] exactly when the network answers with
    a status that is neither 4xx nor 5xx; every failure of the request
    gives [False] and one ERROR record, every answer one DEBUG record. *)
Theorem ping_never_raises (self : BinanceClient) (w : World) :
  exists w',
    ping self w =
      (Ok match network w (List.length (sent w)) with
          | Responds r => ok r
          | Fails _ => false
          end, w') /\
    sent w' = sent w ++ [get_request self PING_ENDPOINT] /\
    log w' = log w ++
      [match network w (List.length (sent w)) with
       | Responds _ => (DEBUG, "Ping response: %s")
       | Fails _ => (ERROR, "Ping failed: %s")
       end] /\
    (forall r, heap w' r = heap w r).
Proof. apply ping_run. Qed.

(** What [_post] logs. *)
Lemma post_log_effect
    (self : BinanceClient) (endpoint : string) (params : ref) (w : World)
    (ts : pyval) :
  fst (_timestamp self w) = Ok ts ->
  log (snd (_post self endpoint params w)) =
    log w ++ (DEBUG, "POST %s | params: %s") ::
             post_log (network w (List.length (sent w))).
Proof.
  rewrite timestamp_run. simpl. intros Hts.
  unfold _post, mbind. rewrite timestamp_run, Hts.
  unfold setitem, read, emit, try_except, session_post, http, raise, lift,
    ret, response_json, json_get, post_log.
  world_simpl.
  destruct (network w (Datatypes.length (sent w))) as [r|e].
  - world_simpl. cbn [is_ConnectionError is_Timeout].
    destruct (json_body r) as [body|]; world_simpl.
    + destruct (ok r); cbn [negb]; [| destruct body]; world_simpl;
        try destruct body; rewrite <- ?app_assoc; reflexivity.
    + rewrite <- ?app_assoc. reflexivity.
  - destruct e; cbn [is_ConnectionError is_Timeout]; world_simpl;
      rewrite <- ?app_assoc; reflexivity.
Qed.

(** X12.  What [post_order] logs.  After the DEBUG record of the request:
    a [ConnectionError] or a [Timeout] is logged once at ERROR before it
    is re-raised, any other exception of the request is re-raised without
    a record; an answer is logged at DEBUG, and the ERROR record of an API
    error is added only for a 4xx or 5xx answer whose body is a JSON
    object.  A successful order leaves no ERROR record. *)
Theorem post_order_log
    (self : BinanceClient) (params : ref) (w : World) (ts : pyval) :
  fst (_timestamp self w) = Ok ts ->
  log (snd (post_order self params w)) =
    log w ++ (DEBUG, "POST %s | params: %s") ::
             post_log (network w (List.length (sent w))) /\
  (forall body, fst (post_order self params w) = Ok body ->
   Forall (fun rec => fst rec = DEBUG)
     ((DEBUG, "POST %s | params: %s") ::
      post_log (network w (List.length (sent w))))).
Proof.
  intros Hts. split; [apply (post_log_effect self _ params w ts Hts)|].
  intros body. unfold post_order.
  rewrite (proj1 (post_effect self ORDER_ENDPOINT params w ts Hts)).
  unfold post_result, post_log.
  destruct (network w (Datatypes.length (sent w))) as [r|e]; [|discriminate].
  destruct (json_body r) as [b|]; [|discriminate].
  destruct (ok r); [|destruct b; discriminate].
  intros _. destruct b; repeat constructor.
Qed.

Lemma post_order_log_witness :
  let w := Samples.world (fun _ => Fails Timeout)
             [("symbol", PStr "BTCUSDT")] in
  fst (_timestamp Samples.client w) = Ok (PInt 1700000000000) /\
  log (snd (post_order Samples.client 0%nat w)) =
    [(DEBUG, "POST %s | params: %s"); (ERROR, "Request to %s timed out.")].
Proof.
  intros w. split; [reflexivity|].
  exact (proj1 (post_order_log Samples.client 0%nat w
                  (PInt 1700000000000) eq_refl)).
Defined.

(** X13.  What [post_order] returns, by the answer of the network.  An
    answer whose status is neither 4xx nor 5xx and whose body is JSON is
    returned as decoded, whatever JSON it is; an exception of the request
    is re-raised as it is; a 4xx or 5xx answer with a JSON object raises
    [BinanceAPIError] with the status, and with -1 and "Unknown error"
    for an absent code or message; a 4xx or 5xx answer whose JSON is not
    an object raises [AttributeError]. *)
Theorem post_order_result_cases
    (self : BinanceClient) (params : ref) (w : World) (ts : pyval) :
  fst (_timestamp self w) = Ok ts ->
  let answer := network w (List.length (sent w)) in
  let result := fst (post_order self params w) in
  (forall r body, answer = Responds r -> json_body r = Some body ->
                  ok r = true -> result = Ok body) /\
  (forall e, answer = Fails e -> result = Raise e) /\
  (forall r fields, answer = Responds r ->
                    json_body r = Some (JObj fields) -> ok r = false ->
     result =
       Raise (BinanceAPIError (status_code r)
                (get_default "code" (JInt (-1)) fields)
                (get_default "msg" (JStr "Unknown error") fields))) /\
  (forall r body, answer = Responds r -> json_body r = Some body ->
                  ok r = false -> (forall fields, body <> JObj fields) ->
                  result = Raise AttributeError).
Proof.
  intros Hts answer result.
  assert (E : result = post_result answer)
    by exact (proj1 (post_effect self ORDER_ENDPOINT params w ts Hts)).
  rewrite E. unfold post_result.
  split; [|split; [|split]].
  - intros r body -> -> ->. reflexivity.
  - intros e ->. reflexivity.
  - intros r fields -> -> ->. reflexivity.
  - intros r body -> -> -> Hno.
    destruct body; try reflexivity. destruct (Hno fields eq_refl).
Qed.

Lemma post_order_result_cases_witness :
  let w := Samples.world (fun _ => Fails ConnectionError)
             [("symbol", PStr "BTCUSDT")] in
  fst (_timestamp Samples.client w) = Ok (PInt 1700000000000) /\
  fst (post_order Samples.client 0%nat w) = Raise ConnectionError.
Proof.
  intros w. split; [reflexivity|].
  exact (proj1 (proj2 (post_order_result_cases Samples.client 0%nat w
                         (PInt 1700000000000) eq_refl))
           ConnectionError eq_refl).
Defined.

End ClientExtras.

(* ===================================================================== *)
(** * Further properties of the order functions *)
(* ===================================================================== *)

Module OrdersExtras.
Import PyStr Py Env Client Orders ClientSpec ExtraSpec.
Import DictFacts ClientFacts ClientExtras.
Local Open Scope list_scope.

Lemma place_market_order_eq client symbol side quantity :
  place_market_order client symbol side quantity =
  place client (market_params symbol side quantity)
    "Placing MARKET order | symbol=%s side=%s qty=%s"
    "Failed to place MARKET order: %s".
Proof. reflexivity. Qed.

Lemma place_limit_order_eq client symbol side quantity price tif :
  place_limit_order client symbol side quantity price tif =
  place client (limit_params symbol side quantity price tif)
    "Placing LIMIT order | symbol=%s side=%s qty=%s price=%s"
    "Failed to place LIMIT order: %s".
Proof. reflexivity. Qed.

Lemma place_take_profit_eq client symbol side stop_price :
  place_take_profit_market_order client symbol side stop_price =
  place client (take_profit_params symbol side stop_price)
    "Placing TAKE_PROFIT_MARKET order | symbol=%s side=%s stopPrice=%s"
    "Failed to place TAKE_PROFIT_MARKET order: %s".
Proof. reflexivity. Qed.

(** What [submit] adds to [post_order]. *)
Lemma submit_effect
    (client : BinanceClient) (params : ref) (placing failed : string)
    (w : World) :
  let posted := post_order client params (snd (emit INFO placing w)) in
  let out := submit client params placing failed w in
  fst out = order_result (fst posted) /\
  log (snd out) = log (snd posted) ++ order_log failed (fst posted) /\
  sent (snd out) = sent (snd posted) /\
  (forall r, heap (snd out) r = heap (snd posted) r) /\
  next_ref (snd out) = next_ref (snd posted).
Proof.
  unfold submit, mbind, try_except. cbn [emit fst snd].
  destruct (post_order client params (with_log w (log w ++ [(INFO, placing)])))
    as [[response|e] w2]; cbn [fst snd].
  - unfold _print_response_summary, _log_and_print_success, mbind, lift,
      json_get, emit, ret, order_result, order_log.
    destruct response; world_simpl; rewrite ?app_nil_r; repeat split.
  - unfold order_result, order_log, emit, raise, mbind.
    destruct e; cbn [is_BinanceAPIError]; world_simpl; rewrite ?app_nil_r;
      repeat split.
Qed.

(** The whole effect of an order function once the timestamp is there. *)
Lemma place_effect
    (client : BinanceClient) (d : dict pyval) (placing failed : string)
    (w : World) (ts : pyval) :
  fst (_timestamp client w) = Ok ts ->
  let answer := network w (List.length (sent w)) in
  let form := signed_params client ts d in
  let out := place client d placing failed w in
  fst out = order_result (post_result answer) /\
  sent (snd out) = sent w ++ [post_request client ORDER_ENDPOINT form] /\
  log (snd out) =
    log w ++ [(INFO, placing); (DEBUG, "POST %s | params: %s")]
          ++ post_log answer ++ order_log failed (post_result answer) /\
  heap (snd out) (next_ref w) = form /\
  (forall r, r <> next_ref w -> heap (snd out) r = heap w r) /\
  next_ref (snd out) = S (next_ref w).
Proof.
  intros Hts answer form out.
  unfold out, place, mbind. cbn [alloc fst snd].
  set (w1 := with_heap w (store (heap w) (next_ref w) d) (S (next_ref w))).
  destruct (submit_effect client (next_ref w) placing failed w1)
    as [Hres [Hlog [Hsent [Hheap Hnext]]]].
  cbn [emit fst snd] in Hres, Hlog, Hsent, Hheap, Hnext.
  set (w2 := with_log w1 (log w1 ++ [(INFO, placing)])) in *.
  assert (Hts2 : fst (_timestamp client w2) = Ok ts) by exact Hts.
  destruct (post_effect client ORDER_ENDPOINT (next_ref w) w2 ts Hts2)
    as [Pres [Psent [Pheap [Pframe Pnext]]]].
  pose proof (post_log_effect client ORDER_ENDPOINT (next_ref w) w2 ts Hts2)
    as Plog.
  fold (post_order client (next_ref w) w2) in Pres, Psent, Pheap, Pframe,
    Pnext, Plog.
  rewrite Hres, Hlog, Hsent, Hnext, Pres, Psent, Plog, Pnext.
  subst w2 w1. world_simpl. fold answer.
  split; [reflexivity|].
  split; [now rewrite store_same|].
  split; [now rewrite <- !app_assoc|].
  split; [rewrite Hheap, Pheap; world_simpl; now rewrite store_same|].
  split; [|reflexivity].
  intros r Hr. rewrite Hheap, (Pframe r Hr). world_simpl.
  now rewrite store_other.
Qed.

Lemma market_form_keys client symbol side quantity ts :
  let form := signed_params client ts (market_params symbol side quantity) in
  keys form = ["symbol"; "side"; "type"; "quantity"; "timestamp"; "signature"]
  /\ get "symbol" form = Some (PStr symbol)
  /\ get "side" form = Some (PStr side)
  /\ get "type" form = Some (PStr "MARKET")
  /\ get "quantity" form = Some quantity.
Proof.
  unfold signed_params.
  generalize (PStr (_sign client
                      (set "timestamp" ts
                         (market_params symbol side quantity)))).
  intros v. repeat split.
Qed.

Lemma limit_form_keys client symbol side quantity price tif ts :
  let form :=
    signed_params client ts (limit_params symbol side quantity price tif) in
  keys form = ["symbol"; "side"; "type"; "quantity"; "price"; "timeInForce";
               "timestamp"; "signature"]
  /\ get "symbol" form = Some (PStr symbol)
  /\ get "side" form = Some (PStr side)
  /\ get "type" form = Some (PStr "LIMIT")
  /\ get "quantity" form = Some quantity
  /\ get "price" form = Some price
  /\ get "timeInForce" form = Some (PStr tif).
Proof.
  unfold signed_params.
  generalize (PStr (_sign client
                      (set "timestamp" ts
                         (limit_params symbol side quantity price tif)))).
  intros v. repeat split.
Qed.

(** X14.  [place_market_order] and [place_limit_order] each issue one
    request, a POST to https://testnet.binancefuture.com/fapi/v1/order
    with a timeout of 10 and the session headers.  The MARKET form is
    symbol, side, type=MARKET, quantity, timestamp, signature; the LIMIT
    form is symbol, side, type=LIMIT, quantity, price, timeInForce,
    timestamp, signature; the values are the arguments as passed. *)
Theorem market_and_limit_requests
    (client : BinanceClient) (symbol side : string)
    (quantity price : pyval) (tif : string) (w : World) (ts : pyval) :
  fst (_timestamp client w) = Ok ts ->
  (exists form,
     sent (snd (place_market_order client symbol side quantity w)) =
       sent w ++
       [{| method := "POST";
           url := "https://testnet.binancefuture.com/fapi/v1/order";
           headers := session_headers client; data := form;
           timeout := 10 |}] /\
     keys form =
       ["symbol"; "side"; "type"; "quantity"; "timestamp"; "signature"] /\
     get "symbol" form = Some (PStr symbol) /\
     get "side" form = Some (PStr side) /\
     get "type" form = Some (PStr "MARKET") /\
     get "quantity" form = Some quantity /\
     get "timestamp" form = Some ts) /\
  (exists form,
     sent (snd (place_limit_order client symbol side quantity price tif w)) =
       sent w ++
       [{| method := "POST";
           url := "https://testnet.binancefuture.com/fapi/v1/order";
           headers := session_headers client; data := form;
           timeout := 10 |}] /\
     keys form =
       ["symbol"; "side"; "type"; "quantity"; "price"; "timeInForce";
        "timestamp"; "signature"] /\
     get "symbol" form = Some (PStr symbol) /\
     get "side" form = Some (PStr side) /\
     get "type" form = Some (PStr "LIMIT") /\
     get "quantity" form = Some quantity /\
     get "price" form = Some price /\
     get "timeInForce" form = Some (PStr tif) /\
     get "timestamp" form = Some ts).
Proof.
  intros Hts. split.
  - rewrite place_market_order_eq.
    destruct (place_effect client (market_params symbol side quantity)
                "Placing MARKET order | symbol=%s side=%s qty=%s"
                "Failed to place MARKET order: %s" w ts Hts)
      as [_ [Hsent _]].
    eexists. split; [exact Hsent|].
    destruct (market_form_keys client symbol side quantity ts)
      as [H1 [H2 [H3 [H4 H5]]]].
    repeat split; assumption.
  - rewrite place_limit_order_eq.
    destruct (place_effect client
                (limit_params symbol side quantity price tif)
                "Placing LIMIT order | symbol=%s side=%s qty=%s price=%s"
                "Failed to place LIMIT order: %s" w ts Hts)
      as [_ [Hsent _]].
    eexists. split; [exact Hsent|].
    destruct (limit_form_keys client symbol side quantity price tif ts)
      as [H1 [H2 [H3 [H4 [H5 [H6 H7]]]]]].
    repeat split; assumption.
Qed.

Lemma market_and_limit_requests_witness :
  let w := Samples.world (Samples.always Samples.accepted) [] in
  fst (_timestamp Samples.client w) = Ok (PInt 1700000000000) /\
  exists form,
    map data (sent (snd (place_market_order Samples.client "BTCUSDT" "BUY"
                           (PInt 1) w))) = [form] /\
    get "timestamp" form = Some (PInt 1700000000000).
Proof.
  intros w. split; [reflexivity|].
  destruct (proj1 (market_and_limit_requests Samples.client "BTCUSDT" "BUY"
                     (PInt 1) PNone "GTC" w (PInt 1700000000000) eq_refl))
    as [form [Hsent [_ [_ [_ [_ [_ Hts]]]]]]].
  exists form. split; [|exact Hts].
  rewrite Hsent. reflexivity.
Defined.

(** X15.  What the three order functions return.  They return the decoded
    answer when [post_order] returns a JSON object, and re-raise what
    [post_order] raises, unchanged.  When [post_order] returns JSON that
    is not an object (a list, a number, null), the summary that follows
    calls [.get] on it and the order function raises [AttributeError],
    although the order was accepted. *)
Theorem order_functions_result
    (client : BinanceClient) (symbol side : string)
    (quantity price stop_price : pyval) (tif : string) (w : World)
    (ts : pyval) :
  fst (_timestamp client w) = Ok ts ->
  let posted := post_result (network w (List.length (sent w))) in
  fst (place_market_order client symbol side quantity w) =
    order_result posted /\
  fst (place_limit_order client symbol side quantity price tif w) =
    order_result posted /\
  fst (place_take_profit_market_order client symbol side stop_price w) =
    order_result posted /\
  (forall e, posted = Raise e -> order_result posted = Raise e) /\
  (forall fields, posted = Ok (JObj fields) ->
                  order_result posted = Ok (JObj fields)) /\
  (forall body, posted = Ok body -> (forall fields, body <> JObj fields) ->
                order_result posted = Raise AttributeError).
Proof.
  intros Hts posted.
  rewrite place_market_order_eq, place_limit_order_eq, place_take_profit_eq.
  split; [exact (proj1 (place_effect client _ _ _ w ts Hts))|].
  split; [exact (proj1 (place_effect client _ _ _ w ts Hts))|].
  split; [exact (proj1 (place_effect client _ _ _ w ts Hts))|].
  split; [intros e ->; reflexivity|].
  split; [intros fields ->; reflexivity|].
  intros body -> Hno. destruct body; try reflexivity.
  destruct (Hno fields eq_refl).
Qed.

Lemma order_functions_result_witness :
  let r := {| status_code := 200; json_body := Some (JArr []) |} in
  let w := Samples.world (Samples.always r) [] in
  fst (_timestamp Samples.client w) = Ok (PInt 1700000000000) /\
  fst (place_market_order Samples.client "BTCUSDT" "BUY" (PInt 1) w) =
    Raise AttributeError.
Proof.
  intros r w. split; [reflexivity|].
  exact (proj1 (order_functions_result Samples.client "BTCUSDT" "BUY"
                  (PInt 1) PNone PNone "GTC" w (PInt 1700000000000) eq_refl)).
Defined.

(** X16.  An order function builds its parameters in a dictionary of its
    own: the dictionaries that exist when it is called are the same
    afterwards, and the new one ends up holding the signed form. *)
Theorem order_functions_use_fresh_dict
    (client : BinanceClient) (symbol side : string)
    (quantity price stop_price : pyval) (tif : string) (w : World)
    (ts : pyval) :
  fst (_timestamp client w) = Ok ts ->
  let after_market :=
    snd (place_market_order client symbol side quantity w) in
  let after_limit :=
    snd (place_limit_order client symbol side quantity price tif w) in
  let after_take_profit :=
    snd (place_take_profit_market_order client symbol side stop_price w) in
  (forall r, r <> next_ref w ->
     heap after_market r = heap w r /\ heap after_limit r = heap w r /\
     heap after_take_profit r = heap w r) /\
  next_ref after_market = S (next_ref w) /\
  next_ref after_limit = S (next_ref w) /\
  next_ref after_take_profit = S (next_ref w) /\
  heap after_market (next_ref w) =
    signed_params client ts (market_params symbol side quantity) /\
  heap after_limit (next_ref w) =
    signed_params client ts (limit_params symbol side quantity price tif) /\
  heap after_take_profit (next_ref w) =
    signed_params client ts (take_profit_params symbol side stop_price).
Proof.
  intros Hts.
  rewrite place_market_order_eq, place_limit_order_eq, place_take_profit_eq.
  cbv zeta.
  destruct (place_effect client (market_params symbol side quantity)
              "Placing MARKET order | symbol=%s side=%s qty=%s"
              "Failed to place MARKET order: %s" w ts Hts)
    as [_ [_ [_ [M1 [M2 M3]]]]].
  destruct (place_effect client (limit_params symbol side quantity price tif)
              "Placing LIMIT order | symbol=%s side=%s qty=%s price=%s"
              "Failed to place LIMIT order: %s" w ts Hts)
    as [_ [_ [_ [L1 [L2 L3]]]]].
  destruct (place_effect client (take_profit_params symbol side stop_price)
              "Placing TAKE_PROFIT_MARKET order | symbol=%s side=%s stopPrice=%s"
              "Failed to place TAKE_PROFIT_MARKET order: %s" w ts Hts)
    as [_ [_ [_ [T1 [T2 T3]]]]].
  repeat split; auto.
Qed.

Lemma order_functions_use_fresh_dict_witness :
  let d := [("mine", PInt 7)] in
  let w := Samples.world (Samples.always Samples.accepted) d in
  fst (_timestamp Samples.client w) = Ok (PInt 1700000000000) /\
  heap (snd (place_market_order Samples.client "BTCUSDT" "BUY" (PInt 1) w))
       0%nat = d.
Proof.
  intros d w. split; [reflexivity|].
  exact (proj1 (proj1 (order_functions_use_fresh_dict Samples.client
                         "BTCUSDT" "BUY" (PInt 1) PNone PNone "GTC" w
                         (PInt 1700000000000) eq_refl)
                  0%nat ltac:(discriminate))).
Defined.

(** X17.  What the order functions log: the INFO line of the order, the
    records of [post_order], and then one more record only in two cases:
    the INFO success record when the answer is a JSON object, and the
    ERROR "Failed to place" record when [post_order] raised
    [BinanceAPIError].  A failure of the request itself (a connection
    error, a timeout) passes through without a "Failed to place" record. *)
Theorem order_functions_log
    (client : BinanceClient) (symbol side : string)
    (quantity price stop_price : pyval) (tif : string)
    (w : World) (ts : pyval) :
  fst (_timestamp client w) = Ok ts ->
  let answer := network w (List.length (sent w)) in
  let posted := post_result answer in
  log (snd (place_market_order client symbol side quantity w)) =
    log w ++
    [(INFO, "Placing MARKET order | symbol=%s side=%s qty=%s");
     (DEBUG, "POST %s | params: %s")]
    ++ post_log answer
    ++ order_log "Failed to place MARKET order: %s" posted /\
  log (snd (place_limit_order client symbol side quantity price tif w)) =
    log w ++
    [(INFO, "Placing LIMIT order | symbol=%s side=%s qty=%s price=%s");
     (DEBUG, "POST %s | params: %s")]
    ++ post_log answer
    ++ order_log "Failed to place LIMIT order: %s" posted /\
  log (snd (place_take_profit_market_order client symbol side stop_price w)) =
    log w ++
    [(INFO,
      "Placing TAKE_PROFIT_MARKET order | symbol=%s side=%s stopPrice=%s");
     (DEBUG, "POST %s | params: %s")]
    ++ post_log answer
    ++ order_log "Failed to place TAKE_PROFIT_MARKET order: %s" posted /\
  (forall failed e, answer = Fails e -> is_BinanceAPIError e = false ->
     order_log failed posted = []) /\
  (forall failed r fields, answer = Responds r ->
     json_body r = Some (JObj fields) -> ok r = false ->
     order_log failed posted = [(ERROR, failed)]) /\
  (forall failed r fields, answer = Responds r ->
     json_body r = Some (JObj fields) -> ok r = true ->
     order_log failed posted =
       [(INFO,
         "✅ %s order placed successfully | symbol=%s | orderId=%s | status=%s")]).
Proof.
  intros Hts answer posted.
  rewrite place_market_order_eq, place_limit_order_eq, place_take_profit_eq.
  split; [exact (proj1 (proj2 (proj2 (place_effect client _ _ _ w ts Hts))))|].
  split; [exact (proj1 (proj2 (proj2 (place_effect client _ _ _ w ts Hts))))|].
  split; [exact (proj1 (proj2 (proj2 (place_effect client _ _ _ w ts Hts))))|].
  unfold posted.
  split; [|split].
  - intros failed e -> He. cbn [post_result order_log].
    destruct e; try reflexivity. discriminate He.
  - intros failed r fields -> Hb Hok. unfold post_result.
    rewrite Hb, Hok. reflexivity.
  - intros failed r fields -> Hb Hok. unfold post_result.
    rewrite Hb, Hok. reflexivity.
Qed.

Lemma order_functions_log_witness :
  let w := Samples.world (fun _ => Fails ConnectionError) [] in
  fst (_timestamp Samples.client w) = Ok (PInt 1700000000000) /\
  log (snd (place_market_order Samples.client "BTCUSDT" "BUY" (PInt 1) w)) =
    [(INFO, "Placing MARKET order | symbol=%s side=%s qty=%s");
     (DEBUG, "POST %s | params: %s");
     (ERROR, "Network error connecting to Binance: %s")].
Proof.
  intros w. split; [reflexivity|].
  exact (proj1 (order_functions_log Samples.client "BTCUSDT" "BUY"
                  (PInt 1) PNone PNone "GTC" w (PInt 1700000000000)
                  eq_refl)).
Defined.

End OrdersExtras.

(* ===================================================================== *)
(** * Properties of [main] *)
(* ===================================================================== *)

Module CliFacts.
Import PyStr Py Validators Env Client Orders ClientSpec ExtraSpec.
Import ValidatorFacts DictFacts ClientFacts ClientExtras OrdersExtras.
Import ValidateAllExtras.
Local Open Scope list_scope.

Lemma int_add_errors (n : Z) (y : pyval) (e : exn) :
  int_add n y = Raise e -> is_BinanceAPIError e = false.
Proof.
  destruct y; simpl; try (intros [= <-]; reflexivity); try discriminate.
  destruct (PyFloat.of_int n); [discriminate | intros [= <-]; reflexivity].
Qed.

(** An order function either stops at the timestamp, or posts its form. *)
Lemma place_cases
    (client : BinanceClient) (d : dict pyval) (placing failed : string)
    (w : World) :
  let out := place client d placing failed w in
  (exists e, fst out = Raise e /\ sent (snd out) = sent w) \/
  (exists ts,
     fst (_timestamp client w) = Ok ts /\
     fst out = order_result (post_result (network w (List.length (sent w))))
     /\ sent (snd out) =
          sent w ++ [post_request client ORDER_ENDPOINT
                       (signed_params client ts d)]).
Proof.
  intros out.
  destruct (fst (_timestamp client w)) as [ts|e] eqn:Hts.
  - right. exists ts. split; [reflexivity|].
    destruct (place_effect client d placing failed w ts Hts)
      as [Hres [Hsent _]].
    split; assumption.
  - left. exists e. unfold out, place, mbind. cbn [alloc fst snd].
    set (w1 := with_heap w (store (heap w) (next_ref w) d) (S (next_ref w))).
    destruct (submit_effect client (next_ref w) placing failed w1)
      as [Hres [_ [Hsent _]]].
    cbn [emit fst snd] in Hres, Hsent.
    set (w2 := with_log w1 (log w1 ++ [(INFO, placing)])) in *.
    assert (Hts2 : fst (_timestamp client w2) = Raise e) by exact Hts.
    unfold post_order in Hres, Hsent.
    rewrite (post_without_timestamp client ORDER_ENDPOINT (next_ref w) w2 e
               Hts2) in Hres, Hsent.
    cbn [fst snd] in Hres, Hsent.
    rewrite Hres, Hsent. split; reflexivity.
Qed.

(** On a validated structure the dispatch calls one order function. *)
Lemma dispatch_places
    (symbol side order_type : string) (quantity price stop_price : pyval)
    (d : dict pyval) :
  validate_all symbol side order_type quantity price stop_price = Ok d ->
  exists form placing failed,
    forall client w,
      dispatch client d w =
      mbind (place client form placing failed) (fun _ => ret tt) w.
Proof.
  destruct (validate_order_type order_type) as [t|e0] eqn:Ht.
  2:{ unfold validate_all. rewrite Ht. discriminate. }
  destruct (validate_order_type_ok _ _ Ht) as [-> | [-> | ->]].
  - rewrite (validate_all_market _ _ _ _ price stop_price Ht).
    destruct (validate_symbol symbol) as [sy|]; [|discriminate].
    destruct (validate_side side) as [sd|]; [|discriminate].
    destruct (is_none quantity); [discriminate|].
    destruct (validate_quantity quantity) as [q|]; [|discriminate].
    intros [= <-]. eexists _, _, _. intros client w. reflexivity.
  - rewrite (validate_all_limit _ _ _ _ _ stop_price Ht).
    destruct (validate_symbol symbol) as [sy|]; [|discriminate].
    destruct (validate_side side) as [sd|]; [|discriminate].
    destruct (is_none quantity); [discriminate|].
    destruct (validate_quantity quantity) as [q|]; [|discriminate].
    destruct (validate_price price) as [p|]; [|discriminate].
    intros [= <-]. eexists _, _, _. intros client w. reflexivity.
  - rewrite (validate_all_take_profit _ _ _ quantity price _ Ht).
    destruct (validate_symbol symbol) as [sy|]; [|discriminate].
    destruct (validate_side side) as [sd|]; [|discriminate].
    destruct (validate_stop_price stop_price) as [sp|]; [|discriminate].
    intros [= <-]. eexists _, _, _. intros client w. reflexivity.
Qed.

Lemma ping_network (self : BinanceClient) (w : World) :
  network (snd (ping self w)) = network w.
Proof.
  unfold ping, try_except, mbind, session_get, http, emit, ret.
  world_simpl.
  destruct (network w (Datatypes.length (sent w))); reflexivity.
Qed.

(** Every way [main] ends, for arguments the command line can supply. *)
Lemma main_cases (args : Cli.Namespace) (w : World) :
  Cli.from_command_line (Cli.qty args) ->
  Cli.from_command_line (Cli.price args) ->
  Cli.from_command_line (Cli.stop_price args) ->
  let validated :=
    validate_all (Cli.symbol args) (Cli.side args) (Cli.order_type args)
                 (Cli.qty args) (Cli.price args) (Cli.stop_price args) in
  let out := Cli.main args w in
  let time_req :=
    get_request
      (fresh (strip (get_default "BINANCE_API_KEY" "" (environ w)))
             (strip (get_default "BINANCE_API_SECRET" "" (environ w))))
      TIME_ENDPOINT in
  (is_ok validated = false /\ fst out = Ok 1 /\ sent (snd out) = sent w /\
   ticks (snd out) = ticks w) \/
  (is_ok validated = true /\ has_credentials w = false /\
   fst out = Ok 1 /\ sent (snd out) = sent w /\ ticks (snd out) = ticks w) \/
  (is_ok validated = true /\ has_credentials w = true /\
   fst out = Ok 1 /\
   exists ping_req,
     method ping_req = "GET" /\
     sent (snd out) = sent w ++ [time_req; ping_req]) \/
  (is_ok validated = true /\ has_credentials w = true /\
   reachable w = true /\
   fst out =
     Ok (if is_ok (order_result (post_result (answer_at w 2)))
         then 0 else 1) /\
   exists ping_req order_req,
     method ping_req = "GET" /\ method order_req = "POST" /\
     url order_req = "https://testnet.binancefuture.com/fapi/v1/order" /\
     sent (snd out) = sent w ++ [time_req; ping_req; order_req]).
Proof.
  intros Hq Hp Hsp validated out time_req.
  subst out. destruct (Cli.main args w) as [res wf] eqn:Hmain.
  cbn [fst snd]. revert Hmain.
  unfold Cli.main, mbind, try_except. cbn [emit fst snd].
  fold validated.
  set (w0 := with_log w _).
  destruct validated as [d|e] eqn:Hv.
  2:{ destruct (validate_all_error_kind _ _ _ _ _ _ e Hq Hp Hsp Hv)
        as [msg ->].
      cbn. intros [= <- <-]. left. repeat split. }
  destruct (init_cases w0) as [[Hc [msg Hinit]] | [Hc Hinit]];
    change (has_credentials w0) with (has_credentials w) in Hc.
  - rewrite Hinit. cbn. intros [= <- <-]. right. left. repeat split.
    exact Hc.
  - destruct Hinit as [self [w1 [Hinit [Hheads [Hsent1 [_ Hnet1]]]]]].
    change (environ w0) with (environ w) in *.
    change (sent w0) with (sent w) in Hsent1.
    change (network w0) with (network w) in Hnet1.
    rewrite Hinit. cbn [ret fst snd].
    destruct (ping_run self w1) as [w2 [Hping [Hsent2 _]]].
    pose proof (ping_network self w1) as Hnet2.
    rewrite Hping in Hnet2 |- *. cbn [snd] in Hnet2.
    assert (Hlen1 : List.length (sent w1) = S (List.length (sent w)))
      by (rewrite Hsent1, length_app; simpl; lia).
    assert (Hreach :
              match network w1 (Datatypes.length (sent w1)) with
              | Responds r => ok r
              | Fails _ => false
              end = reachable w).
    { unfold reachable, answer_at. rewrite Hnet1, Hlen1. reflexivity. }
    rewrite Hreach.
    assert (Hsent2' : sent w2 =
                      sent w ++ [time_req; get_request self PING_ENDPOINT]).
    { rewrite Hsent2, Hsent1, <- app_assoc. reflexivity. }
    destruct (reachable w) eqn:Hr; cbn [negb].
    + destruct (dispatch_places _ _ _ _ _ _ d Hv)
        as [form [placing [failed Hd]]].
      rewrite Hd. unfold mbind.
      destruct (place_cases self form placing failed w2)
        as [[e [Hres Hs2]] | [ts [Hts [Hres Hs2]]]].
      * destruct (place self form placing failed w2) as [r3 w3].
        cbn [fst snd] in Hres, Hs2. subst r3.
        intros Hmain. right. right. left.
        split; [reflexivity|]. split; [exact Hc|].
        assert (Hfin : res = Ok 1 /\ sent wf = sent w3).
        { revert Hmain. destruct (is_BinanceAPIError e); cbn;
            intros [= <- <-]; split; reflexivity. }
        destruct Hfin as [-> Hwf]. split; [reflexivity|].
        exists (get_request self PING_ENDPOINT). split; [reflexivity|].
        rewrite Hwf, Hs2. exact Hsent2'.
      * assert (Hans : network w2 (Datatypes.length (sent w2)) =
                       answer_at w 2).
        { unfold answer_at. rewrite Hnet2, Hnet1, Hsent2', length_app.
          simpl. f_equal. lia. }
        rewrite Hans in Hres.
        destruct (place self form placing failed w2) as [r3 w3].
        cbn [fst snd] in Hres, Hs2. subst r3.
        intros Hmain. right. right. right.
        split; [reflexivity|]. split; [exact Hc|]. split; [reflexivity|].
        assert (Hfin :
                  res = Ok (if is_ok (order_result
                                        (post_result (answer_at w 2)))
                            then 0 else 1) /\ sent wf = sent w3).
        { revert Hmain.
          destruct (order_result (post_result (answer_at w 2))) as [b|e];
            cbn; [intros [= <- <-]; split; reflexivity|].
          destruct (is_BinanceAPIError e); cbn;
            intros [= <- <-]; split; reflexivity. }
        destruct Hfin as [-> Hwf]. split; [reflexivity|].
        exists (get_request self PING_ENDPOINT),
               (post_request self ORDER_ENDPOINT (signed_params self ts form)).
        split; [reflexivity|]. split; [reflexivity|]. split; [reflexivity|].
        rewrite Hwf, Hs2, Hsent2', <- app_assoc. reflexivity.
    + cbn. intros [= <- <-]. right. right. left.
      split; [reflexivity|]. split; [exact Hc|]. split; [reflexivity|].
      exists (get_request self PING_ENDPOINT). split; [reflexivity|].
      exact Hsent2'.
Qed.

End CliFacts.

Module CliExtras.
Import PyStr Py Validators Env Client Orders ClientSpec ExtraSpec.
Import ClientFacts CliFacts.
Local Open Scope list_scope.

(** X18.  [main] validates and loads the credentials before it touches
    the network: when validation fails, or when a credential is missing,
    it exits with status 1 and has made no request and read no clock. *)
Theorem main_stops_before_network (args : Cli.Namespace) (w : World) :
  Cli.from_command_line (Cli.qty args) ->
  Cli.from_command_line (Cli.price args) ->
  Cli.from_command_line (Cli.stop_price args) ->
  is_ok (validate_all (Cli.symbol args) (Cli.side args) (Cli.order_type args)
           (Cli.qty args) (Cli.price args) (Cli.stop_price args)) = false \/
  has_credentials w = false ->
  fst (Cli.main args w) = Ok 1 /\
  sent (snd (Cli.main args w)) = sent w /\
  ticks (snd (Cli.main args w)) = ticks w.
Proof.
  intros Hq Hp Hsp Hbad.
  destruct (main_cases args w Hq Hp Hsp)
    as [[_ H] | [[_ [_ H]] | [[Hv [Hc _]] | [Hv [Hc _]]]]];
    try exact H; destruct Hbad; congruence.
Qed.

Lemma main_stops_before_network_witness :
  let args :=
    {| Cli.symbol := "BTC-USDT"; Cli.side := "BUY";
       Cli.order_type := "MARKET"; Cli.qty := PStr "1";
       Cli.price := PNone; Cli.stop_price := PNone |} in
  let w := Samples.world (Samples.always Samples.accepted) [] in
  Cli.from_command_line (Cli.qty args) /\
  Cli.from_command_line (Cli.price args) /\
  fst (Cli.main args w) = Ok 1 /\ sent (snd (Cli.main args w)) = [].
Proof.
  intros args w.
  assert (Hq : Cli.from_command_line (Cli.qty args))
    by (right; exists "1"; reflexivity).
  assert (Hn : Cli.from_command_line PNone) by (left; reflexivity).
  split; [exact Hq|]. split; [exact Hn|].
  destruct (main_stops_before_network args w Hq Hn Hn
              (or_introl eq_refl)) as [H1 [H2 _]].
  split; [exact H1 | exact H2].
Defined.





(** X21.  When the ping is not answered, or is answered with a 4xx or 5xx
    status, [main] exits with status 1 and posts no order: every request
    it has made is a GET. *)
Theorem main_unreachable (args : Cli.Namespace) (w : World) :
  Cli.from_command_line (Cli.qty args) ->
  Cli.from_command_line (Cli.price args) ->
  Cli.from_command_line (Cli.stop_price args) ->
  reachable w = false ->
  fst (Cli.main args w) = Ok 1 /\
  exists requests,
    sent (snd (Cli.main args w)) = sent w ++ requests /\
    Forall (fun rq => method rq = "GET") requests.
Proof.
  intros Hq Hp Hsp Hr.
  destruct (main_cases args w Hq Hp Hsp)
    as [[_ [H1 [H2 _]]] | [[_ [_ [H1 [H2 _]]]] |
        [[_ [_ [H1 [rq [Hm H2]]]]] | [_ [_ [Hr' _]]]]]].
  - split; [exact H1|]. exists []. rewrite app_nil_r. split; [exact H2|].
    constructor.
  - split; [exact H1|]. exists []. rewrite app_nil_r. split; [exact H2|].
    constructor.
  - split; [exact H1|]. eexists. split; [exact H2|].
    repeat constructor. exact Hm.
  - congruence.
Qed.

Lemma main_unreachable_witness :
  let args :=
    {| Cli.symbol := "btcusdt"; Cli.side := "buy";
       Cli.order_type := "market"; Cli.qty := PStr "0.001";
       Cli.price := PNone; Cli.stop_price := PNone |} in
  let w := Samples.world (fun _ => Fails ConnectionError) [] in
  Cli.from_command_line (Cli.qty args) /\
  Cli.from_command_line (Cli.price args) /\
  reachable w = false /\
  fst (Cli.main args w) = Ok 1.
Proof.
  intros args w.
  assert (Hq : Cli.from_command_line (Cli.qty args))
    by (right; exists "0.001"; reflexivity).
  assert (Hn : Cli.from_command_line PNone) by (left; reflexivity).
  split; [exact Hq|]. split; [exact Hn|]. split; [reflexivity|].
  exact (proj1 (main_unreachable args w Hq Hn Hn eq_refl)).
Defined.

End CliExtras.

(* ===================================================================== *)
(** * Further properties of the logging configuration *)
(* ===================================================================== *)

Module LoggingFacts.
Import PyStr Py Logging.
Local Open Scope list_scope.

Lemma length_app (s t : string) :
  String.length (s ++ t)%string = (String.length s + String.length t)%nat.
Proof. induction s as [|c s IH]; simpl; [reflexivity | now rewrite IH]. Qed.

Lemma app_empty (s : string) : (s ++ EmptyString)%string = s.
Proof. induction s as [|c s IH]; simpl; [reflexivity | now rewrite IH]. Qed.

(** A value looked up with a default has every property the default and
    all stored values have. *)
Lemma get_default_all {V} (P : V -> Prop) (k : string) (d : V)
      (l : dict V) :
  P d -> Forall (fun kv => P (snd kv)) l -> P (get_default k d l).
Proof.
  intros Hd Hl. unfold get_default.
  induction Hl as [|[k' v] l Hv _ IH]; simpl; [exact Hd|].
  destruct (k' =? k)%string; [exact Hv | exact IH].
Qed.

(** Every colour sequence, the reset sequence included, has at least
    four characters. *)
Lemma color_length (l : string) :
  (4 <= String.length
          (get_default l (get_default "RESET" EmptyString COLORS) COLORS))%nat.
Proof.
  apply get_default_all; [vm_compute; lia|].
  repeat constructor; vm_compute; lia.
Qed.

Lemma ljust_long (width : nat) (s : string) :
  (width <= String.length s)%nat -> ljust width s = s.
Proof.
  intros H. unfold ljust.
  replace (width - String.length s)%nat with 0%nat by lia.
  apply app_empty.
Qed.

Lemma setup_logger_new (name : string) (reg : registry) :
  handlers (getLogger name reg) = [] ->
  setup_logger name reg =
    (set name {| level := DEBUG;
                 handlers := [file_handler; console_handler] |} reg,
     {| level := DEBUG; handlers := [file_handler; console_handler] |}).
Proof. intros H. unfold setup_logger. rewrite H. reflexivity. Qed.

End LoggingFacts.

Module LoggingExtras.
Import PyStr Py Logging LoggingFacts.
Local Open Scope list_scope.

(** X22.  [setup_logger] is idempotent: after a first call, [getLogger]
    finds the logger that call returned, a second call returns the same
    logger and leaves the registry as it is, so no handler is added
    twice; and the loggers of other names are not touched. *)
Theorem setup_logger_idempotent (name other : string) (reg : registry) :
  let first := setup_logger name reg in
  getLogger name (fst first) = snd first /\
  setup_logger name (fst first) = first /\
  handlers (snd first) <> [] /\
  (other <> name -> getLogger other (fst first) = getLogger other reg).
Proof.
  unfold setup_logger; cbv zeta.
  destruct (handlers (getLogger name reg)) as [|h hs] eqn:Hh; cbn [fst snd].
  - assert (Hg : getLogger name
                   (set name {| level := DEBUG;
                                handlers := [file_handler; console_handler] |}
                        reg)
                 = {| level := DEBUG;
                      handlers := [file_handler; console_handler] |}).
    { unfold getLogger, get_default.
      rewrite DictFacts.get_set_same. reflexivity. }
    cbn [app]. rewrite Hg. cbn [handlers].
    split; [reflexivity|]. split; [reflexivity|].
    split; [discriminate|].
    intros Hne. unfold getLogger, get_default.
    rewrite DictFacts.get_set_other by (intros E; apply Hne; symmetry; exact E).
    reflexivity.
  - rewrite Hh.
    split; [reflexivity|]. split; [reflexivity|].
    split; [discriminate | reflexivity].
Qed.

Lemma setup_logger_idempotent_witness :
  "trading_bot.orders"%string <> "trading_bot.client"%string /\
  getLogger "trading_bot.orders"
            (fst (setup_logger "trading_bot.client" [])) =
  getLogger "trading_bot.orders" [].
Proof.
  assert (Hne : "trading_bot.orders"%string <> "trading_bot.client"%string)
    by discriminate.
  split; [exact Hne|].
  exact (proj2 (proj2 (proj2
           (setup_logger_idempotent "trading_bot.client"
                                    "trading_bot.orders" []))) Hne).
Defined.

(** X23.  A logger that [setup_logger] has just configured writes every
    record of level DEBUG or above to the file, in the plain layout with
    the record's own level name, and only the records of level INFO or
    above to the console: a DEBUG record reaches the file alone. *)
Theorem debug_records_reach_the_file_only
        (name : string) (reg : registry) (r : LogRecord) :
  handlers (getLogger name reg) = [] ->
  let out := handle (snd (setup_logger name reg)) r in
  lines_to LogFile out =
    (if DEBUG <=? levelno r then [format_file r] else []) /\
  lines_to Console out =
    (if INFO <=? levelno r
     then [fst (format ColoredFormatter_console r)] else []).
Proof.
  intros H. rewrite (setup_logger_new name reg H). cbn [snd].
  unfold handle. cbn [level handlers callHandlers file_handler
                      console_handler threshold layout target].
  unfold DEBUG, INFO.
  destruct (10 <=? levelno r) eqn:H10.
  - cbn [format]. destruct (20 <=? levelno r) eqn:H20; split; reflexivity.
  - assert (H20 : (20 <=? levelno r) = false) by lia.
    rewrite H20. split; reflexivity.
Qed.

Lemma debug_records_reach_the_file_only_witness :
  let r := {| asctime := "2026-01-01 00:00:00"; levelname := "DEBUG";
              levelno := DEBUG; name := "trading_bot.client";
              message := "POST /fapi/v1/order" |} in
  handlers (getLogger "trading_bot.client" []) = [] /\
  lines_to Console (handle (snd (setup_logger "trading_bot.client" [])) r)
    = [] /\
  lines_to LogFile (handle (snd (setup_logger "trading_bot.client" [])) r)
    = ["2026-01-01 00:00:00 | DEBUG    | trading_bot.client | POST /fapi/v1/order"%string].
Proof.
  intros r. split; [reflexivity|].
  destruct (debug_records_reach_the_file_only
              "trading_bot.client" [] r eq_refl) as [Hf Hc].
  split; [exact Hc | exact Hf].
Defined.

(** X24.  [ColoredFormatter.format] wraps the level name in the colour
    sequence of its level and the reset sequence, and stores it back in
    the record: cyan (36) for DEBUG, green (32) for INFO, yellow (33) for
    WARNING, red (31) for ERROR, magenta (35) for CRITICAL, and the reset
    sequence itself for any other name.  The wrapped name is never
    shorter than eight characters, so the [%-8s] of the console layout
    pads nothing, whatever the level. *)
Theorem console_level_is_not_padded (r : LogRecord) :
  let line := fst (format ColoredFormatter_console r) in
  let after := snd (format ColoredFormatter_console r) in
  let esc := String (chr 27) "[" in
  let color :=
    (if levelname r =? "DEBUG" then esc ++ "36m"
     else if levelname r =? "INFO" then esc ++ "32m"
     else if levelname r =? "WARNING" then esc ++ "33m"
     else if levelname r =? "ERROR" then esc ++ "31m"
     else if levelname r =? "CRITICAL" then esc ++ "35m"
     else esc ++ "0m")%string in
  levelname after = (color ++ levelname r ++ esc ++ "0m")%string /\
  asctime after = asctime r /\ levelno after = levelno r /\
  name after = name r /\ message after = message r /\
  line = (asctime r ++ " | " ++ levelname after ++ " | " ++ message r)%string.
Proof.
  cbn [format fst snd].
  set (reset := get_default "RESET" EmptyString COLORS).
  set (color := get_default (levelname r) reset COLORS).
  assert (Hc : color =
               if (levelname r =? "DEBUG")%string then ansi "36"
               else if (levelname r =? "INFO")%string then ansi "32"
               else if (levelname r =? "WARNING")%string then ansi "33"
               else if (levelname r =? "ERROR")%string then ansi "31"
               else if (levelname r =? "CRITICAL")%string then ansi "35"
               else ansi "0").
  { subst color reset. unfold get_default, COLORS. cbn [get].
    rewrite !(String.eqb_sym _ (levelname r)).
    repeat (destruct (levelname r =? _)%string; [reflexivity|]).
    reflexivity. }
  split.
  - cbn [levelname with_levelname]. rewrite Hc.
    repeat (destruct (levelname r =? _)%string; [reflexivity|]).
    reflexivity.
  - repeat (split; [reflexivity|]).
    unfold format_console. cbn [asctime levelname message with_levelname].
    rewrite ljust_long; [reflexivity|].
    rewrite !length_app.
    pose proof (color_length (levelname r)) as Hl. fold reset in Hl.
    fold color in Hl.
    assert (Hr : String.length reset = 4%nat) by reflexivity.
    lia.
Qed.

End LoggingExtras.
